(** * XTP gateway: market-data session, tick filter, order/trade reconciler

    A shallow embedding of [vnpy_xtp/gateway/xtp_gateway.py].

    The two session objects ([XtpMdApi], [XtpTdApi]) are records; a method
    is a computation in a small monad that threads the object, collects the
    calls made to the outside world (vendor SDK, host gateway, logging,
    [sleep]) in a trace, and may raise a Python exception.  An exception
    keeps the mutations done before it, as in Python.

    Conventions of the embedding:
    - vendor integers (ids, codes, quantities, time stamps) are [Z];
    - [dict] tables with integer keys are functions into [option]
      ([d[k]] raises [KeyError] on [None], [d.get(k, v)] takes the default);
    - [self.orders] and [self.last_tick_time] are [gmap]s keyed by strings,
      [self.subscribe_request_list] is a [gset] of pairs,
      [self.short_positions] is an association list in insertion order
      (its [values()] are published in that order);
    - prices are stored and copied by the handlers modelled here, never
      computed on: they are carried as [Z];
    - vendor calls are recorded with their arguments and return; the value
      a vendor call returns ([login], [getApiLastError], the configuration
      repository) is an argument of the method that makes the call. *)

From Stdlib Require Import Ascii String.
From stdpp Require Import gmap strings list fin_maps pretty.

Open Scope string_scope.
Open Scope list_scope.
Open Scope Z_scope.

(** ** Constants of [vnpy.trader.constant] used by the gateway *)

Module Const.

(** [Exchange]: the two markets XTP serves, and any other member of the
    enumeration by its [value]. *)
Inductive Exchange : Type :=
| SSE
| SZSE
| OtherExchange (value : string).

Inductive Direction : Type := LONG | SHORT | NET.

Inductive Offset : Type :=
  NONE | OPEN | CLOSE | CLOSETODAY | CLOSEYESTERDAY.

Inductive OrderType : Type := LIMIT | MARKET | STOP | FAK | FOK | RFQ.

Inductive Status : Type :=
  SUBMITTING | NOTTRADED | PARTTRADED | ALLTRADED | CANCELLED | REJECTED.

#[global] Instance Exchange_eq_dec : EqDecision Exchange.
Proof. solve_decision. Defined.

#[global] Instance Direction_eq_dec : EqDecision Direction.
Proof. solve_decision. Defined.

#[global] Instance Offset_eq_dec : EqDecision Offset.
Proof. solve_decision. Defined.

#[global] Instance OrderType_eq_dec : EqDecision OrderType.
Proof. solve_decision. Defined.

#[global] Instance Status_eq_dec : EqDecision Status.
Proof. solve_decision. Defined.

Definition Exchange_to_sum (e : Exchange) : bool + string :=
  match e with
  | SSE => inl true
  | SZSE => inl false
  | OtherExchange v => inr v
  end.

Definition Exchange_of_sum (x : bool + string) : Exchange :=
  match x with
  | inl true => SSE
  | inl false => SZSE
  | inr v => OtherExchange v
  end.

#[global] Instance Exchange_countable : Countable Exchange.
Proof.
  apply (inj_countable' Exchange_to_sum Exchange_of_sum).
  by intros [].
Defined.

Definition Exchange_value (e : Exchange) : string :=
  match e with
  | SSE => "SSE"
  | SZSE => "SZSE"
  | OtherExchange v => v
  end.

(** [MARKET_XTP2VT] *)
Definition MARKET_XTP2VT (k : Z) : option Exchange :=
  match k with
  | 1 => Some SZSE
  | 2 => Some SSE
  | _ => None
  end.

(** [EXCHANGE_XTP2VT] *)
Definition EXCHANGE_XTP2VT (k : Z) : option Exchange :=
  match k with
  | 1 => Some SSE
  | 2 => Some SZSE
  | _ => None
  end.

(** [EXCHANGE_VT2XTP], the inverse dictionary of [EXCHANGE_XTP2VT]. *)
Definition EXCHANGE_VT2XTP (e : Exchange) : option Z :=
  match e with
  | SSE => Some 1
  | SZSE => Some 2
  | OtherExchange _ => None
  end.

(** [DIRECTION_STOCK_XTP2VT] *)
Definition DIRECTION_STOCK_XTP2VT (k : Z) : option (Direction * Offset) :=
  match k with
  | 1 => Some (LONG, NONE)
  | 2 => Some (SHORT, NONE)
  | 21 => Some (LONG, OPEN)
  | 22 => Some (SHORT, OPEN)
  | 24 => Some (LONG, CLOSE)
  | 23 => Some (SHORT, CLOSE)
  | _ => None
  end.

(** [DIRECTION_OPTION_XTP2VT] *)
Definition DIRECTION_OPTION_XTP2VT (k : Z) : option Direction :=
  match k with
  | 1 => Some LONG
  | 2 => Some SHORT
  | _ => None
  end.

(** [OPTION_ORDERTYPE_XTP2VT] *)
Definition OPTION_ORDERTYPE_XTP2VT (k : Z) : option OrderType :=
  match k with
  | 1 => Some LIMIT
  | 2 => Some MARKET
  | 8 => Some FOK
  | _ => None
  end.

(** [EQUITY_ORDERTYPE_XTP2VT] *)
Definition EQUITY_ORDERTYPE_XTP2VT (k : Z) : option OrderType :=
  match k with
  | 1 => Some LIMIT
  | 4 => Some MARKET
  | _ => None
  end.

(** [STAR_ORDERTYPE_XTP2VT] *)
Definition STAR_ORDERTYPE_XTP2VT (k : Z) : option OrderType :=
  match k with
  | 1 => Some LIMIT
  | 7 => Some MARKET
  | _ => None
  end.

(** [PROTOCOL_VT2XTP] *)
Definition PROTOCOL_VT2XTP (k : string) : option Z :=
  if decide (k = "TCP") then Some 1
  else if decide (k = "UDP") then Some 2
  else None.

(** [STATUS_XTP2VT] *)
Definition STATUS_XTP2VT (k : Z) : option Status :=
  match k with
  | 0 => Some SUBMITTING
  | 1 => Some ALLTRADED
  | 2 => Some PARTTRADED
  | 3 => Some CANCELLED
  | 4 => Some NOTTRADED
  | 5 => Some CANCELLED
  | 6 => Some REJECTED
  | 7 => Some SUBMITTING
  | _ => None
  end.

(** [OFFSET_XTP2VT], the inverse dictionary of [OFFSET_VT2XTP]. *)
Definition OFFSET_XTP2VT (k : Z) : option Offset :=
  match k with
  | 0 => Some NONE
  | 1 => Some OPEN
  | 2 => Some CLOSE
  | 4 => Some CLOSETODAY
  | 5 => Some CLOSEYESTERDAY
  | _ => None
  end.

(** [XTP_EXCHANGE_UNKNOWN] of the vendor binding: both markets. *)
Definition XTP_EXCHANGE_UNKNOWN : Z := 3.

End Const.

Export Const.

(** ** Time stamps *)

Module Stamp.

(** A [datetime] carrying the constant zone [CHINA_TZ]. *)
Record datetime : Type := mk_datetime {
  year : Z;
  month : Z;
  day : Z;
  hour : Z;
  minute : Z;
  second : Z;
  microsecond : Z
}.

#[global] Instance datetime_eq_dec : EqDecision datetime.
Proof. solve_decision. Defined.

Definition is_leap (y : Z) : bool :=
  ((y mod 4 =? 0) && negb (y mod 100 =? 0)) || (y mod 400 =? 0).

Definition days_in_month (y m : Z) : Z :=
  match m with
  | 2 => if is_leap y then 29 else 28
  | 4 | 6 | 9 | 11 => 30
  | _ => 31
  end.

(** A character class of a regular expression. *)
Definition class : Type := ascii -> bool.

Definition between (lo hi : ascii) : class :=
  fun c => ((nat_of_ascii lo <=? nat_of_ascii c)
            && (nat_of_ascii c <=? nat_of_ascii hi))%nat.

Definition only (c : ascii) : class := between c c.

Definition digit : class := between "0" "9".

(** One alternative of a group, a sequence of classes, read at the head of
    the text: the characters read and the rest. *)
Fixpoint read (alt : list class) (s : list ascii)
  : option (list ascii * list ascii) :=
  match alt, s with
  | [], _ => Some ([], s)
  | _ :: _, [] => None
  | p :: alt', c :: s' =>
      if p c then
        match read alt' s' with
        | Some (token, rest) => Some (c :: token, rest)
        | None => None
        end
      else None
  end.

(** [re.match] for a sequence of groups, each a list of alternatives in
    their order of preference: the first way through that matches every
    group, found by backtracking; the text of each group and the rest. *)
Fixpoint regex_match (groups : list (list (list class))) (s : list ascii)
  : option (list (list ascii) * list ascii) :=
  match groups with
  | [] => Some ([], s)
  | alts :: groups' =>
      (fix first_of (alts : list (list class)) :=
         match alts with
         | [] => None
         | alt :: alts' =>
             match read alt s with
             | Some (token, rest) =>
                 match regex_match groups' rest with
                 | Some (tokens, rest') => Some (token :: tokens, rest')
                 | None => first_of alts'
                 end
             | None => first_of alts'
             end
         end) alts
  end.

(** The groups that the standard library's [_strptime.TimeRE] has for the
    directives of the format ["%Y%m%d%H%M%S%f"]:
    [\d\d\d\d], [1[0-2]|0[1-9]|[1-9]], [3[0-1]|[1-2]\d|0[1-9]|[1-9]| [1-9]],
    [2[0-3]|[0-1]\d|\d], [[0-5]\d|\d], [6[0-1]|[0-5]\d|\d] and
    [[0-9]{1,6}], the last one greedy. *)
Definition RE_Y : list (list class) := [[digit; digit; digit; digit]].

Definition RE_m : list (list class) :=
  [[only "1"; between "0" "2"]; [only "0"; between "1" "9"];
   [between "1" "9"]].

Definition RE_d : list (list class) :=
  [[only "3"; between "0" "1"]; [between "1" "2"; digit];
   [only "0"; between "1" "9"]; [between "1" "9"];
   [only " "; between "1" "9"]].

Definition RE_H : list (list class) :=
  [[only "2"; between "0" "3"]; [between "0" "1"; digit]; [digit]].

Definition RE_M : list (list class) := [[between "0" "5"; digit]; [digit]].

Definition RE_S : list (list class) :=
  [[only "6"; between "0" "1"]; [between "0" "5"; digit]; [digit]].

Definition RE_f : list (list class) :=
  [replicate 6 digit; replicate 5 digit; replicate 4 digit;
   replicate 3 digit; replicate 2 digit; replicate 1 digit].

Definition FORMAT : list (list (list class)) :=
  [RE_Y; RE_m; RE_d; RE_H; RE_M; RE_S; RE_f].

(** [int] on the text of a group. *)
Definition int (token : list ascii) : Z :=
  fold_left (fun n c => n * 10 + (Z.of_nat (nat_of_ascii c) - 48)) token 0.

(** [datetime.strptime(str(stamp), "%Y%m%d%H%M%S%f")], as the standard
    library computes it; [None] is [ValueError].  The text of the number
    is matched against the regular expression of the format, fields of one
    digit included, and has to be used up by the match; the fraction is
    padded with zeros on the right to six digits; [date] then refuses the
    year 0 and a day the month does not have, and [datetime] a second above
    59.  The vendor's stamps are the 17-digit numbers [YYYYMMDDHHMMSSsss];
    shorter and longer texts are read as the expression reads them. *)
Definition strptime (stamp : Z) : option datetime :=
  let data_string := list_ascii_of_string (pretty stamp) in
  match regex_match FORMAT data_string with
  | Some ([gY; gm; gd; gH; gM; gS; gf], []) =>
      let fraction := int (gf ++ replicate (6 - length gf) "0"%char) in
      if (1 <=? int gY) && (1 <=? int gm) && (int gm <=? 12)
         && (1 <=? int gd) && (int gd <=? days_in_month (int gY) (int gm))
         && (int gS <=? 59)
      then Some (mk_datetime (int gY) (int gm) (int gd) (int gH) (int gM)
                   (int gS) fraction)
      else None
  | _ => None
  end.

(** The instant of a [datetime] as one number; all values share one zone,
    so this orders them as Python's comparison does. *)
Definition instant (t : datetime) : Z :=
  (((((year t * 100 + month t) * 100 + day t) * 100 + hour t) * 100
    + minute t) * 100 + second t) * 1000000 + microsecond t.

(** Modelled from the spec: [DateUtil.datetime_a_le_b] of
    [vnpy.trader.utility], the comparison the tick filter calls, is not
    part of the sources.  It is modelled on the spec's description of the
    filter (a tick is dropped if it is strictly earlier than the last
    accepted one; an accepted tick's timestamp is at least the last
    accepted one): [a] strictly earlier than [b].  The name of the helper
    and the spec's list of testable properties read as earlier or equal;
    the sources do not decide between the two, and only statements that
    name the instants of both times depend on the choice. *)
Definition datetime_a_le_b (a b : datetime) : bool :=
  instant a <? instant b.

End Stamp.

Export Stamp.

(** ** Domain objects of [vnpy.trader.object] *)

Record OrderData : Type := mk_OrderData {
  o_symbol : string;
  o_exchange : Exchange;
  o_orderid : string;
  o_type : OrderType;
  o_direction : Direction;
  o_offset : Offset;
  o_price : Z;
  o_volume : Z;
  o_traded : Z;
  o_status : Status;
  o_datetime : option datetime;
  o_gateway_name : string
}.

Record TradeData : Type := mk_TradeData {
  t_symbol : string;
  t_exchange : Exchange;
  t_orderid : string;
  t_tradeid : string;
  t_direction : Direction;
  t_offset : Offset;
  t_price : Z;
  t_volume : Z;
  t_datetime : datetime;
  t_gateway_name : string
}.

(** [PositionData]; [frozen], [price], [pnl] and [yd_volume] keep their
    default 0 in the handler modelled here and are left out. *)
Record PositionData : Type := mk_PositionData {
  p_symbol : string;
  p_exchange : Exchange;
  p_direction : Direction;
  p_volume : Z;
  p_gateway_name : string
}.

(** The [TickData] handed to the host: the contract key and the time.  The
    price and volume fields are floating-point copies of the payload. *)
Record TickData : Type := mk_TickData {
  k_symbol : string;
  k_exchange : Exchange;
  k_datetime : datetime;
  k_gateway_name : string
}.

Definition set_traded (v : Z) (o : OrderData) : OrderData :=
  mk_OrderData (o_symbol o) (o_exchange o) (o_orderid o) (o_type o)
    (o_direction o) (o_offset o) (o_price o) (o_volume o) v (o_status o)
    (o_datetime o) (o_gateway_name o).

Definition set_status (st : Status) (o : OrderData) : OrderData :=
  mk_OrderData (o_symbol o) (o_exchange o) (o_orderid o) (o_type o)
    (o_direction o) (o_offset o) (o_price o) (o_volume o) (o_traded o) st
    (o_datetime o) (o_gateway_name o).

Definition set_datetime (t : datetime) (o : OrderData) : OrderData :=
  mk_OrderData (o_symbol o) (o_exchange o) (o_orderid o) (o_type o)
    (o_direction o) (o_offset o) (o_price o) (o_volume o) (o_traded o)
    (o_status o) (Some t) (o_gateway_name o).

Definition add_volume (v : Z) (p : PositionData) : PositionData :=
  mk_PositionData (p_symbol p) (p_exchange p) (p_direction p)
    (p_volume p + v) (p_gateway_name p).

(** ** Payloads of the vendor callbacks *)

(** The [error] dictionary. *)
Record ErrorInfo : Type := mk_ErrorInfo {
  error_id : Z;
  error_msg : string
}.

(** [data] of [onDepthMarketData]: the fields that decide what happens to
    the tick. *)
Record DepthData : Type := mk_DepthData {
  md_data_time : Z;
  md_ticker : string;
  md_exchange_id : Z
}.

(** [data] of [onOrderEvent]. *)
Record OrderEventData : Type := mk_OrderEventData {
  oe_ticker : string;
  oe_side : Z;
  oe_position_effect : Z;
  oe_price_type : Z;
  oe_order_xtp_id : Z;
  oe_market : Z;
  oe_price : Z;
  oe_quantity : Z;
  oe_qty_traded : Z;
  oe_order_status : Z;
  oe_insert_time : Z
}.

(** [data] of [onTradeEvent]. *)
Record TradeEventData : Type := mk_TradeEventData {
  te_ticker : string;
  te_side : Z;
  te_position_effect : Z;
  te_trade_time : Z;
  te_market : Z;
  te_order_xtp_id : Z;
  te_exec_id : string;
  te_price : Z;
  te_quantity : Z
}.

(** [data] of [onQueryCreditDebtInfo]. *)
Record DebtData : Type := mk_DebtData {
  dd_debt_type : Z;
  dd_ticker : string;
  dd_market : Z;
  dd_remain_qty : Z
}.

(** ** The outside world: what a method can do besides changing its object *)

(** The texts handed to [write_log] and to [logging], by the place they are
    written at, with the values formatted into them. *)
Inductive LogMsg : Type :=
| MsgError (what : string) (error_id : Z) (error_msg : string)
| MsgMdDisconnected (reason client_id times : Z)
| MsgAutoLoginOff (config_value : string) (client_id : Z) (size : nat)
| MsgEarlyTick (vt_symbol : string) (dt : datetime) (last : option datetime)
| MsgForeignTick (vt_symbol : string) (dt : datetime) (client_id : Z)
| MsgTick (vt_symbol : string) (dt : datetime)
| MsgMdAlreadyLogin
| MsgMdLoginOk
| MsgMdLoginFailed (error_msg : string)
| MsgFirstSubscribe (symbol : string) (xtp_exchange : option Z) (client_id : Z)
| MsgSubscribeAll (xtp_exchange client_id : Z)
| MsgResubNotLogin (client_id : Z) (size : nat)
| MsgUnsubBefore (symbol : string) (xtp_exchange : option Z) (client_id : Z)
| MsgResub (symbol : string) (xtp_exchange : option Z) (client_id : Z)
| MsgResubFailed (client_id session_id : Z)
| MsgTdAlreadyLogin
| MsgTdLoginOk (session_id : Z)
| MsgTdLoginFailed (error_msg : string)
| MsgOrderFailed2 (data : OrderEventData)
| MsgTradeNoOrder (orderid : string).

(** Calls into the vendor binding ([MdApi], [TdApi]).  The exchange
    argument of the subscription calls is [EXCHANGE_VT2XTP.get(exchange, "")]:
    [None] stands for the default [""]. *)
Inductive VendorCall : Type :=
| createQuoteApi (client_id log_level : Z)
| setHeartBeatInterval (seconds : Z)
| setUDPBufferSize (size : Z)
| md_login (server_ip : string) (server_port : Z) (userid password : string)
    (protocol : Z) (local_ip : string)
| getApiLastError
| queryAllTickers (exchange_id : Z)
| init
| subscribeMarketData (symbol : string) (count : Z) (xtp_exchange : option Z)
| unSubscribeMarketData (symbol : string) (count : Z) (xtp_exchange : option Z)
| subscribeAllMarketData (xtp_exchange : Z)
| createTraderApi (client_id log_level : Z)
| setSoftwareKey (software_key : string)
| subscribePublicTopic (resume_type : Z)
| td_login (server_ip : string) (server_port : Z) (userid password : string)
    (protocol : Z)
| queryAsset (session_id reqid : Z)
| queryCreditFundInfo (session_id reqid : Z)
| queryOptionAuctionInfo (session_id reqid : Z).

Inductive Effect : Type :=
| Vendor (c : VendorCall)
| WriteLog (m : LogMsg)
| LogInfo (m : LogMsg)
| LogError (m : LogMsg)
| OnTick (t : TickData)
| OnOrder (o : OrderData)
| OnTrade (t : TradeData)
| OnPosition (p : PositionData)
| Sleep (seconds : Z)
| GetConfigValue (key : string)
| GetAllContracts.

Inductive Exn : Type := KeyError | ValueError | UnboundLocalError.

Inductive result (A : Type) : Type :=
| Ok (a : A)
| Raise (e : Exn).

Arguments Ok {A} a.
Arguments Raise {A} e.

(** ** The method monad: object state, trace of effects, exceptions *)

Module Meth.

Definition M (S A : Type) : Type := S -> result A * S * list Effect.

Definition ret {S A : Type} (a : A) : M S A := fun s => (Ok a, s, []).

Definition bind {S A B : Type} (m : M S A) (k : A -> M S B) : M S B :=
  fun s =>
    match m s with
    | (Ok a, s1, t1) =>
        match k a s1 with
        | (r, s2, t2) => (r, s2, t1 ++ t2)
        end
    | (Raise e, s1, t1) => (Raise e, s1, t1)
    end.

Definition get {S : Type} : M S S := fun s => (Ok s, s, []).

Definition modify {S : Type} (f : S -> S) : M S unit :=
  fun s => (Ok tt, f s, []).

Definition emit {S : Type} (e : Effect) : M S unit :=
  fun s => (Ok tt, s, [e]).

Definition raise {S A : Type} (e : Exn) : M S A :=
  fun s => (Raise e, s, []).

(** [d[k]]: the value, or the exception of a missing key. *)
Definition lift {S A : Type} (e : Exn) (o : option A) : M S A :=
  match o with
  | Some a => ret a
  | None => raise e
  end.

(** [try: body except: handler] *)
Definition try_except {S : Type} (body handler : M S unit) : M S unit :=
  fun s =>
    match body s with
    | (Ok a, s1, t1) => (Ok a, s1, t1)
    | (Raise _, s1, t1) =>
        match handler s1 with
        | (r, s2, t2) => (r, s2, t1 ++ t2)
        end
    end.

Declare Scope meth_scope.
Delimit Scope meth_scope with meth.

Notation "'let!' x ':=' m 'in' k" := (bind m (fun x => k))
  (at level 10, x name, m at level 100, k at level 200) : meth_scope.
Notation "m ';;;' k" := (bind m (fun _ => k))
  (at level 100, k at level 200, right associativity) : meth_scope.

Open Scope meth_scope.

(** [for x in l: f(x)] *)
Fixpoint for_each {S A : Type} (l : list A) (f : A -> M S unit) : M S unit :=
  match l with
  | [] => ret tt
  | x :: l' => f x ;;; for_each l' f
  end.

Definition state_of {S A : Type} (r : result A * S * list Effect) : S :=
  r.1.2.

Definition trace_of {S A : Type} (r : result A * S * list Effect)
  : list Effect := r.2.

Definition result_of {S A : Type} (r : result A * S * list Effect)
  : result A := r.1.1.

End Meth.

Export Meth.

(** [XtpGateway.write_error]: formats the error into one log line. *)
Definition write_error {S : Type} (msg : string) (error : ErrorInfo)
  : M S unit :=
  emit (WriteLog (MsgError msg (error_id error) (error_msg error))).

(** [str.lower] on the characters of ASCII. *)
Definition lower_ascii (c : ascii) : ascii :=
  let n := nat_of_ascii c in
  if (65 <=? n)%nat && (n <=? 90)%nat then ascii_of_nat (n + 32) else c.

Fixpoint lower (s : string) : string :=
  match s with
  | EmptyString => EmptyString
  | String c s' => String (lower_ascii c) (lower s')
  end.

(** ** The market-data session, [XtpMdApi] *)

Module Md.

(** The attributes set by [__init__]. *)
Record XtpMdApi : Type := mk_XtpMdApi {
  gateway_name : string;
  userid : string;
  password : string;
  client_id : Z;
  server_ip : string;
  server_port : Z;
  protocol : Z;
  session_id : Z;
  connect_status : bool;
  login_status : bool;
  sse_inited : bool;
  szse_inited : bool;
  subscribe_request_list : gset (string * Exchange);
  last_tick_time : gmap string datetime;
  re_connect_times : Z;
  subscribe_all : bool;
  local_ip : string
}.

(** [XtpMdApi.__init__] *)
Definition new (gateway_name : string) : XtpMdApi :=
  mk_XtpMdApi gateway_name "" "" 0 "" 0 0 0 false false false false
    ∅ ∅ 0 false "127.0.0.1".

Definition set_userid (v : string) (s : XtpMdApi) : XtpMdApi :=
  mk_XtpMdApi (gateway_name s) v (password s) (client_id s) (server_ip s)
    (server_port s) (protocol s) (session_id s) (connect_status s)
    (login_status s) (sse_inited s) (szse_inited s)
    (subscribe_request_list s) (last_tick_time s) (re_connect_times s)
    (subscribe_all s) (local_ip s).

Definition set_password (v : string) (s : XtpMdApi) : XtpMdApi :=
  mk_XtpMdApi (gateway_name s) (userid s) v (client_id s) (server_ip s)
    (server_port s) (protocol s) (session_id s) (connect_status s)
    (login_status s) (sse_inited s) (szse_inited s)
    (subscribe_request_list s) (last_tick_time s) (re_connect_times s)
    (subscribe_all s) (local_ip s).

Definition set_client_id (v : Z) (s : XtpMdApi) : XtpMdApi :=
  mk_XtpMdApi (gateway_name s) (userid s) (password s) v (server_ip s)
    (server_port s) (protocol s) (session_id s) (connect_status s)
    (login_status s) (sse_inited s) (szse_inited s)
    (subscribe_request_list s) (last_tick_time s) (re_connect_times s)
    (subscribe_all s) (local_ip s).

Definition set_server_ip (v : string) (s : XtpMdApi) : XtpMdApi :=
  mk_XtpMdApi (gateway_name s) (userid s) (password s) (client_id s) v
    (server_port s) (protocol s) (session_id s) (connect_status s)
    (login_status s) (sse_inited s) (szse_inited s)
    (subscribe_request_list s) (last_tick_time s) (re_connect_times s)
    (subscribe_all s) (local_ip s).

Definition set_server_port (v : Z) (s : XtpMdApi) : XtpMdApi :=
  mk_XtpMdApi (gateway_name s) (userid s) (password s) (client_id s)
    (server_ip s) v (protocol s) (session_id s) (connect_status s)
    (login_status s) (sse_inited s) (szse_inited s)
    (subscribe_request_list s) (last_tick_time s) (re_connect_times s)
    (subscribe_all s) (local_ip s).

Definition set_protocol (v : Z) (s : XtpMdApi) : XtpMdApi :=
  mk_XtpMdApi (gateway_name s) (userid s) (password s) (client_id s)
    (server_ip s) (server_port s) v (session_id s) (connect_status s)
    (login_status s) (sse_inited s) (szse_inited s)
    (subscribe_request_list s) (last_tick_time s) (re_connect_times s)
    (subscribe_all s) (local_ip s).

Definition set_local_ip (v : string) (s : XtpMdApi) : XtpMdApi :=
  mk_XtpMdApi (gateway_name s) (userid s) (password s) (client_id s)
    (server_ip s) (server_port s) (protocol s) (session_id s)
    (connect_status s) (login_status s) (sse_inited s) (szse_inited s)
    (subscribe_request_list s) (last_tick_time s) (re_connect_times s)
    (subscribe_all s) v.

Definition set_connect_status (v : bool) (s : XtpMdApi) : XtpMdApi :=
  mk_XtpMdApi (gateway_name s) (userid s) (password s) (client_id s)
    (server_ip s) (server_port s) (protocol s) (session_id s) v
    (login_status s) (sse_inited s) (szse_inited s)
    (subscribe_request_list s) (last_tick_time s) (re_connect_times s)
    (subscribe_all s) (local_ip s).

Definition set_login_status (v : bool) (s : XtpMdApi) : XtpMdApi :=
  mk_XtpMdApi (gateway_name s) (userid s) (password s) (client_id s)
    (server_ip s) (server_port s) (protocol s) (session_id s)
    (connect_status s) v (sse_inited s) (szse_inited s)
    (subscribe_request_list s) (last_tick_time s) (re_connect_times s)
    (subscribe_all s) (local_ip s).

Definition set_subscribe_request_list (v : gset (string * Exchange))
    (s : XtpMdApi) : XtpMdApi :=
  mk_XtpMdApi (gateway_name s) (userid s) (password s) (client_id s)
    (server_ip s) (server_port s) (protocol s) (session_id s)
    (connect_status s) (login_status s) (sse_inited s) (szse_inited s) v
    (last_tick_time s) (re_connect_times s) (subscribe_all s) (local_ip s).

Definition set_last_tick_time (v : gmap string datetime) (s : XtpMdApi)
  : XtpMdApi :=
  mk_XtpMdApi (gateway_name s) (userid s) (password s) (client_id s)
    (server_ip s) (server_port s) (protocol s) (session_id s)
    (connect_status s) (login_status s) (sse_inited s) (szse_inited s)
    (subscribe_request_list s) v (re_connect_times s) (subscribe_all s)
    (local_ip s).

Definition set_re_connect_times (v : Z) (s : XtpMdApi) : XtpMdApi :=
  mk_XtpMdApi (gateway_name s) (userid s) (password s) (client_id s)
    (server_ip s) (server_port s) (protocol s) (session_id s)
    (connect_status s) (login_status s) (sse_inited s) (szse_inited s)
    (subscribe_request_list s) (last_tick_time s) v (subscribe_all s)
    (local_ip s).

Definition set_subscribe_all (v : bool) (s : XtpMdApi) : XtpMdApi :=
  mk_XtpMdApi (gateway_name s) (userid s) (password s) (client_id s)
    (server_ip s) (server_port s) (protocol s) (session_id s)
    (connect_status s) (login_status s) (sse_inited s) (szse_inited s)
    (subscribe_request_list s) (last_tick_time s) (re_connect_times s) v
    (local_ip s).


(** What the outside world answers during one callback: the return code of
    the vendor's [login] (0 is success), the dictionary of
    [getApiLastError], and the [config_value] of the row
    [sys_config_repository.get_config_value("re_auto_login_xtp")] ([None]
    when there is no such row). *)
Record Env : Type := mk_Env {
  login_ret : Z;
  api_last_error : ErrorInfo;
  sys_config : option string
}.

(** [SubscribeRequest] *)
Record SubscribeRequest : Type := mk_SubscribeRequest {
  req_symbol : string;
  req_exchange : Exchange
}.

(** [XtpMdApi.query_contract]: one query per key of [EXCHANGE_XTP2VT]. *)
Definition query_contract : M XtpMdApi unit :=
  for_each [1; 2] (fun exchange_id => emit (Vendor (queryAllTickers exchange_id))).

(** [XtpMdApi.re_subscribe] *)
Definition re_subscribe : M XtpMdApi unit :=
  try_except
    (let! s := get in
     if (size (subscribe_request_list s) =? 0)%nat then ret tt
     else if negb (login_status s) then
       emit (LogInfo (MsgResubNotLogin (client_id s)
                        (size (subscribe_request_list s))))
     else
       let sub_list_clone := elements (subscribe_request_list s) in
       for_each sub_list_clone (fun req =>
         let symbol := req.1 in
         let exchange := req.2 in
         let xtp_exchange := EXCHANGE_VT2XTP exchange in
         emit (Vendor (unSubscribeMarketData symbol 1 xtp_exchange)) ;;;
         emit (LogInfo (MsgUnsubBefore symbol xtp_exchange (client_id s)))) ;;;
       for_each sub_list_clone (fun req =>
         let symbol := req.1 in
         let exchange := req.2 in
         let xtp_exchange := EXCHANGE_VT2XTP exchange in
         emit (Vendor (subscribeMarketData symbol 1 xtp_exchange)) ;;;
         emit (LogInfo (MsgResub symbol xtp_exchange (client_id s)))))
    (let! s := get in
     emit (LogError (MsgResubFailed (client_id s) (session_id s)))).

(** [XtpMdApi.login_server] *)
Definition login_server (env : Env) : M XtpMdApi unit :=
  let! s := get in
  emit (Vendor (md_login (server_ip s) (server_port s) (userid s)
                  (password s) (protocol s) (local_ip s))) ;;;
  let n := login_ret env in
  let! msg :=
    (if n =? 0 then
       modify (set_connect_status true) ;;;
       modify (set_login_status true) ;;;
       query_contract ;;;
       emit (Vendor init) ;;;
       re_subscribe ;;;
       ret MsgMdLoginOk
     else
       emit (Vendor getApiLastError) ;;;
       ret (MsgMdLoginFailed (error_msg (api_last_error env)))) in
  emit (WriteLog msg).

(** [XtpMdApi.onDisconnected] *)
Definition onDisconnected (env : Env) (reason : Z) : M XtpMdApi unit :=
  modify (set_connect_status false) ;;;
  modify (set_login_status false) ;;;
  let! s := get in
  emit (WriteLog (MsgMdDisconnected reason (client_id s)
                    (re_connect_times s))) ;;;
  let! stop :=
    (if (0 <? size (subscribe_request_list s))%nat then
       emit (GetConfigValue "re_auto_login_xtp") ;;;
       match sys_config env with
       | Some config_value =>
           if negb (String.eqb (lower "Y") (lower config_value)) then
             emit (LogInfo (MsgAutoLoginOff config_value (client_id s)
                              (size (subscribe_request_list s)))) ;;;
             ret true
           else ret false
       | None => ret false
       end
     else ret false) in
  if stop : bool then ret tt
  else
    emit (Sleep 3) ;;;
    modify (fun s => set_re_connect_times (re_connect_times s + 1) s) ;;;
    login_server env.

(** [XtpMdApi.__is_sub_symbol] *)
Definition is_sub_symbol (symbol : string) (s : XtpMdApi) : bool :=
  existsb (fun sub_req => String.eqb sub_req.1 symbol)
    (elements (subscribe_request_list s)).

(** The test of lines 409 to 411 of [onDepthMarketData]: a time is recorded
    for the key and [datetime_a_le_b(dt, last_tick_time)] holds. *)
Definition is_early_tick (last_tick_time : option datetime) (dt : datetime)
  : bool :=
  match last_tick_time with
  | Some last => datetime_a_le_b dt last
  | None => false
  end.

(** [XtpMdApi.onDepthMarketData].  The price and volume fields of the tick
    (floating point, rounded with the contract's price tick when the
    contract is known) are outside the model; they do not decide whether
    the tick is published. *)
Definition onDepthMarketData (data : DepthData) : M XtpMdApi unit :=
  let! dt := lift ValueError (strptime (md_data_time data)) in
  let symbol := md_ticker data in
  let! exchange := lift KeyError (EXCHANGE_XTP2VT (md_exchange_id data)) in
  let vt_symbol := symbol +:+ "." +:+ Exchange_value exchange in
  let! s := get in
  let last_tick_time := Md.last_tick_time s !! vt_symbol in
  if is_early_tick last_tick_time dt then
    emit (LogInfo (MsgEarlyTick vt_symbol dt last_tick_time))
  else if negb (subscribe_all s) && negb (is_sub_symbol (md_ticker data) s)
  then emit (LogError (MsgForeignTick vt_symbol dt (client_id s)))
  else
    emit (LogInfo (MsgTick vt_symbol dt)) ;;;
    emit (OnTick (mk_TickData (md_ticker data) exchange dt
                    (gateway_name s))) ;;;
    modify (fun s => set_last_tick_time
                       (<[vt_symbol := dt]> (Md.last_tick_time s)) s).

(** [XtpMdApi.connect] *)
Definition connect (env : Env) (userid password : string) (client_id : Z)
    (server_ip : string) (server_port : Z) (quote_protocol : string)
    (log_level : Z) (local_ip : string) : M XtpMdApi unit :=
  modify (set_userid userid) ;;;
  modify (set_password password) ;;;
  modify (set_client_id client_id) ;;;
  modify (set_server_ip server_ip) ;;;
  modify (set_server_port server_port) ;;;
  let! p := lift KeyError (PROTOCOL_VT2XTP quote_protocol) in
  modify (set_protocol p) ;;;
  modify (set_local_ip local_ip) ;;;
  let! s := get in
  if negb (connect_status s) then
    emit (Vendor (createQuoteApi (Md.client_id s) log_level)) ;;;
    emit (Vendor (setHeartBeatInterval 30)) ;;;
    (if String.eqb quote_protocol "UDP"
     then emit (Vendor (setUDPBufferSize 1024))
     else ret tt) ;;;
    login_server env
  else emit (WriteLog MsgMdAlreadyLogin).

(** [XtpMdApi.subscribe] *)
Definition subscribe (req : SubscribeRequest) : M XtpMdApi unit :=
  let! s := get in
  if login_status s then
    let xtp_exchange := EXCHANGE_VT2XTP (req_exchange req) in
    emit (Vendor (subscribeMarketData (req_symbol req) 1 xtp_exchange)) ;;;
    emit (LogInfo (MsgFirstSubscribe (req_symbol req) xtp_exchange
                     (client_id s))) ;;;
    let ele := (req_symbol req, req_exchange req) in
    modify (fun s => set_subscribe_request_list
                       ({[ele]} ∪ subscribe_request_list s) s)
  else ret tt.

(** [XtpMdApi.subscribe_all_tickets] *)
Definition subscribe_all_tickets : M XtpMdApi unit :=
  let! s := get in
  if login_status s then
    emit (Vendor (subscribeAllMarketData XTP_EXCHANGE_UNKNOWN)) ;;;
    emit (LogInfo (MsgSubscribeAll XTP_EXCHANGE_UNKNOWN (client_id s))) ;;;
    modify (set_subscribe_all true)
  else ret tt.

(** [XtpMdApi.query_local_latest_tick_time] *)
Definition query_local_latest_tick_time (vt_symbol : string) (s : XtpMdApi)
  : option datetime :=
  last_tick_time s !! vt_symbol.

End Md.

(** ** The trading session and the order/trade reconciler, [XtpTdApi] *)

Module Td.

(** The attributes of the session.  [client_id] and [server_port] are the
    numbers [connect] stores: the object is modelled from its first
    [connect] on ([__init__] leaves the empty string in both). *)
Record XtpTdApi : Type := mk_XtpTdApi {
  gateway_name : string;
  userid : string;
  password : string;
  client_id : Z;
  server_ip : string;
  server_port : Z;
  software_key : string;
  session_id : Z;
  reqid : Z;
  protocol : Z;
  local_ip : string;
  margin_trading : bool;
  option_trading : bool;
  connect_status : bool;
  login_status : bool;
  short_positions : list (string * PositionData);
  orders : gmap string OrderData
}.

Definition set_userid (v : string) (s : XtpTdApi) : XtpTdApi :=
  mk_XtpTdApi (gateway_name s) v (password s) (client_id s) (server_ip s)
    (server_port s) (software_key s) (session_id s) (reqid s) (protocol s)
    (local_ip s) (margin_trading s) (option_trading s) (connect_status s)
    (login_status s) (short_positions s) (orders s).

Definition set_password (v : string) (s : XtpTdApi) : XtpTdApi :=
  mk_XtpTdApi (gateway_name s) (userid s) v (client_id s) (server_ip s)
    (server_port s) (software_key s) (session_id s) (reqid s) (protocol s)
    (local_ip s) (margin_trading s) (option_trading s) (connect_status s)
    (login_status s) (short_positions s) (orders s).

Definition set_client_id (v : Z) (s : XtpTdApi) : XtpTdApi :=
  mk_XtpTdApi (gateway_name s) (userid s) (password s) v (server_ip s)
    (server_port s) (software_key s) (session_id s) (reqid s) (protocol s)
    (local_ip s) (margin_trading s) (option_trading s) (connect_status s)
    (login_status s) (short_positions s) (orders s).

Definition set_server_ip (v : string) (s : XtpTdApi) : XtpTdApi :=
  mk_XtpTdApi (gateway_name s) (userid s) (password s) (client_id s) v
    (server_port s) (software_key s) (session_id s) (reqid s) (protocol s)
    (local_ip s) (margin_trading s) (option_trading s) (connect_status s)
    (login_status s) (short_positions s) (orders s).

Definition set_server_port (v : Z) (s : XtpTdApi) : XtpTdApi :=
  mk_XtpTdApi (gateway_name s) (userid s) (password s) (client_id s)
    (server_ip s) v (software_key s) (session_id s) (reqid s) (protocol s)
    (local_ip s) (margin_trading s) (option_trading s) (connect_status s)
    (login_status s) (short_positions s) (orders s).

Definition set_software_key (v : string) (s : XtpTdApi) : XtpTdApi :=
  mk_XtpTdApi (gateway_name s) (userid s) (password s) (client_id s)
    (server_ip s) (server_port s) v (session_id s) (reqid s) (protocol s)
    (local_ip s) (margin_trading s) (option_trading s) (connect_status s)
    (login_status s) (short_positions s) (orders s).

Definition set_session_id (v : Z) (s : XtpTdApi) : XtpTdApi :=
  mk_XtpTdApi (gateway_name s) (userid s) (password s) (client_id s)
    (server_ip s) (server_port s) (software_key s) v (reqid s) (protocol s)
    (local_ip s) (margin_trading s) (option_trading s) (connect_status s)
    (login_status s) (short_positions s) (orders s).

Definition set_reqid (v : Z) (s : XtpTdApi) : XtpTdApi :=
  mk_XtpTdApi (gateway_name s) (userid s) (password s) (client_id s)
    (server_ip s) (server_port s) (software_key s) (session_id s) v
    (protocol s) (local_ip s) (margin_trading s) (option_trading s)
    (connect_status s) (login_status s) (short_positions s) (orders s).

Definition set_protocol (v : Z) (s : XtpTdApi) : XtpTdApi :=
  mk_XtpTdApi (gateway_name s) (userid s) (password s) (client_id s)
    (server_ip s) (server_port s) (software_key s) (session_id s) (reqid s)
    v (local_ip s) (margin_trading s) (option_trading s) (connect_status s)
    (login_status s) (short_positions s) (orders s).

Definition set_local_ip (v : string) (s : XtpTdApi) : XtpTdApi :=
  mk_XtpTdApi (gateway_name s) (userid s) (password s) (client_id s)
    (server_ip s) (server_port s) (software_key s) (session_id s) (reqid s)
    (protocol s) v (margin_trading s) (option_trading s) (connect_status s)
    (login_status s) (short_positions s) (orders s).

Definition set_connect_status (v : bool) (s : XtpTdApi) : XtpTdApi :=
  mk_XtpTdApi (gateway_name s) (userid s) (password s) (client_id s)
    (server_ip s) (server_port s) (software_key s) (session_id s) (reqid s)
    (protocol s) (local_ip s) (margin_trading s) (option_trading s) v
    (login_status s) (short_positions s) (orders s).

Definition set_login_status (v : bool) (s : XtpTdApi) : XtpTdApi :=
  mk_XtpTdApi (gateway_name s) (userid s) (password s) (client_id s)
    (server_ip s) (server_port s) (software_key s) (session_id s) (reqid s)
    (protocol s) (local_ip s) (margin_trading s) (option_trading s)
    (connect_status s) v (short_positions s) (orders s).

Definition set_short_positions (v : list (string * PositionData)) (s : XtpTdApi)
  : XtpTdApi :=
  mk_XtpTdApi (gateway_name s) (userid s) (password s) (client_id s)
    (server_ip s) (server_port s) (software_key s) (session_id s) (reqid s)
    (protocol s) (local_ip s) (margin_trading s) (option_trading s)
    (connect_status s) (login_status s) v (orders s).

Definition set_orders (v : gmap string OrderData) (s : XtpTdApi) : XtpTdApi :=
  mk_XtpTdApi (gateway_name s) (userid s) (password s) (client_id s)
    (server_ip s) (server_port s) (software_key s) (session_id s) (reqid s)
    (protocol s) (local_ip s) (margin_trading s) (option_trading s)
    (connect_status s) (login_status s) (short_positions s) v.

(** What the outside world answers during one callback: the session number
    returned by the vendor's [login] (0 is failure) and the dictionary of
    [getApiLastError]. *)
Record Env : Type := mk_Env {
  login_ret : Z;
  api_last_error : ErrorInfo
}.

(** [self.short_positions.get(symbol, None)] *)
Fixpoint positions_get (symbol : string) (d : list (string * PositionData))
  : option PositionData :=
  match d with
  | [] => None
  | (k, p) :: d' => if String.eqb k symbol then Some p else positions_get symbol d'
  end.

(** In-place change of the object stored under [symbol]. *)
Fixpoint positions_alter (f : PositionData -> PositionData) (symbol : string)
    (d : list (string * PositionData)) : list (string * PositionData) :=
  match d with
  | [] => []
  | (k, p) :: d' =>
      if String.eqb k symbol then (k, f p) :: d'
      else (k, p) :: positions_alter f symbol d'
  end.

(** In-place change of the order stored under [orderid]. *)
Definition store_order (orderid : string) (order : OrderData)
  : M XtpTdApi unit :=
  modify (fun s => set_orders (<[orderid := order]> (orders s)) s).

(** [XtpTdApi.query_account] *)
Definition query_account : M XtpTdApi unit :=
  let! s := get in
  if negb (connect_status s) then ret tt
  else
    modify (fun s => set_reqid (reqid s + 1) s) ;;;
    let! s := get in
    emit (Vendor (queryAsset (session_id s) (reqid s))).

(** [XtpTdApi.query_credit_asset] *)
Definition query_credit_asset : M XtpTdApi unit :=
  let! s := get in
  if negb (connect_status s) then ret tt
  else
    modify (fun s => set_reqid (reqid s + 1) s) ;;;
    let! s := get in
    emit (Vendor (queryCreditFundInfo (session_id s) (reqid s))).

(** [XtpTdApi.query_option_info] *)
Definition query_option_info : M XtpTdApi unit :=
  modify (fun s => set_reqid (reqid s + 1) s) ;;;
  let! s := get in
  emit (Vendor (queryOptionAuctionInfo (session_id s) (reqid s))).

(** [XtpTdApi.init_contract_data]: reads the contract store into the
    module's contract cache. *)
Definition init_contract_data : M XtpTdApi unit := emit GetAllContracts.

(** [XtpTdApi.login_server] *)
Definition login_server (env : Env) : M XtpTdApi unit :=
  let! s := get in
  emit (Vendor (td_login (server_ip s) (server_port s) (userid s)
                  (password s) (protocol s))) ;;;
  let n := login_ret env in
  let! msg :=
    (if negb (n =? 0) then
       modify (set_session_id n) ;;;
       modify (set_connect_status true) ;;;
       modify (set_login_status true) ;;;
       emit (Vendor init) ;;;
       init_contract_data ;;;
       ret (MsgTdLoginOk n)
     else
       emit (Vendor getApiLastError) ;;;
       ret (MsgTdLoginFailed (error_msg (api_last_error env)))) in
  emit (WriteLog msg) ;;;
  query_option_info.

(** [XtpTdApi.connect] *)
Definition connect (env : Env) (userid password : string) (client_id : Z)
    (server_ip : string) (server_port : Z) (software_key : string)
    (log_level : Z) (local_ip : string) : M XtpTdApi unit :=
  modify (set_userid userid) ;;;
  modify (set_password password) ;;;
  modify (set_client_id client_id) ;;;
  modify (set_server_ip server_ip) ;;;
  modify (set_server_port server_port) ;;;
  modify (set_software_key software_key) ;;;
  let! p := lift KeyError (PROTOCOL_VT2XTP "TCP") in
  modify (set_protocol p) ;;;
  modify (set_local_ip local_ip) ;;;
  let! s := get in
  if negb (connect_status s) then
    emit (Vendor (createTraderApi (Td.client_id s) log_level)) ;;;
    emit (Vendor (setSoftwareKey (Td.software_key s))) ;;;
    emit (Vendor (subscribePublicTopic 0)) ;;;
    login_server env
  else emit (WriteLog MsgTdAlreadyLogin).

(** The decoding of side and offset shared by [onOrderEvent] and
    [onTradeEvent]: option contracts (symbols of 8 characters) use one
    table, stocks another.  [None] is the [KeyError] of a code that is in
    no table. *)
Definition decode_side (symbol : string) (side position_effect : Z)
  : option (Direction * Offset) :=
  if (String.length symbol =? 8)%nat then
    match DIRECTION_OPTION_XTP2VT side, OFFSET_XTP2VT position_effect with
    | Some direction, Some offset => Some (direction, offset)
    | _, _ => None
    end
  else DIRECTION_STOCK_XTP2VT side.

(** The order type of [onOrderEvent]: [type_map.get(price_type, MARKET)]. *)
Definition decode_order_type (symbol : string) (price_type : Z) : OrderType :=
  if (String.length symbol =? 8)%nat then
    default MARKET (OPTION_ORDERTYPE_XTP2VT price_type)
  else if String.prefix "688" symbol then
    default MARKET (STAR_ORDERTYPE_XTP2VT price_type)
  else default MARKET (EQUITY_ORDERTYPE_XTP2VT price_type).

(** [XtpTdApi.onOrderEvent] *)
Definition onOrderEvent (data : OrderEventData) (error : ErrorInfo)
  : M XtpTdApi unit :=
  (if negb (error_id error =? 0) then
     write_error "order failed" error ;;;
     emit (WriteLog (MsgOrderFailed2 data))
   else ret tt) ;;;
  let symbol := oe_ticker data in
  let! side :=
    lift KeyError
      (decode_side symbol (oe_side data) (oe_position_effect data)) in
  let direction := side.1 in
  let offset := side.2 in
  let order_type := decode_order_type symbol (oe_price_type data) in
  let orderid := pretty (oe_order_xtp_id data) in
  let! s := get in
  let! order :=
    match orders s !! orderid with
    | None =>
        let! exchange := lift KeyError (MARKET_XTP2VT (oe_market data)) in
        let! status := lift KeyError (STATUS_XTP2VT (oe_order_status data)) in
        let order :=
          mk_OrderData symbol exchange orderid order_type direction offset
            (oe_price data) (oe_quantity data) (oe_qty_traded data) status
            None (gateway_name s) in
        store_order orderid order ;;;
        ret order
    | Some order =>
        let order := set_traded (oe_qty_traded data) order in
        store_order orderid order ;;;
        let! status := lift KeyError (STATUS_XTP2VT (oe_order_status data)) in
        let order := set_status status order in
        store_order orderid order ;;;
        ret order
    end in
  let! order :=
    match o_datetime order with
    | None =>
        let! dt := lift ValueError (strptime (oe_insert_time data)) in
        let order := set_datetime dt order in
        store_order orderid order ;;;
        ret order
    | Some _ => ret order
    end in
  emit (OnOrder order).

(** [XtpTdApi.onTradeEvent].  The local variable [order] is bound only in
    the branch that finds the order; reading it unbound raises
    [UnboundLocalError]. *)
Definition onTradeEvent (data : TradeEventData) : M XtpTdApi unit :=
  let symbol := te_ticker data in
  let! side :=
    lift KeyError
      (decode_side symbol (te_side data) (te_position_effect data)) in
  let direction := side.1 in
  let offset := side.2 in
  let! dt := lift ValueError (strptime (te_trade_time data)) in
  let! exchange := lift KeyError (MARKET_XTP2VT (te_market data)) in
  let! s := get in
  let trade :=
    mk_TradeData symbol exchange (pretty (te_order_xtp_id data))
      (te_exec_id data) direction offset (te_price data) (te_quantity data)
      dt (gateway_name s) in
  let! order_var :=
    match orders s !! t_orderid trade with
    | Some order =>
        let order := set_traded (o_traded order + t_volume trade) order in
        let order :=
          if o_traded order <? o_volume order
          then set_status PARTTRADED order
          else set_status ALLTRADED order in
        store_order (t_orderid trade) order ;;;
        emit (OnOrder order) ;;;
        ret (Some order)
    | None =>
        emit (WriteLog (MsgTradeNoOrder (t_orderid trade))) ;;;
        ret None
    end in
  emit (OnTrade trade) ;;;
  let! order := lift UnboundLocalError order_var in
  if bool_decide (o_status order ∈ [PARTTRADED; ALLTRADED]) then
    query_account ;;;
    query_credit_asset
  else ret tt.

(** [XtpTdApi.onQueryCreditDebtInfo] *)
Definition onQueryCreditDebtInfo (data : DebtData) (last : bool)
  : M XtpTdApi unit :=
  (if dd_debt_type data =? 1 then
     let symbol := dd_ticker data in
     let! exchange := lift KeyError (MARKET_XTP2VT (dd_market data)) in
     let! s := get in
     (match positions_get symbol (short_positions s) with
      | None =>
          let position :=
            mk_PositionData symbol exchange SHORT 0 (gateway_name s) in
          modify (fun s => set_short_positions
                             (short_positions s ++ [(symbol, position)]) s)
      | Some _ => ret tt
      end) ;;;
     modify (fun s => set_short_positions
                        (positions_alter (add_volume (dd_remain_qty data))
                           symbol (short_positions s)) s)
   else ret tt) ;;;
  if last then
    let! s := get in
    for_each (short_positions s) (fun kp => emit (OnPosition kp.2)) ;;;
    modify (set_short_positions [])
  else ret tt.

End Td.

(** ** Vocabulary of the statements *)

(** The vendor calls of a trace, in order. *)
Fixpoint vendor_calls (tr : list Effect) : list VendorCall :=
  match tr with
  | [] => []
  | Vendor c :: tr' => c :: vendor_calls tr'
  | _ :: tr' => vendor_calls tr'
  end.

(** The ticks handed to the host in a trace. *)
Fixpoint published_ticks (tr : list Effect) : list TickData :=
  match tr with
  | [] => []
  | OnTick t :: tr' => t :: published_ticks tr'
  | _ :: tr' => published_ticks tr'
  end.

(** The positions handed to the host in a trace. *)
Fixpoint published_positions (tr : list Effect) : list PositionData :=
  match tr with
  | [] => []
  | OnPosition p :: tr' => p :: published_positions tr'
  | _ :: tr' => published_positions tr'
  end.

Definition is_unsubscribe (c : VendorCall) : bool :=
  match c with
  | unSubscribeMarketData _ _ _ => true
  | _ => false
  end.

Definition is_subscribe (c : VendorCall) : bool :=
  match c with
  | subscribeMarketData _ _ _ => true
  | _ => false
  end.

(** The calls of one registry entry in a resubscription. *)
Definition unsubscribe_call (req : string * Exchange) : VendorCall :=
  unSubscribeMarketData req.1 1 (EXCHANGE_VT2XTP req.2).

Definition subscribe_call (req : string * Exchange) : VendorCall :=
  subscribeMarketData req.1 1 (EXCHANGE_VT2XTP req.2).

(** The effects of the two loops of [re_subscribe] for one entry. *)
Definition unsubscribe_effects (client_id : Z) (req : string * Exchange)
  : list Effect :=
  [Vendor (unsubscribe_call req);
   LogInfo (MsgUnsubBefore req.1 (EXCHANGE_VT2XTP req.2) client_id)].

Definition subscribe_effects (client_id : Z) (req : string * Exchange)
  : list Effect :=
  [Vendor (subscribe_call req);
   LogInfo (MsgResub req.1 (EXCHANGE_VT2XTP req.2) client_id)].

(** Drain, then refill: in [calls] every entry of the registry is
    unsubscribed and subscribed, and every unsubscription comes before
    every subscription. *)
Definition drain_then_refill (reg : gset (string * Exchange))
    (calls : list VendorCall) : Prop :=
  (forall req, req ∈ reg ->
     unsubscribe_call req ∈ calls /\ subscribe_call req ∈ calls)
  /\ (forall (i j : nat) (cu cs : VendorCall),
        calls !! i = Some cu -> is_unsubscribe cu = true ->
        calls !! j = Some cs -> is_subscribe cs = true ->
        (i < j)%nat).

(** The events of the order feed, and the reconciler run over a sequence
    of them.  Each callback starts from the object as the previous one
    left it, whether that one returned or raised. *)
Inductive Event : Type :=
| OrderUpdate (data : OrderEventData) (error : ErrorInfo)
| TradeFill (data : TradeEventData).

Definition event_order_id (e : Event) : Z :=
  match e with
  | OrderUpdate data _ => oe_order_xtp_id data
  | TradeFill data => te_order_xtp_id data
  end.

Definition handle (e : Event) : M Td.XtpTdApi unit :=
  match e with
  | OrderUpdate data error => Td.onOrderEvent data error
  | TradeFill data => Td.onTradeEvent data
  end.

Fixpoint run (es : list Event) (s : Td.XtpTdApi) : Td.XtpTdApi :=
  match es with
  | [] => s
  | e :: es' => run es' (state_of (handle e s))
  end.

(** The pages of one credit-debt query, delivered in order. *)
Fixpoint run_pages (pages : list (DebtData * bool)) (s : Td.XtpTdApi)
  : Td.XtpTdApi * list Effect :=
  match pages with
  | [] => (s, [])
  | (data, last) :: pages' =>
      let r := Td.onQueryCreditDebtInfo data last s in
      let r' := run_pages pages' (state_of r) in
      (r'.1, trace_of r ++ r'.2)
  end.

(** The session as [onDisconnected] marks it before anything else. *)
Definition disconnected (s : Md.XtpMdApi) : Md.XtpMdApi :=
  Md.set_login_status false (Md.set_connect_status false s).

(** The first line [onDisconnected] writes. *)
Definition disconnect_notice (reason : Z) (s : Md.XtpMdApi) : Effect :=
  WriteLog (MsgMdDisconnected reason (Md.client_id s) (Md.re_connect_times s)).

(** The vendor login with the parameters stored in the session. *)
Definition login_call (s : Md.XtpMdApi) : VendorCall :=
  md_login (Md.server_ip s) (Md.server_port s) (Md.userid s)
    (Md.password s) (Md.protocol s) (Md.local_ip s).

(** The market-data session with its seven connection parameters replaced
    and every other attribute kept. *)
Definition md_with_parameters (userid password : string) (client_id : Z)
    (server_ip : string) (server_port protocol : Z) (local_ip : string)
    (s : Md.XtpMdApi) : Md.XtpMdApi :=
  Md.mk_XtpMdApi (Md.gateway_name s) userid password client_id server_ip
    server_port protocol (Md.session_id s) (Md.connect_status s)
    (Md.login_status s) (Md.sse_inited s) (Md.szse_inited s)
    (Md.subscribe_request_list s) (Md.last_tick_time s)
    (Md.re_connect_times s) (Md.subscribe_all s) local_ip.

(** The trading session with its eight connection parameters replaced and
    every other attribute kept. *)
Definition td_with_parameters (userid password : string) (client_id : Z)
    (server_ip : string) (server_port : Z) (software_key : string)
    (protocol : Z) (local_ip : string) (s : Td.XtpTdApi) : Td.XtpTdApi :=
  Td.mk_XtpTdApi (Td.gateway_name s) userid password client_id server_ip
    server_port software_key (Td.session_id s) (Td.reqid s) protocol
    local_ip (Td.margin_trading s) (Td.option_trading s)
    (Td.connect_status s) (Td.login_status s) (Td.short_positions s)
    (Td.orders s).

(** The [TradeData] that [onTradeEvent] builds from a payload whose side,
    time and market have been decoded. *)
Definition trade_of (data : TradeEventData) (side : Direction * Offset)
    (dt : datetime) (exchange : Exchange) (gateway_name : string)
  : TradeData :=
  mk_TradeData (te_ticker data) exchange (pretty (te_order_xtp_id data))
    (te_exec_id data) side.1 side.2 (te_price data) (te_quantity data) dt
    gateway_name.

(** An order after a fill of [volume], as the claim words it: the traded
    volume grows by the fill, the status is [PARTTRADED] below the
    requested volume and [ALLTRADED] from there on. *)
Definition filled (volume : Z) (order : OrderData) : OrderData :=
  mk_OrderData (o_symbol order) (o_exchange order) (o_orderid order)
    (o_type order) (o_direction order) (o_offset order) (o_price order)
    (o_volume order) (o_traded order + volume)
    (if o_traded order + volume <? o_volume order
     then PARTTRADED else ALLTRADED)
    (o_datetime order) (o_gateway_name order).

(** The off-cycle refresh of [onTradeEvent]. *)
Definition refresh : M Td.XtpTdApi unit :=
  Td.query_account ;;; Td.query_credit_asset.

(** What no event changes of an order once it is in the cache: everything
    but the traded volume, the status and the insertion time. *)
Definition same_order (o o' : OrderData) : Prop :=
  o_symbol o' = o_symbol o /\ o_exchange o' = o_exchange o
  /\ o_orderid o' = o_orderid o /\ o_type o' = o_type o
  /\ o_direction o' = o_direction o /\ o_offset o' = o_offset o
  /\ o_price o' = o_price o /\ o_volume o' = o_volume o
  /\ o_gateway_name o' = o_gateway_name o.

(** The remaining quantity of [symbol] summed over all rows, as the claim
    words it. *)
Fixpoint remain_total (symbol : string) (rows : list DebtData) : Z :=
  match rows with
  | [] => 0
  | row :: rows' =>
      (if String.eqb (dd_ticker row) symbol then dd_remain_qty row else 0)
      + remain_total symbol rows'
  end.

(** The remaining quantity of [symbol] summed over the rows of securities
    debt ([debt_type] 1). *)
Fixpoint debt_total (symbol : string) (rows : list DebtData) : Z :=
  match rows with
  | [] => 0
  | row :: rows' =>
      (if (dd_debt_type row =? 1) && String.eqb (dd_ticker row) symbol
       then dd_remain_qty row else 0)
      + debt_total symbol rows'
  end.

(** The pages of a query answered by [rows] and closed by [final]: only
    the last page carries the flag. *)
Definition paginate (rows : list DebtData) (final : DebtData)
  : list (DebtData * bool) :=
  map (fun row => (row, false)) rows ++ [(final, true)].

(** The accumulator after a row of securities debt on exchange
    [exchange]. *)
Definition accumulate (gateway_name : string) (row : DebtData)
    (exchange : Exchange) (acc : list (string * PositionData))
  : list (string * PositionData) :=
  Td.positions_alter (add_volume (dd_remain_qty row)) (dd_ticker row)
    (match Td.positions_get (dd_ticker row) acc with
     | None =>
         acc ++ [(dd_ticker row,
                  mk_PositionData (dd_ticker row) exchange SHORT 0
                    gateway_name)]
     | Some _ => acc
     end).

(** What the accumulator holds after [rows]: one entry per symbol, each a
    short position of its symbol whose volume is the debt total, and an
    entry for every row of securities debt. *)
Definition accumulated (rows : list DebtData)
    (acc : list (string * PositionData)) : Prop :=
  NoDup acc.*1
  /\ (forall k p, (k, p) ∈ acc ->
        p_symbol p = k /\ p_direction p = SHORT
        /\ p_volume p = debt_total k rows)
  /\ (forall row, row ∈ rows -> dd_debt_type row = 1 ->
        dd_ticker row ∈ acc.*1).

(** ** Sample sessions and payloads *)

Definition sample_env : Md.Env := Md.mk_Env 0 (mk_ErrorInfo 0 "") None.

Definition sample_env_off : Md.Env :=
  Md.mk_Env 0 (mk_ErrorInfo 0 "") (Some "N").

(** A logged-in market-data session subscribed to [000001.SZSE]. *)
Definition sample_md : Md.XtpMdApi :=
  Md.set_subscribe_request_list {[("000001", SZSE)]}
    (Md.set_login_status true
       (Md.set_connect_status true (Md.new "XTP"))).

Definition sample_td_env : Td.Env := Td.mk_Env 1 (mk_ErrorInfo 0 "").

(** A trading session that is not connected and holds no order, with the
    request counter at 0. *)
Definition sample_td_off : Td.XtpTdApi :=
  Td.mk_XtpTdApi "XTP" "" "" 0 "" 0 "" 0 0 0 "127.0.0.1" false false
    false false [] ∅.

(** A connected trading session with no order. *)
Definition sample_td : Td.XtpTdApi :=
  Td.set_login_status true (Td.set_connect_status true sample_td_off).

(** The time [2023-12-04 09:30:00.123], and a tick of [000001] stamped with
    it on each of the two exchanges. *)
Definition sample_time : datetime := mk_datetime 2023 12 4 9 30 0 123000.

Definition sample_tick_sse : DepthData :=
  mk_DepthData 20231204093000123 "000001" 1.

Definition sample_tick_szse : DepthData :=
  mk_DepthData 20231204093000123 "000001" 2.

(** [sample_md] after it has accepted [sample_tick_szse]. *)
Definition sample_md_seen : Md.XtpMdApi :=
  Md.set_last_tick_time {["000001.SZSE" := sample_time]} sample_md.

(** An order update for order 7: 100 shares of [600000], none traded,
    cancelled. *)
Definition sample_update : OrderEventData :=
  mk_OrderEventData "600000" 1 0 1 7 2 105000 100 0 3 20231204093000123.

(** A fill of 150 shares for order 7. *)
Definition sample_fill : TradeEventData :=
  mk_TradeEventData "600000" 1 0 20231204093001000 2 7 "E1" 105000 150.

Definition no_error : ErrorInfo := mk_ErrorInfo 0 "".

(** [sample_td] holding order 7 as [sample_update] creates it. *)
Definition sample_td_order : Td.XtpTdApi :=
  state_of (Td.onOrderEvent sample_update no_error sample_td).

(** ** The calls a market-data session receives *)

Inductive MdCall : Type :=
| CallConnect (env : Md.Env) (userid password : string) (client_id : Z)
    (server_ip : string) (server_port : Z) (quote_protocol : string)
    (log_level : Z) (local_ip : string)
| CallDisconnected (env : Md.Env) (reason : Z)
| CallSubscribe (req : Md.SubscribeRequest)
| CallSubscribeAll
| CallDepthMarketData (data : DepthData).

Definition md_call (c : MdCall) : M Md.XtpMdApi unit :=
  match c with
  | CallConnect env userid password client_id server_ip server_port
      quote_protocol log_level local_ip =>
      Md.connect env userid password client_id server_ip server_port
        quote_protocol log_level local_ip
  | CallDisconnected env reason => Md.onDisconnected env reason
  | CallSubscribe req => Md.subscribe req
  | CallSubscribeAll => Md.subscribe_all_tickets
  | CallDepthMarketData data => Md.onDepthMarketData data
  end.

(** A sequence of calls; each starts from the session as the previous one
    left it, whether that one returned or raised. *)
Fixpoint md_run (cs : list MdCall) (s : Md.XtpMdApi) : Md.XtpMdApi :=
  match cs with
  | [] => s
  | c :: cs' => md_run cs' (state_of (md_call c s))
  end.

Definition is_subscribe_call (c : MdCall) : bool :=
  match c with
  | CallSubscribe _ => true
  | _ => false
  end.

(** The key of [last_tick_time] for a payload on [exchange]. *)
Definition vt_symbol_of (data : DepthData) (exchange : Exchange) : string :=
  md_ticker data +:+ "." +:+ Exchange_value exchange.

(** ** What an order update leaves in the cache *)

(** The insertion time is read from the event only for an order that has
    none. *)
Definition stamp (data : OrderEventData) (order : OrderData) : OrderData :=
  match o_datetime order with
  | Some _ => order
  | None =>
      match strptime (oe_insert_time data) with
      | Some dt => set_datetime dt order
      | None => order
      end
  end.

(** The order [onOrderEvent] leaves under the id of the event, given the
    order [old] it finds there; [None] when it stores nothing. *)
Definition order_after (data : OrderEventData) (gateway_name : string)
    (old : option OrderData) : option OrderData :=
  match Td.decode_side (oe_ticker data) (oe_side data)
          (oe_position_effect data) with
  | None => None
  | Some side =>
      match old with
      | None =>
          match MARKET_XTP2VT (oe_market data),
                STATUS_XTP2VT (oe_order_status data) with
          | Some exchange, Some status =>
              Some (stamp data
                      (mk_OrderData (oe_ticker data) exchange
                         (pretty (oe_order_xtp_id data))
                         (Td.decode_order_type (oe_ticker data)
                            (oe_price_type data))
                         side.1 side.2 (oe_price data) (oe_quantity data)
                         (oe_qty_traded data) status None gateway_name))
          | _, _ => None
          end
      | Some order =>
          match STATUS_XTP2VT (oe_order_status data) with
          | Some status =>
              Some (stamp data
                      (set_status status
                         (set_traded (oe_qty_traded data) order)))
          | None => Some (set_traded (oe_qty_traded data) order)
          end
      end
  end.

(** The payload of a fill decodes: side, time and market. *)
Definition fill_decodes (data : TradeEventData) : bool :=
  match Td.decode_side (te_ticker data) (te_side data)
          (te_position_effect data),
        strptime (te_trade_time data), MARKET_XTP2VT (te_market data) with
  | Some _, Some _, Some _ => true
  | _, _, _ => false
  end.

(** The fills of a sequence, applied in order. *)
Fixpoint run_fills (fills : list TradeEventData) (s : Td.XtpTdApi)
  : Td.XtpTdApi :=
  match fills with
  | [] => s
  | data :: fills' => run_fills fills' (state_of (Td.onTradeEvent data s))
  end.

Fixpoint total_quantity (fills : list TradeEventData) : Z :=
  match fills with
  | [] => 0
  | data :: fills' => te_quantity data + total_quantity fills'
  end.

(** The two log lines [onOrderEvent] writes for an event that carries an
    error. *)
Definition error_report (data : OrderEventData) (error : ErrorInfo)
  : list Effect :=
  if negb (error_id error =? 0)
  then [WriteLog (MsgError "order failed" (error_id error) (error_msg error));
        WriteLog (MsgOrderFailed2 data)]
  else [].

(** The orders handed to the host in a trace. *)
Fixpoint published_orders (tr : list Effect) : list OrderData :=
  match tr with
  | [] => []
  | OnOrder o :: tr' => o :: published_orders tr'
  | _ :: tr' => published_orders tr'
  end.

(** ** The tables of the sending direction *)

Module Codes.

(** [MARKET_VT2XTP], the inverse dictionary of [MARKET_XTP2VT]. *)
Definition MARKET_VT2XTP (e : Exchange) : option Z :=
  match e with
  | SZSE => Some 1
  | SSE => Some 2
  | OtherExchange _ => None
  end.

(** [DIRECTION_STOCK_VT2XTP], the inverse dictionary of
    [DIRECTION_STOCK_XTP2VT]. *)
Definition DIRECTION_STOCK_VT2XTP (k : Direction * Offset) : option Z :=
  match k with
  | (LONG, NONE) => Some 1
  | (SHORT, NONE) => Some 2
  | (LONG, OPEN) => Some 21
  | (SHORT, OPEN) => Some 22
  | (LONG, CLOSE) => Some 24
  | (SHORT, CLOSE) => Some 23
  | _ => None
  end.

(** [DIRECTION_OPTION_VT2XTP] *)
Definition DIRECTION_OPTION_VT2XTP (d : Direction) : option Z :=
  match d with
  | LONG => Some 1
  | SHORT => Some 2
  | NET => None
  end.

(** [OPTION_ORDERTYPE_VT2XTP] *)
Definition OPTION_ORDERTYPE_VT2XTP (t : OrderType) : option Z :=
  match t with
  | LIMIT => Some 1
  | MARKET => Some 2
  | FOK => Some 8
  | _ => None
  end.

(** [EQUITY_ORDERTYPE_VT2XTP] *)
Definition EQUITY_ORDERTYPE_VT2XTP (t : OrderType) : option Z :=
  match t with
  | LIMIT => Some 1
  | MARKET => Some 4
  | _ => None
  end.

(** [STAR_ORDERTYPE_VT2XTP] *)
Definition STAR_ORDERTYPE_VT2XTP (t : OrderType) : option Z :=
  match t with
  | LIMIT => Some 1
  | MARKET => Some 7
  | _ => None
  end.

(** [OFFSET_VT2XTP] *)
Definition OFFSET_VT2XTP (o : Offset) : Z :=
  match o with
  | NONE => 0
  | OPEN => 1
  | CLOSE => 2
  | CLOSETODAY => 4
  | CLOSEYESTERDAY => 5
  end.

End Codes.

Export Codes.

(** ** Methods that reach further into the outside world *)

(** The dictionary handed to the vendor's [insertOrder].  [xr_side] is
    [None] for the default [""] of a missing table entry;
    [xr_position_effect] is [None] when the key is absent (stock orders). *)
Record XtpOrderRequest : Type := mk_XtpOrderRequest {
  xr_ticker : string;
  xr_market : Z;
  xr_price : Z;
  xr_quantity : Z;
  xr_side : option Z;
  xr_position_effect : option Z;
  xr_price_type : Z;
  xr_business_type : Z
}.

(** [OrderRequest] of [vnpy.trader.object], with the answer of its method
    [get_is_buy_with_rongzi()]. *)
Record OrderRequest : Type := mk_OrderRequest {
  or_symbol : string;
  or_exchange : Exchange;
  or_direction : Direction;
  or_type : OrderType;
  or_volume : Z;
  or_price : Z;
  or_offset : Offset;
  or_buy_with_rongzi : option bool
}.

(** [OrderRequest.create_order_data] of the library [vnpy.trader.object],
    which [send_order] calls and which is not part of this source file; as
    the library defines it: the fields of the request under the given id,
    with traded volume, status and time the defaults of [OrderData]
    (0, [SUBMITTING], none). *)
Definition create_order_data (req : OrderRequest) (orderid : string)
    (gateway_name : string) : OrderData :=
  mk_OrderData (or_symbol req) (or_exchange req) orderid (or_type req)
    (or_direction req) (or_offset req) (or_price req) (or_volume req) 0
    SUBMITTING None gateway_name.

(** [OrderData.vt_orderid] *)
Definition vt_orderid (order : OrderData) : string :=
  o_gateway_name order +:+ "." +:+ o_orderid order.

(** Vendor calls and log lines of the methods of this part. *)
Inductive XCall : Type :=
| insertOrder (req : XtpOrderRequest) (session_id : Z)
| queryPosition (ticker : string) (session_id reqid : Z)
| queryCreditDebtInfo (session_id reqid : Z).

Inductive XMsg : Type :=
| MsgTdDisconnected (reason : Z)
| MsgUnsupportedExchange (value : string)
| MsgOffsetRequired
| MsgUnsupportedOptionType (type : OrderType)
| MsgUnsupportedStockType (type : OrderType).

(** The effects of this part: those of the first part, the further vendor
    calls and log lines, and the registration of the timer handler. *)
Inductive XEffect : Type :=
| Core (e : Effect)
| XVendor (c : XCall)
| XWriteLog (m : XMsg)
| RegisterTimer.

Inductive XExn : Type :=
| CoreExn (e : Exn)
| IndexError.

Inductive xresult (A : Type) : Type :=
| XOk (a : A)
| XRaise (e : XExn).

Arguments XOk {A} a.
Arguments XRaise {A} e.

Module MethX.

Definition MX (S A : Type) : Type := S -> xresult A * S * list XEffect.

Definition xret {S A : Type} (a : A) : MX S A := fun s => (XOk a, s, []).

Definition xbind {S A B : Type} (m : MX S A) (k : A -> MX S B) : MX S B :=
  fun s =>
    match m s with
    | (XOk a, s1, t1) =>
        match k a s1 with
        | (r, s2, t2) => (r, s2, t1 ++ t2)
        end
    | (XRaise e, s1, t1) => (XRaise e, s1, t1)
    end.

Definition xget {S : Type} : MX S S := fun s => (XOk s, s, []).

Definition xmodify {S : Type} (f : S -> S) : MX S unit :=
  fun s => (XOk tt, f s, []).

Definition xemit {S : Type} (e : XEffect) : MX S unit :=
  fun s => (XOk tt, s, [e]).

Definition xraise {S A : Type} (e : XExn) : MX S A :=
  fun s => (XRaise e, s, []).

(** A method of the first part, run as it is. *)
Definition embed {S A : Type} (m : M S A) : MX S A :=
  fun s =>
    match m s with
    | (Ok a, s1, t1) => (XOk a, s1, map Core t1)
    | (Raise e, s1, t1) => (XRaise (CoreExn e), s1, map Core t1)
    end.

(** A method of an attribute [T] of the object [S], run on the object. *)
Definition zoom {S T A : Type} (proj : S -> T) (put : T -> S -> S)
    (m : MX T A) : MX S A :=
  fun s =>
    match m (proj s) with
    | (r, t1, tr) => (r, put t1 s, tr)
    end.

Declare Scope methx_scope.
Delimit Scope methx_scope with methx.

Notation "'let!' x ':=' m 'in' k" := (xbind m (fun x => k))
  (at level 10, x name, m at level 100, k at level 200) : methx_scope.
Notation "m ';;;' k" := (xbind m (fun _ => k))
  (at level 100, k at level 200, right associativity) : methx_scope.

End MethX.

Export MethX.

Module Ext.

#[local] Open Scope methx_scope.

(** [XtpTdApi.onDisconnected] *)
Definition onDisconnected (env : Td.Env) (session reason : Z)
  : MX Td.XtpTdApi unit :=
  xmodify (Td.set_connect_status false) ;;;
  xmodify (Td.set_login_status false) ;;;
  xemit (XWriteLog (MsgTdDisconnected reason)) ;;;
  embed (Td.login_server env).

(** [XtpTdApi.query_position] *)
Definition query_position : MX Td.XtpTdApi unit :=
  let! s := xget in
  if negb (Td.connect_status s) then xret tt
  else
    xmodify (fun s => Td.set_reqid (Td.reqid s + 1) s) ;;;
    let! s := xget in
    xemit (XVendor (queryPosition "" (Td.session_id s) (Td.reqid s))) ;;;
    if Td.margin_trading s then
      xmodify (fun s => Td.set_reqid (Td.reqid s + 1) s) ;;;
      let! s := xget in
      xemit (XVendor (queryCreditDebtInfo (Td.session_id s) (Td.reqid s)))
    else xret tt.

(** [XtpTdApi.query_credit_debt] *)
Definition query_credit_debt : MX Td.XtpTdApi unit :=
  let! s := xget in
  if negb (Td.connect_status s) then xret tt
  else
    xmodify (fun s => Td.set_reqid (Td.reqid s + 1) s) ;;;
    let! s := xget in
    xemit (XVendor (queryCreditDebtInfo (Td.session_id s) (Td.reqid s))).

(** The first part of [XtpTdApi.send_order]: the dictionary for the
    vendor, or the log line of the rejection.  The tests come in the order
    of the method: exchange, offset of a margin account, order type of the
    instrument class. *)
Definition xtp_request (margin_trading : bool) (req : OrderRequest)
  : XMsg + XtpOrderRequest :=
  match MARKET_VT2XTP (or_exchange req) with
  | None => inl (MsgUnsupportedExchange (Exchange_value (or_exchange req)))
  | Some market =>
      if margin_trading && bool_decide (or_offset req = NONE)
      then inl MsgOffsetRequired
      else if (String.length (or_symbol req) =? 8)%nat then
        match OPTION_ORDERTYPE_VT2XTP (or_type req) with
        | None => inl (MsgUnsupportedOptionType (or_type req))
        | Some price_type =>
            inr (mk_XtpOrderRequest (or_symbol req) market (or_price req)
                   (or_volume req)
                   (DIRECTION_OPTION_VT2XTP (or_direction req))
                   (Some (OFFSET_VT2XTP (or_offset req))) price_type 10)
        end
      else
        let type_map :=
          if String.prefix "688" (or_symbol req)
          then STAR_ORDERTYPE_VT2XTP else EQUITY_ORDERTYPE_VT2XTP in
        match type_map (or_type req) with
        | None => inl (MsgUnsupportedStockType (or_type req))
        | Some price_type =>
            let side_key :=
              if margin_trading then
                match or_buy_with_rongzi req with
                | Some true => (or_direction req, or_offset req)
                | _ => (or_direction req, NONE)
                end
              else (or_direction req, NONE) in
            inr (mk_XtpOrderRequest (or_symbol req) market (or_price req)
                   (or_volume req) (DIRECTION_STOCK_VT2XTP side_key) None
                   price_type (if margin_trading then 4 else 0))
        end
  end.

(** [XtpTdApi.send_order]; [insert_ret] is the id the vendor's
    [insertOrder] returns. *)
Definition send_order (insert_ret : Z) (req : OrderRequest)
  : MX Td.XtpTdApi string :=
  let! s := xget in
  match xtp_request (Td.margin_trading s) req with
  | inl msg =>
      xemit (XWriteLog msg) ;;;
      xret ""
  | inr xtp_req =>
      xemit (XVendor (insertOrder xtp_req (Td.session_id s))) ;;;
      let orderid := pretty insert_ret in
      let order := create_order_data req orderid (Td.gateway_name s) in
      xmodify (fun s => Td.set_orders (<[orderid := order]> (Td.orders s)) s) ;;;
      xemit (Core (OnOrder order)) ;;;
      xret (vt_orderid order)
  end.

End Ext.

(** ** The gateway object and its timer *)

Module Gw.

#[local] Open Scope methx_scope.

(** A [datetime.time]: the time of day. *)
Record daytime : Type := mk_daytime {
  d_hour : Z;
  d_minute : Z;
  d_second : Z;
  d_microsecond : Z
}.

(** Microseconds since midnight; orders the times of day as Python's
    comparison of [time] objects does. *)
Definition micros (t : daytime) : Z :=
  ((d_hour t * 60 + d_minute t) * 60 + d_second t) * 1000000
  + d_microsecond t.

Definition time_le (a b : daytime) : bool := micros a <=? micros b.

Definition AM_START : daytime := mk_daytime 9 30 0 0.
Definition AM_END : daytime := mk_daytime 11 30 0 0.
Definition PM_START : daytime := mk_daytime 13 0 0 0.
Definition PM_END : daytime := mk_daytime 15 0 0 0.

(** [is_curr_trade_time], on the time [datetime.now().time()] gave. *)
Definition is_curr_trade_time (current_time : daytime) : bool :=
  (time_le AM_START current_time && time_le current_time AM_END)
  || (time_le PM_START current_time && time_le current_time PM_END).

(** The bound methods that [query_functions] can hold. *)
Inductive QueryFn : Type :=
| fn_query_account
| fn_query_credit_asset
| fn_query_credit_debt
| fn_query_position.

(** [XtpGateway]: the two sessions, and the attributes [init_query] sets. *)
Record XtpGateway : Type := mk_XtpGateway {
  md_api : Md.XtpMdApi;
  td_api : Td.XtpTdApi;
  count : Z;
  query_functions : list QueryFn
}.

Definition set_td_api (v : Td.XtpTdApi) (g : XtpGateway) : XtpGateway :=
  mk_XtpGateway (md_api g) v (count g) (query_functions g).

Definition set_count (v : Z) (g : XtpGateway) : XtpGateway :=
  mk_XtpGateway (md_api g) (td_api g) v (query_functions g).

Definition set_query_functions (v : list QueryFn) (g : XtpGateway)
  : XtpGateway :=
  mk_XtpGateway (md_api g) (td_api g) (count g) v.

(** A method of the trading session, called through the gateway. *)
Definition on_td {A : Type} (m : MX Td.XtpTdApi A) : MX XtpGateway A :=
  zoom td_api set_td_api m.

(** [XtpGateway.query_account] *)
Definition query_account : MX XtpGateway unit :=
  on_td (embed Td.query_account).

(** [XtpGateway.query_credit_asset] *)
Definition query_credit_asset : MX XtpGateway unit :=
  on_td (embed Td.query_credit_asset).

(** [XtpGateway.query_credit_debt] *)
Definition query_credit_debt : MX XtpGateway unit :=
  on_td Ext.query_credit_debt.

(** [XtpGateway.query_position] *)
Definition query_position : MX XtpGateway unit :=
  on_td Ext.query_position.

(** [func()] for an entry of [query_functions]. *)
Definition call (func : QueryFn) : MX XtpGateway unit :=
  match func with
  | fn_query_account => query_account
  | fn_query_credit_asset => query_credit_asset
  | fn_query_credit_debt => query_credit_debt
  | fn_query_position => query_position
  end.

(** [XtpGateway.process_timer_event], at the time of day [now].
    [self.query_functions.pop(0)] raises [IndexError] on an empty list. *)
Definition process_timer_event (now : daytime) : MX XtpGateway unit :=
  if is_curr_trade_time now then xret tt
  else
    xmodify (fun g => set_count (count g + 1) g) ;;;
    let! g := xget in
    if count g <? 2 then xret tt
    else
      xmodify (set_count 0) ;;;
      let! g := xget in
      match query_functions g with
      | [] => xraise IndexError
      | func :: rest =>
          xmodify (set_query_functions rest) ;;;
          call func ;;;
          xmodify (fun g => set_query_functions
                              (query_functions g ++ [func]) g)
      end.

(** [XtpGateway.init_query] *)
Definition init_query : MX XtpGateway unit :=
  xmodify (set_count 0) ;;;
  query_account ;;;
  query_credit_asset ;;;
  xmodify (set_query_functions [fn_query_position]) ;;;
  xemit RegisterTimer.

(** The timer events of a sequence of times, in order; the trace and
    whether every event returned. *)
Fixpoint run_timer (nows : list daytime) (g : XtpGateway)
  : XtpGateway * list XEffect * bool :=
  match nows with
  | [] => (g, [], true)
  | now :: nows' =>
      match process_timer_event now g with
      | (r, g1, t1) =>
          match run_timer nows' g1 with
          | (g2, t2, ok) =>
              (g2, t1 ++ t2,
               match r with XOk _ => ok | XRaise _ => false end)
          end
      end
  end.

(** The number of timer events of [nows] outside the trading windows. *)
Definition idle_events (nows : list daytime) : nat :=
  length (filter (fun now => is_curr_trade_time now = false) nows).

(** One turn of the round robin: the head of the queue goes to its
    tail. *)
Definition turn (queue : list QueryFn) : list QueryFn :=
  match queue with
  | [] => []
  | func :: rest => rest ++ [func]
  end.

(** The queries of the trading session, as the vendor receives them. *)
Inductive Request : Type :=
| ReqAsset
| ReqCreditFund
| ReqCreditDebt
| ReqPosition.

(** The query that an element of a trace hands to the vendor, with its
    session number and its request number. *)
Definition request_of (e : XEffect) : option (Request * Z * Z) :=
  match e with
  | Core (Vendor (queryAsset session_id reqid)) =>
      Some (ReqAsset, session_id, reqid)
  | Core (Vendor (queryCreditFundInfo session_id reqid)) =>
      Some (ReqCreditFund, session_id, reqid)
  | XVendor (queryCreditDebtInfo session_id reqid) =>
      Some (ReqCreditDebt, session_id, reqid)
  | XVendor (queryPosition _ session_id reqid) =>
      Some (ReqPosition, session_id, reqid)
  | _ => None
  end.

Definition requests (t : list XEffect) : list (Request * Z * Z) :=
  omap request_of t.

(** What a function of the queue asks of the vendor on a connected
    session. *)
Definition asks (margin_trading : bool) (func : QueryFn) : list Request :=
  match func with
  | fn_query_account => [ReqAsset]
  | fn_query_credit_asset => [ReqCreditFund]
  | fn_query_credit_debt => [ReqCreditDebt]
  | fn_query_position =>
      ReqPosition :: (if margin_trading then [ReqCreditDebt] else [])
  end.

(** The functions that [n] turns of the queue run, in order. *)
Fixpoint served (n : nat) (queue : list QueryFn) : list QueryFn :=
  match n, queue with
  | S n', func :: _ => func :: served n' (turn queue)
  | _, _ => []
  end.

(** Requests under consecutive request numbers, the first under the number
    after [reqid]. *)
Fixpoint numbered (session_id reqid : Z) (rs : list Request)
  : list (Request * Z * Z) :=
  match rs with
  | [] => []
  | r :: rs' =>
      (r, session_id, reqid + 1) :: numbered session_id (reqid + 1) rs'
  end.

End Gw.

(** A gateway on the sample sessions, with two queries queued, and the
    times of five timer events: 08:00, 10:00, 12:00, 12:00:01 and 16:00. *)
Definition sample_gateway : Gw.XtpGateway :=
  Gw.mk_XtpGateway sample_md sample_td 0
    [Gw.fn_query_account; Gw.fn_query_position].

Definition sample_nows : list Gw.daytime :=
  [Gw.mk_daytime 8 0 0 0; Gw.mk_daytime 10 0 0 0;
   Gw.mk_daytime 12 0 0 0; Gw.mk_daytime 12 0 1 0;
   Gw.mk_daytime 16 0 0 0].

(** * Properties *)

(** ** Reading stamps *)

(** [strptime] on the vendor's 17-digit stamps and on texts of other
    shapes: a 16-digit and a 14-digit text are read, with a shorter
    fraction and a one-digit second; so is a 17-digit text with an hour of
    24 or a month of 13, the field giving up a digit to the next; the 29th
    of February of a common year, the number 0 and a negative number are
    refused. *)
Example strptime_reads :
  strptime 20231204093000123 = Some (mk_datetime 2023 12 4 9 30 0 123000)
  /\ strptime 2023120409300012 = Some (mk_datetime 2023 12 4 9 30 0 120000)
  /\ strptime 20231204093000 = Some (mk_datetime 2023 12 4 9 30 0 0)
  /\ strptime 20240102240000000 = Some (mk_datetime 2024 1 2 2 40 0 0)
  /\ strptime 20241302093000123 = Some (mk_datetime 2024 1 30 20 9 30 1230)
  /\ strptime 20230229093000123 = None
  /\ strptime 0 = None
  /\ strptime (-20231204093000123) = None.
Proof. vm_compute. repeat split. Qed.


(** ** Laws of the method monad used below *)

Section MethLaws.
Context {S : Type}.

(** A loop whose body only emits leaves the object alone and emits the
    bodies' effects in the order of the list. *)
Lemma for_each_emit {A : Type} (l : list A) (f : A -> list Effect)
    (body : A -> M S unit) (s : S) :
  (forall x s', body x s' = (Ok tt, s', f x)) ->
  for_each l body s = (Ok tt, s, concat (map f l)).
Proof.
  intros Hbody. induction l as [|x l IH]; simpl; [done|].
  unfold bind. rewrite Hbody, IH. done.
Qed.

End MethLaws.

Lemma vendor_calls_app (t1 t2 : list Effect) :
  vendor_calls (t1 ++ t2) = vendor_calls t1 ++ vendor_calls t2.
Proof.
  induction t1 as [|e t1 IH]; simpl; [done|].
  destruct e; simpl; by rewrite ?IH.
Qed.

(** ** Resubscription *)

Lemma size_registry_pos (reg : gset (string * Exchange)) :
  reg ≠ ∅ -> (size reg =? 0)%nat = false.
Proof.
  intros Hne. apply Nat.eqb_neq. intros Hsz.
  apply Hne. apply leibniz_equiv. by apply size_empty_iff.
Qed.

Lemma re_subscribe_run (s : Md.XtpMdApi) :
  Md.login_status s = true ->
  Md.re_subscribe s
  = (Ok tt, s,
     concat (map (unsubscribe_effects (Md.client_id s))
               (elements (Md.subscribe_request_list s)))
     ++ concat (map (subscribe_effects (Md.client_id s))
                  (elements (Md.subscribe_request_list s)))).
Proof.
  intros Hlogin.
  unfold Md.re_subscribe, try_except, bind at 1, get.
  destruct (decide (Md.subscribe_request_list s = ∅)) as [Hempty|Hne].
  - rewrite Hempty, size_empty, elements_empty. done.
  - rewrite (size_registry_pos _ Hne), Hlogin.
    cbn [negb]. unfold bind at 1.
    rewrite (for_each_emit _ (unsubscribe_effects (Md.client_id s)));
      [|done].
    rewrite (for_each_emit _ (subscribe_effects (Md.client_id s)));
      [|done].
    done.
Qed.

Lemma vendor_calls_unsubscribe (cid : Z) (l : list (string * Exchange)) :
  vendor_calls (concat (map (unsubscribe_effects cid) l))
  = map unsubscribe_call l.
Proof. induction l as [|x l IH]; simpl; [done|]. by rewrite IH. Qed.

Lemma vendor_calls_subscribe (cid : Z) (l : list (string * Exchange)) :
  vendor_calls (concat (map (subscribe_effects cid) l))
  = map subscribe_call l.
Proof. induction l as [|x l IH]; simpl; [done|]. by rewrite IH. Qed.

(** On a successful login the session is marked logged in, the contracts
    are queried, and the registry is replayed. *)
Lemma login_server_success (env : Md.Env) (s : Md.XtpMdApi) :
  Md.login_ret env = 0 ->
  let s1 := Md.set_login_status true (Md.set_connect_status true s) in
  Md.login_server env s
  = (Ok tt, state_of (Md.re_subscribe s1),
     [Vendor (md_login (Md.server_ip s) (Md.server_port s) (Md.userid s)
                (Md.password s) (Md.protocol s) (Md.local_ip s));
      Vendor (queryAllTickers 1); Vendor (queryAllTickers 2); Vendor init]
     ++ trace_of (Md.re_subscribe s1) ++ [WriteLog MsgMdLoginOk])
  /\ result_of (Md.re_subscribe s1) = Ok tt.
Proof.
  intros Hn s1. unfold Md.login_server. rewrite Hn. simpl.
  unfold bind, get, emit, modify, Md.query_contract, ret; simpl.
  fold s1.
  assert (Hres : result_of (Md.re_subscribe s1) = Ok tt).
  { unfold Md.re_subscribe, try_except, result_of.
    destruct (bind get _ s1) as [[[[]|e] s2] t2]; simpl; [done|].
    by unfold bind, get, emit; simpl. }
  split; [|done].
  unfold result_of, state_of, trace_of in *.
  destruct (Md.re_subscribe s1) as [[r s2] t2]; simpl in *. subst r.
  simpl. by rewrite app_nil_r.
Qed.

(** The vendor calls of a successful login: the login, the contract
    queries, and the replay of the registry. *)
Lemma login_server_calls (env : Md.Env) (s : Md.XtpMdApi) :
  Md.login_ret env = 0 ->
  vendor_calls (trace_of (Md.login_server env s))
  = ([md_login (Md.server_ip s) (Md.server_port s) (Md.userid s)
        (Md.password s) (Md.protocol s) (Md.local_ip s);
      queryAllTickers 1; queryAllTickers 2; init]
     ++ map unsubscribe_call (elements (Md.subscribe_request_list s)))
    ++ map subscribe_call (elements (Md.subscribe_request_list s)).
Proof.
  intros Hn. destruct (login_server_success env s Hn) as [Hrun _].
  rewrite Hrun. unfold trace_of at 1; simpl.
  rewrite re_subscribe_run by done.
  unfold trace_of; simpl.
  rewrite !vendor_calls_app, vendor_calls_unsubscribe,
    vendor_calls_subscribe. simpl. by rewrite app_nil_r.
Qed.

Lemma unsubscribe_before_subscribe (l1 l2 : list VendorCall) :
  (forall c, c ∈ l1 -> is_subscribe c = false) ->
  (forall c, c ∈ l2 -> is_unsubscribe c = false) ->
  forall (i j : nat) (cu cs : VendorCall),
    (l1 ++ l2) !! i = Some cu -> is_unsubscribe cu = true ->
    (l1 ++ l2) !! j = Some cs -> is_subscribe cs = true ->
    (i < j)%nat.
Proof.
  intros H1 H2 i j cu cs Hi Hu Hj Hs.
  destruct (decide (i < length l1)%nat) as [Hlt|Hge].
  - destruct (decide (j < length l1)%nat) as [Hjlt|Hjge]; [|lia].
    rewrite lookup_app_l in Hj by done.
    apply list_elem_of_lookup_2 in Hj. apply H1 in Hj. congruence.
  - rewrite lookup_app_r in Hi by lia.
    apply list_elem_of_lookup_2 in Hi. apply H2 in Hi. congruence.
Qed.

Lemma drain_then_refill_intro (reg : gset (string * Exchange))
    (pre : list VendorCall) :
  (forall c, c ∈ pre -> is_subscribe c = false) ->
  drain_then_refill reg
    ((pre ++ map unsubscribe_call (elements reg))
     ++ map subscribe_call (elements reg)).
Proof.
  intros Hpre. split.
  - intros req Hreq. apply elem_of_elements in Hreq. split.
    + apply elem_of_app. left. apply elem_of_app. right.
      by apply list_elem_of_fmap_2.
    + apply elem_of_app. right. by apply list_elem_of_fmap_2.
  - apply unsubscribe_before_subscribe.
    + intros c [Hc|Hc]%elem_of_app; [by apply Hpre|].
      apply list_elem_of_fmap in Hc as (req & -> & _). done.
    + intros c Hc. apply list_elem_of_fmap in Hc as (req & -> & _). done.
Qed.

(** C7. In a resubscription with a non-empty registry ([re_subscribe] on
    a logged-in session, and so the one [login_server] runs when a
    (re)login succeeds) every registry entry is unsubscribed, every
    registry entry is subscribed, and among the vendor calls made every
    unsubscribe precedes every subscribe. *)
Theorem resubscription_drains_then_refills (env : Md.Env)
    (s : Md.XtpMdApi) :
  Md.subscribe_request_list s ≠ ∅ ->
  (Md.login_status s = true ->
   drain_then_refill (Md.subscribe_request_list s)
     (vendor_calls (trace_of (Md.re_subscribe s))))
  /\ (Md.login_ret env = 0 ->
      drain_then_refill (Md.subscribe_request_list s)
        (vendor_calls (trace_of (Md.login_server env s)))).
Proof.
  intros Hne. split.
  - intros Hlogin. rewrite (re_subscribe_run s Hlogin).
    unfold trace_of; simpl.
    rewrite vendor_calls_app, vendor_calls_unsubscribe,
      vendor_calls_subscribe.
    apply (drain_then_refill_intro _ []). by intros c Hc%elem_of_nil.
  - intros Hn. rewrite (login_server_calls env s Hn).
    apply drain_then_refill_intro.
    intros c Hc. repeat (apply elem_of_cons in Hc as [->|Hc]; [done|]).
    by apply elem_of_nil in Hc.
Qed.

Lemma sample_md_registry : Md.subscribe_request_list sample_md ≠ ∅.
Proof.
  intros H. apply (f_equal elements) in H.
  vm_compute in H. discriminate H.
Defined.

Lemma resubscription_drains_then_refills_witness :
  drain_then_refill (Md.subscribe_request_list sample_md)
    (vendor_calls (trace_of (Md.re_subscribe sample_md)))
  /\ drain_then_refill (Md.subscribe_request_list sample_md)
       (vendor_calls (trace_of (Md.login_server sample_env sample_md))).
Proof.
  destruct (resubscription_drains_then_refills sample_env sample_md
              sample_md_registry) as [H1 H2].
  split; [apply H1; reflexivity | apply H2; reflexivity].
Defined.

(** ** Subscribing while logged out *)

(** C10. [subscribe] on a session whose login status is false does
    nothing: it returns with the session unchanged and an empty trace (no
    vendor call, no log line), so the registry is what it was, and the
    resubscription of a later successful login replays the entries of that
    registry and no other. *)
Theorem subscribe_logged_out_is_noop (req : Md.SubscribeRequest)
    (s : Md.XtpMdApi) :
  Md.login_status s = false ->
  Md.subscribe req s = (Ok tt, s, [])
  /\ Md.subscribe_request_list (state_of (Md.subscribe req s))
     = Md.subscribe_request_list s
  /\ forall env, Md.login_ret env = 0 ->
       exists entries,
         vendor_calls
           (trace_of (Md.login_server env (state_of (Md.subscribe req s))))
         = ([login_call s; queryAllTickers 1; queryAllTickers 2; init]
            ++ map unsubscribe_call entries) ++ map subscribe_call entries
         /\ forall entry, entry ∈ entries ->
              entry ∈ Md.subscribe_request_list s.
Proof.
  intros Hout.
  assert (Hrun : Md.subscribe req s = (Ok tt, s, [])).
  { unfold Md.subscribe, bind, get. by rewrite Hout. }
  rewrite Hrun. unfold state_of; simpl.
  split; [done|]. split; [done|].
  intros env Hn. exists (elements (Md.subscribe_request_list s)).
  split; [by apply login_server_calls|].
  intros entry. by rewrite elem_of_elements.
Qed.

Lemma subscribe_logged_out_is_noop_witness :
  Md.subscribe (Md.mk_SubscribeRequest "600000" SSE) (Md.new "XTP")
  = (Ok tt, Md.new "XTP", []).
Proof.
  apply (subscribe_logged_out_is_noop (Md.mk_SubscribeRequest "600000" SSE)
           (Md.new "XTP")).
  reflexivity.
Defined.

(** ** Disconnection of the market-data session *)

Lemma login_server_failure (env : Md.Env) (s : Md.XtpMdApi) :
  Md.login_ret env ≠ 0 ->
  Md.login_server env s
  = (Ok tt, s,
     [Vendor (login_call s); Vendor getApiLastError;
      WriteLog (MsgMdLoginFailed (error_msg (Md.api_last_error env)))]).
Proof.
  intros Hn. unfold Md.login_server.
  apply Z.eqb_neq in Hn. rewrite Hn. done.
Qed.

(** [login_server] starts with the vendor login on the stored parameters
    and does not touch the reconnect counter. *)
Lemma login_server_first_call (env : Md.Env) (s : Md.XtpMdApi) :
  head (trace_of (Md.login_server env s)) = Some (Vendor (login_call s))
  /\ Md.re_connect_times (state_of (Md.login_server env s))
     = Md.re_connect_times s
  /\ result_of (Md.login_server env s) = Ok tt.
Proof.
  destruct (decide (Md.login_ret env = 0)) as [Hn|Hn].
  - destruct (login_server_success env s Hn) as [Hrun _].
    rewrite Hrun. rewrite re_subscribe_run by done. done.
  - by rewrite (login_server_failure env s Hn).
Qed.

Lemma lower_Y : lower "Y" = "y".
Proof. reflexivity. Qed.

(** Only the two spellings of the letter lower to ["y"]. *)
Lemma lower_is_y (v : string) : lower v = "y" <-> v = "Y" \/ v = "y".
Proof.
  split.
  - destruct v as [|c [|c' v']]; simpl; try discriminate.
    intros H. injection H as H.
    destruct c as [[] [] [] [] [] [] [] []]; vm_compute in H;
      try discriminate H; auto.
  - by intros [->| ->].
Qed.

(** C6. On a disconnect of the market-data session: when the registry is
    not empty and the auto-login switch is present with a value that does
    not lower to ["y"], the handler writes its two log lines and returns,
    with no sleep, no login and the reconnect counter as it was; in every
    other case (empty registry, switch absent, switch ["Y"] or ["y"]) it
    sleeps 3 seconds, adds one to the reconnect counter and runs
    [login_server], whose first act is the vendor login on the parameters
    stored in the session. *)
Theorem onDisconnected_policy (env : Md.Env) (reason : Z)
    (s : Md.XtpMdApi) :
  (forall v,
     Md.subscribe_request_list s ≠ ∅ ->
     Md.sys_config env = Some v ->
     lower v ≠ "y" ->
     Md.onDisconnected env reason s
     = (Ok tt, disconnected s,
        [disconnect_notice reason s;
         GetConfigValue "re_auto_login_xtp";
         LogInfo (MsgAutoLoginOff v (Md.client_id s)
                    (size (Md.subscribe_request_list s)))]))
  /\ (Md.subscribe_request_list s = ∅
      \/ Md.sys_config env = None
      \/ (exists v, Md.sys_config env = Some v /\ lower v = "y") ->
      let s1 :=
        Md.set_re_connect_times (Md.re_connect_times s + 1)
          (disconnected s) in
      let relogin := Md.login_server env s1 in
      exists consulted,
        Md.onDisconnected env reason s
        = (Ok tt, state_of relogin,
           (disconnect_notice reason s :: consulted)
           ++ Sleep 3 :: trace_of relogin)
        /\ (consulted = []
            \/ consulted = [GetConfigValue "re_auto_login_xtp"])
        /\ head (trace_of relogin) = Some (Vendor (login_call s))
        /\ Md.re_connect_times (state_of relogin)
           = Md.re_connect_times s + 1).
Proof.
  split.
  - intros v Hne Hcfg Hv.
    unfold Md.onDisconnected, bind, modify, get, emit, ret;
      cbn -[String.eqb lower Md.login_server size Nat.ltb]; rewrite lower_Y.
    assert (Hsz : (0 <? size (Md.subscribe_request_list s))%nat = true).
    { apply Nat.ltb_lt. pose proof (size_registry_pos _ Hne) as Hz.
      apply Nat.eqb_neq in Hz. lia. }
    rewrite Hsz, Hcfg.
    assert (Hoff : String.eqb "y" (lower v) = false).
    { apply String.eqb_neq. congruence. }
    rewrite Hoff. done.
  - intros Hcase s1 relogin.
    destruct (login_server_first_call env s1) as (Hhead & Hcount & Hres).
    assert (Hgo : forall consulted,
      (Ok tt, state_of relogin,
       (disconnect_notice reason s :: consulted)
       ++ Sleep 3 :: trace_of relogin)
      = (result_of relogin, state_of relogin,
         disconnect_notice reason s
         :: consulted ++ Sleep 3 :: trace_of relogin)).
    { intros consulted. subst relogin. by rewrite Hres. }
    assert (Hrelogin : relogin
      = (result_of relogin, state_of relogin, trace_of relogin)).
    { by destruct relogin as [[r s2] t2]. }
    destruct (decide (Md.subscribe_request_list s = ∅)) as [Hempty|Hne].
    + exists []. split; [|by auto].
      rewrite Hgo.
      unfold Md.onDisconnected, bind, modify, get, emit, ret;
      cbn -[String.eqb lower Md.login_server size Nat.ltb]; rewrite lower_Y.
      rewrite Hempty, size_empty; simpl.
      fold (disconnected s). fold s1. fold relogin.
      rewrite Hrelogin at 1. done.
    + exists [GetConfigValue "re_auto_login_xtp"]. split; [|by auto].
      rewrite Hgo.
      assert (Hsz : (0 <? size (Md.subscribe_request_list s))%nat = true).
      { apply Nat.ltb_lt. pose proof (size_registry_pos _ Hne) as Hz.
        apply Nat.eqb_neq in Hz. lia. }
      assert (Hstop :
        match Md.sys_config env with
        | Some v => negb (String.eqb "y" (lower v))
        | None => false
        end = false).
      { destruct Hcase as [Hc|[Hc|(v & Hc & Hv)]]; [done| |].
        - by rewrite Hc.
        - rewrite Hc, Hv. done. }
      unfold Md.onDisconnected, bind, modify, get, emit, ret;
      cbn -[String.eqb lower Md.login_server size Nat.ltb]; rewrite lower_Y.
      rewrite Hsz.
      destruct (Md.sys_config env) as [v|]; simpl.
      * simpl in Hstop. rewrite Hstop; simpl.
        fold (disconnected s). fold s1. fold relogin.
        rewrite Hrelogin at 1. done.
      * fold (disconnected s). fold s1. fold relogin.
        rewrite Hrelogin at 1. done.
Qed.

Lemma onDisconnected_policy_witness :
  Md.onDisconnected sample_env_off 0 sample_md
  = (Ok tt, disconnected sample_md,
     [disconnect_notice 0 sample_md;
      GetConfigValue "re_auto_login_xtp";
      LogInfo (MsgAutoLoginOff "N" 0 1)])
  /\ Md.re_connect_times
       (state_of (Md.onDisconnected sample_env 0 sample_md)) = 1.
Proof.
  destruct (onDisconnected_policy sample_env_off 0 sample_md) as [H1 _].
  destruct (onDisconnected_policy sample_env 0 sample_md) as [_ H2].
  split.
  - apply (H1 "N"); [exact sample_md_registry | reflexivity |].
    vm_compute. discriminate.
  - destruct H2 as (consulted & Hrun & _ & _ & Hcount).
    + right. left. reflexivity.
    + rewrite Hrun. unfold state_of at 1. cbn [fst snd].
      rewrite Hcount. reflexivity.
Defined.

(** ** [connect] on a connected session *)

(** C8, as stated, fails: a [connect] on a connected market-data session
    is turned down, yet it has overwritten the stored user. *)
Lemma connect_rejected_overwrites_parameters :
  Md.connect_status sample_md = true
  /\ trace_of (Md.connect sample_env "u2" "p2" 9 "10.0.0.1" 6001 "TCP" 3
                 "10.0.0.2" sample_md)
     = [WriteLog MsgMdAlreadyLogin]
  /\ Md.userid sample_md = ""
  /\ Md.userid (state_of (Md.connect sample_env "u2" "p2" 9 "10.0.0.1" 6001
                            "TCP" 3 "10.0.0.2" sample_md)) = "u2"
  /\ state_of (Md.connect sample_env "u2" "p2" 9 "10.0.0.1" 6001 "TCP" 3
                 "10.0.0.2" sample_md) ≠ sample_md.
Proof.
  repeat split; try (vm_compute; reflexivity).
  intros H. apply (f_equal Md.userid) in H. vm_compute in H. discriminate H.
Qed.

Lemma PROTOCOL_TCP : PROTOCOL_VT2XTP "TCP" = Some 1.
Proof. reflexivity. Qed.

(** C8, amended. A [connect] on a connected session returns after the one
    log line "already logged in" and makes no vendor call; it replaces the
    stored connection parameters by its arguments (market data: user,
    password, client id, server address and port, protocol, local address,
    for a protocol name of the table; trading: the same with the software
    key, the protocol being TCP) and keeps every other attribute. *)
Theorem connect_while_connected (md_env : Md.Env) (td_env : Td.Env)
    (userid password : string) (client_id : Z) (server_ip : string)
    (server_port : Z) (quote_protocol software_key : string)
    (log_level : Z) (local_ip : string)
    (m : Md.XtpMdApi) (t : Td.XtpTdApi) :
  (Md.connect_status m = true ->
   forall p, PROTOCOL_VT2XTP quote_protocol = Some p ->
     Md.connect md_env userid password client_id server_ip server_port
       quote_protocol log_level local_ip m
     = (Ok tt,
        md_with_parameters userid password client_id server_ip server_port
          p local_ip m,
        [WriteLog MsgMdAlreadyLogin]))
  /\ (Td.connect_status t = true ->
      Td.connect td_env userid password client_id server_ip server_port
        software_key log_level local_ip t
      = (Ok tt,
         td_with_parameters userid password client_id server_ip server_port
           software_key 1 local_ip t,
         [WriteLog MsgTdAlreadyLogin])).
Proof.
  split.
  - intros Hc p Hp.
    unfold Md.connect, bind, modify, get, emit, ret, lift.
    rewrite Hp. cbn -[Md.login_server]. rewrite Hc. done.
  - intros Hc.
    unfold Td.connect, bind, modify, get, emit, ret, lift.
    rewrite PROTOCOL_TCP. cbn -[Td.login_server]. rewrite Hc. done.
Qed.

Lemma connect_while_connected_witness :
  Md.connect sample_env "u2" "p2" 9 "10.0.0.1" 6001 "UDP" 3 "10.0.0.2"
    sample_md
  = (Ok tt,
     md_with_parameters "u2" "p2" 9 "10.0.0.1" 6001 2 "10.0.0.2" sample_md,
     [WriteLog MsgMdAlreadyLogin])
  /\ Td.connect sample_td_env "u2" "p2" 9 "10.0.0.1" 6001 "key" 3 "10.0.0.2"
       sample_td
     = (Ok tt,
        td_with_parameters "u2" "p2" 9 "10.0.0.1" 6001 "key" 1 "10.0.0.2"
          sample_td,
        [WriteLog MsgTdAlreadyLogin]).
Proof.
  destruct (connect_while_connected sample_env sample_td_env "u2" "p2" 9
              "10.0.0.1" 6001 "UDP" "key" 3 "10.0.0.2" sample_md sample_td)
    as [Hm Ht].
  split; [apply Hm; reflexivity | apply Ht; reflexivity].
Defined.

(** ** The tick filters *)

Lemma is_sub_symbol_false (symbol : string) (s : Md.XtpMdApi) :
  (forall req, req ∈ Md.subscribe_request_list s -> req.1 ≠ symbol) ->
  Md.is_sub_symbol symbol s = false.
Proof.
  intros Hnone. unfold Md.is_sub_symbol.
  apply not_true_is_false. intros Hex.
  apply existsb_exists in Hex as (req & Hin & Heq).
  apply String.eqb_eq in Heq.
  apply list_elem_of_In, elem_of_elements in Hin.
  by apply (Hnone req).
Qed.

(** C4, as stated, fails: with [000001.SZSE] alone in the registry and
    all-market mode off, a tick of [000001] on the other exchange, whose
    pair is not in the registry, is handed to the host. *)
Lemma foreign_exchange_tick_published :
  Md.subscribe_all sample_md = false
  /\ (("000001", SSE) ∉ Md.subscribe_request_list sample_md)
  /\ published_ticks (trace_of (Md.onDepthMarketData sample_tick_sse sample_md))
     = [mk_TickData "000001" SSE sample_time "XTP"].
Proof.
  split; [reflexivity|]. split.
  - apply (bool_decide_unpack _). vm_compute. exact I.
  - vm_compute. reflexivity.
Qed.

(** C4, amended. With all-market mode off, a tick whose symbol is the
    symbol of no registry entry is never handed to the host, and the
    session is left as it was; the exchange of the tick is not compared
    with the exchanges of the registry. *)
Theorem unsubscribed_symbol_tick_dropped (data : DepthData)
    (s : Md.XtpMdApi) :
  Md.subscribe_all s = false ->
  (forall req, req ∈ Md.subscribe_request_list s ->
     req.1 ≠ md_ticker data) ->
  published_ticks (trace_of (Md.onDepthMarketData data s)) = []
  /\ state_of (Md.onDepthMarketData data s) = s.
Proof.
  intros Hall Hnone.
  pose proof (is_sub_symbol_false _ _ Hnone) as Hsub.
  unfold Md.onDepthMarketData, bind, lift, get.
  destruct (strptime (md_data_time data)) as [dt|]; [|done].
  destruct (EXCHANGE_XTP2VT (md_exchange_id data)) as [exchange|]; [|done].
  cbn -[Md.is_early_tick Md.is_sub_symbol String.append].
  destruct (Md.is_early_tick _ dt); [done|].
  rewrite Hall, Hsub. done.
Qed.

Lemma unsubscribed_symbol_tick_dropped_witness :
  published_ticks
    (trace_of (Md.onDepthMarketData
                 (mk_DepthData 20231204093000123 "600000" 1) sample_md))
  = [].
Proof.
  apply (unsubscribed_symbol_tick_dropped
           (mk_DepthData 20231204093000123 "600000" 1) sample_md).
  - reflexivity.
  - intros req Hreq. unfold sample_md in Hreq. simpl in Hreq.
    apply elem_of_singleton in Hreq. subst req.
    vm_compute. discriminate.
Defined.



(** The tick stamped like the last accepted one of its key, on the sample
    session: it is handed to the host. *)
Example equal_time_tick_passes :
  Md.last_tick_time sample_md_seen !! "000001.SZSE" = Some sample_time
  /\ strptime (md_data_time sample_tick_szse) = Some sample_time
  /\ published_ticks
       (trace_of (Md.onDepthMarketData sample_tick_szse sample_md_seen))
     = [mk_TickData "000001" SZSE sample_time "XTP"].
Proof.
  split; [|split].
  - vm_compute. reflexivity.
  - vm_compute. reflexivity.
  - vm_compute. reflexivity.
Qed.

(** ** Trade fills *)

Lemma filled_status (volume : Z) (order : OrderData) :
  bool_decide (o_status (filled volume order) ∈ [PARTTRADED; ALLTRADED])
  = true.
Proof.
  apply bool_decide_eq_true. unfold filled; simpl.
  destruct (_ <? _); set_solver.
Qed.

(** The handler on a fill whose payload decodes and whose order is in the
    cache. *)
Lemma onTradeEvent_match (data : TradeEventData) (s : Td.XtpTdApi)
    (side : Direction * Offset) (dt : datetime) (exchange : Exchange)
    (order : OrderData) :
  Td.decode_side (te_ticker data) (te_side data) (te_position_effect data)
  = Some side ->
  strptime (te_trade_time data) = Some dt ->
  MARKET_XTP2VT (te_market data) = Some exchange ->
  Td.orders s !! pretty (te_order_xtp_id data) = Some order ->
  let order' := filled (te_quantity data) order in
  let s1 :=
    Td.set_orders (<[pretty (te_order_xtp_id data) := order']> (Td.orders s))
      s in
  Td.onTradeEvent data s
  = (result_of (refresh s1), state_of (refresh s1),
     [OnOrder order';
      OnTrade (trade_of data side dt exchange (Td.gateway_name s))]
     ++ trace_of (refresh s1)).
Proof.
  intros Hside Hdt Hex Horder order' s1.
  unfold Td.onTradeEvent.
  unfold bind at 1. unfold lift at 1. rewrite Hside. cbn [ret].
  unfold bind at 1. unfold lift at 1. rewrite Hdt. cbn [ret].
  unfold bind at 1. unfold lift at 1. rewrite Hex. cbn [ret].
  unfold bind at 1. unfold get at 1.
  cbn [t_orderid t_volume]. rewrite Horder.
  assert (Hfilled :
    (if o_traded (set_traded (o_traded order + te_quantity data) order)
        <? o_volume (set_traded (o_traded order + te_quantity data) order)
     then set_status PARTTRADED
            (set_traded (o_traded order + te_quantity data) order)
     else set_status ALLTRADED
            (set_traded (o_traded order + te_quantity data) order))
    = order').
  { unfold order', filled, set_status, set_traded; simpl.
    by destruct (_ <? _). }
  rewrite Hfilled.
  unfold bind at 1. unfold bind at 1. unfold Td.store_order, modify.
  fold s1. unfold bind at 1, emit at 1, ret at 1.
  unfold bind at 1, emit at 1.
  unfold bind at 1, lift at 1, ret at 1.
  pose proof (filled_status (te_quantity data) order) as Hst.
  fold order' in Hst. rewrite Hst. fold refresh.
  unfold result_of, state_of, trace_of.
  destruct (refresh s1) as [[r s2] t2]. done.
Qed.

Lemma refresh_connected (s : Td.XtpTdApi) :
  Td.connect_status s = true ->
  refresh s
  = (Ok tt, Td.set_reqid (Td.reqid s + 2) s,
     [Vendor (queryAsset (Td.session_id s) (Td.reqid s + 1));
      Vendor (queryCreditFundInfo (Td.session_id s) (Td.reqid s + 2))]).
Proof.
  intros Hc.
  unfold refresh, Td.query_account, Td.query_credit_asset, bind, get,
    modify, emit, ret.
  rewrite Hc. simpl. rewrite Hc. simpl.
  replace (Td.reqid s + 1 + 1) with (Td.reqid s + 2) by lia. done.
Qed.

Lemma refresh_disconnected (s : Td.XtpTdApi) :
  Td.connect_status s = false -> refresh s = (Ok tt, s, []).
Proof.
  intros Hc.
  unfold refresh, Td.query_account, Td.query_credit_asset, bind, get, ret.
  rewrite Hc. simpl. by rewrite Hc.
Qed.

(** C5. A fill whose order is in the cache adds the fill volume to the
    order's traded volume, sets the status to [PARTTRADED] when the new
    traded volume is below the requested volume and to [ALLTRADED]
    otherwise, hands the updated order and then the trade to the host, and
    runs the account and credit refresh; the recomputed status is always
    one of the two that trigger it.  On a connected session the refresh is
    the two vendor queries. *)
Theorem trade_fill_on_match (data : TradeEventData) (s : Td.XtpTdApi)
    (side : Direction * Offset) (dt : datetime) (exchange : Exchange)
    (order : OrderData) :
  Td.decode_side (te_ticker data) (te_side data) (te_position_effect data)
  = Some side ->
  strptime (te_trade_time data) = Some dt ->
  MARKET_XTP2VT (te_market data) = Some exchange ->
  Td.orders s !! pretty (te_order_xtp_id data) = Some order ->
  exists order',
    Td.orders (state_of (Td.onTradeEvent data s))
      !! pretty (te_order_xtp_id data) = Some order'
    /\ o_traded order' = o_traded order + te_quantity data
    /\ o_status order'
       = (if o_traded order' <? o_volume order
          then PARTTRADED else ALLTRADED)
    /\ o_volume order' = o_volume order
    /\ (o_status order' = PARTTRADED \/ o_status order' = ALLTRADED)
    /\ (let s1 :=
          Td.set_orders
            (<[pretty (te_order_xtp_id data) := order']> (Td.orders s)) s in
        let published :=
          [OnOrder order';
           OnTrade (trade_of data side dt exchange (Td.gateway_name s))] in
        Td.onTradeEvent data s
        = (result_of (refresh s1), state_of (refresh s1),
           published ++ trace_of (refresh s1))
        /\ (Td.connect_status s = true ->
            Td.onTradeEvent data s
            = (Ok tt, Td.set_reqid (Td.reqid s + 2) s1,
               published
               ++ [Vendor (queryAsset (Td.session_id s) (Td.reqid s + 1));
                   Vendor (queryCreditFundInfo (Td.session_id s)
                             (Td.reqid s + 2))]))).
Proof.
  intros Hside Hdt Hex Horder.
  pose proof (onTradeEvent_match data s side dt exchange order
                Hside Hdt Hex Horder) as Hrun.
  cbv zeta in Hrun.
  exists (filled (te_quantity data) order).
  set (order' := filled (te_quantity data) order) in *.
  set (s1 := Td.set_orders _ s) in *.
  assert (Hstate : Td.orders (state_of (refresh s1))
                   = <[pretty (te_order_xtp_id data) := order']>
                       (Td.orders s)).
  { destruct (Td.connect_status s1) eqn:Hc.
    - by rewrite (refresh_connected s1 Hc).
    - by rewrite (refresh_disconnected s1 Hc). }
  split.
  { rewrite Hrun. unfold state_of at 1. cbn [fst snd].
    rewrite Hstate. apply lookup_insert_eq. }
  split; [done|]. split; [done|]. split; [done|].
  split.
  { unfold order', filled; simpl. destruct (_ <? _); auto. }
  split; [done|].
  intros Hc. rewrite Hrun.
  rewrite (refresh_connected s1 Hc). done.
Qed.

Lemma trade_fill_on_match_witness :
  exists order',
    Td.orders (state_of (Td.onTradeEvent sample_fill sample_td_order))
      !! "7" = Some order'
    /\ o_traded order' = 150.
Proof.
  destruct (trade_fill_on_match sample_fill sample_td_order (LONG, NONE)
              (mk_datetime 2023 12 4 9 30 1 0) SSE
              (mk_OrderData "600000" SSE "7" LIMIT LONG NONE 105000 100 0
                 CANCELLED (Some sample_time) "XTP"))
    as (order' & Hlookup & Htraded & _).
  - vm_compute. reflexivity.
  - vm_compute. reflexivity.
  - reflexivity.
  - vm_compute. reflexivity.
  - exists order'. split; [exact Hlookup | exact Htraded].
Defined.

(** ** A fill for an order that is not in the cache *)

(** C2, as stated, fails: the fill [sample_fill] on a session without
    order 7 is reported, yet the trade is handed to the host, and the
    handler ends by raising instead of returning. *)
Lemma unknown_order_trade_published :
  Td.orders sample_td !! pretty (te_order_xtp_id sample_fill) = None
  /\ trace_of (Td.onTradeEvent sample_fill sample_td)
     = [WriteLog (MsgTradeNoOrder "7");
        OnTrade (trade_of sample_fill (LONG, NONE)
                   (mk_datetime 2023 12 4 9 30 1 0) SSE "XTP")]
  /\ result_of (Td.onTradeEvent sample_fill sample_td)
     = Raise UnboundLocalError.
Proof.
  split; [|split]; vm_compute; reflexivity.
Qed.

(** C2, amended. A fill whose order is not in the cache is reported with
    one log line; no order is created and nothing else of the session
    changes, no order update is handed to the host and no refresh query is
    made; the trade itself is handed to the host. *)
Theorem trade_fill_unknown_order (data : TradeEventData) (s : Td.XtpTdApi)
    (side : Direction * Offset) (dt : datetime) (exchange : Exchange) :
  Td.decode_side (te_ticker data) (te_side data) (te_position_effect data)
  = Some side ->
  strptime (te_trade_time data) = Some dt ->
  MARKET_XTP2VT (te_market data) = Some exchange ->
  Td.orders s !! pretty (te_order_xtp_id data) = None ->
  state_of (Td.onTradeEvent data s) = s
  /\ trace_of (Td.onTradeEvent data s)
     = [WriteLog (MsgTradeNoOrder (pretty (te_order_xtp_id data)));
        OnTrade (trade_of data side dt exchange (Td.gateway_name s))].
Proof.
  intros Hside Hdt Hex Horder.
  unfold Td.onTradeEvent.
  unfold bind at 1. unfold lift at 1. rewrite Hside. cbn [ret].
  unfold bind at 1. unfold lift at 1. rewrite Hdt. cbn [ret].
  unfold bind at 1. unfold lift at 1. rewrite Hex. cbn [ret].
  unfold bind at 1. unfold get at 1.
  cbn [t_orderid t_volume]. rewrite Horder.
  unfold bind, emit, ret, lift, raise, state_of, trace_of. simpl.
  rewrite Horder. done.
Qed.

Lemma trade_fill_unknown_order_witness :
  state_of (Td.onTradeEvent sample_fill sample_td) = sample_td
  /\ trace_of (Td.onTradeEvent sample_fill sample_td)
     = [WriteLog (MsgTradeNoOrder "7");
        OnTrade (trade_of sample_fill (LONG, NONE)
                   (mk_datetime 2023 12 4 9 30 1 0) SSE "XTP")].
Proof.
  apply (trade_fill_unknown_order sample_fill sample_td (LONG, NONE)
           (mk_datetime 2023 12 4 9 30 1 0) SSE).
  - vm_compute. reflexivity.
  - vm_compute. reflexivity.
  - reflexivity.
  - vm_compute. reflexivity.
Defined.

(** ** The reconciler over a sequence of events *)

Lemma same_order_refl (o : OrderData) : same_order o o.
Proof. by repeat split. Qed.

Lemma same_order_trans (o1 o2 o3 : OrderData) :
  same_order o1 o2 -> same_order o2 o3 -> same_order o1 o3.
Proof. unfold same_order. intros H1 H2. intuition congruence. Qed.

Ltac run_handler :=
  unfold Td.onOrderEvent, Td.onTradeEvent, Td.query_account,
    Td.query_credit_asset, Td.store_order, write_error, bind, lift, ret,
    get, emit, modify, raise, state_of;
  simpl.

(** A stored order survives any callback of the order feed, with the
    fields of [same_order] as they were. *)
Lemma handle_keeps_order (e : Event) (s : Td.XtpTdApi) (k : string)
    (o : OrderData) :
  Td.orders s !! k = Some o ->
  exists o', Td.orders (state_of (handle e s)) !! k = Some o'
             /\ same_order o o'.
Proof.
  intros Ho. destruct e as [data error|data]; unfold handle.
  - run_handler.
    repeat case_match; simplify_eq; simpl;
      rewrite ?lookup_insert; repeat case_decide; simplify_eq;
      eauto using same_order_refl;
      eexists; (split; [reflexivity|]); by repeat split.
  - run_handler.
    repeat case_match; simplify_eq; simpl;
      rewrite ?lookup_insert; repeat case_decide; simplify_eq;
      eauto using same_order_refl;
      eexists; (split; [reflexivity|]); by repeat split.
Qed.

Lemma run_keeps_order (es : list Event) (s : Td.XtpTdApi) (k : string)
    (o : OrderData) :
  Td.orders s !! k = Some o ->
  exists o', Td.orders (run es s) !! k = Some o' /\ same_order o o'.
Proof.
  revert s o. induction es as [|e es IH]; intros s o Ho; simpl.
  - exists o. split; [done|apply same_order_refl].
  - destruct (handle_keeps_order e s k o Ho) as (o1 & Ho1 & Hsame1).
    destruct (IH _ o1 Ho1) as (o2 & Ho2 & Hsame2).
    exists o2. split; [done|]. by apply same_order_trans with o1.
Qed.

(** An order update for an order of the cache overwrites the traded volume
    and the status with those of the event. *)
Lemma onOrderEvent_match (data : OrderEventData) (error : ErrorInfo)
    (s : Td.XtpTdApi) (side : Direction * Offset) (st : Status)
    (order : OrderData) :
  Td.decode_side (oe_ticker data) (oe_side data) (oe_position_effect data)
  = Some side ->
  STATUS_XTP2VT (oe_order_status data) = Some st ->
  Td.orders s !! pretty (oe_order_xtp_id data) = Some order ->
  exists o',
    Td.orders (state_of (Td.onOrderEvent data error s))
      !! pretty (oe_order_xtp_id data) = Some o'
    /\ o_traded o' = oe_qty_traded data
    /\ o_status o' = st
    /\ same_order order o'.
Proof.
  intros Hside Hst Horder.
  run_handler. rewrite Hside. simpl.
  destruct (negb (error_id error =? 0)); simpl;
    rewrite Horder; simpl; rewrite Hst; simpl;
    destruct (o_datetime order); simpl;
    try destruct (strptime (oe_insert_time data)); simpl;
    rewrite ?lookup_insert_eq;
    eexists; (split; [reflexivity|]); by repeat split.
Qed.

(** A fill for an order of the cache leaves it there as [filled] says. *)
Lemma onTradeEvent_stores_filled (data : TradeEventData) (s : Td.XtpTdApi)
    (side : Direction * Offset) (dt : datetime) (exchange : Exchange)
    (order : OrderData) :
  Td.decode_side (te_ticker data) (te_side data) (te_position_effect data)
  = Some side ->
  strptime (te_trade_time data) = Some dt ->
  MARKET_XTP2VT (te_market data) = Some exchange ->
  Td.orders s !! pretty (te_order_xtp_id data) = Some order ->
  Td.orders (state_of (Td.onTradeEvent data s))
    !! pretty (te_order_xtp_id data)
  = Some (filled (te_quantity data) order).
Proof.
  intros Hside Hdt Hex Horder.
  rewrite (onTradeEvent_match data s side dt exchange order
             Hside Hdt Hex Horder).
  unfold state_of at 1. cbn [fst snd].
  set (s1 := Td.set_orders _ s).
  destruct (Td.connect_status s1) eqn:Hc.
  - rewrite (refresh_connected s1 Hc). apply lookup_insert_eq.
  - rewrite (refresh_disconnected s1 Hc). apply lookup_insert_eq.
Qed.

(** C1, as stated, fails: order 7 is created cancelled with volume 100;
    a fill of 150 for it then makes the traded volume 150 and the status
    [ALLTRADED]. *)
Lemma cancelled_order_filled_beyond_volume :
  let events := [OrderUpdate sample_update no_error; TradeFill sample_fill] in
  Forall (fun e => event_order_id e = 7) events
  /\ o_status <$> Td.orders (run (take 1 events) sample_td) !! "7"
     = Some CANCELLED
  /\ o_status <$> Td.orders (run events sample_td) !! "7" = Some ALLTRADED
  /\ o_traded <$> Td.orders (run events sample_td) !! "7" = Some 150
  /\ o_volume <$> Td.orders (run events sample_td) !! "7" = Some 100.
Proof.
  split; [by repeat constructor|].
  repeat split; vm_compute; reflexivity.
Qed.

(** C1, amended. Over any sequence of order updates and fills, an order of
    the cache stays in the cache with its requested volume (and symbol,
    exchange, id, type, side, price) as it was.  Its traded volume and
    status are what the last event made them: an order update sets them to
    the values of the event, a fill adds its volume to the traded volume
    and sets the status to [PARTTRADED] below the requested volume and to
    [ALLTRADED] otherwise, in both cases whatever the status was before. *)
Theorem reconciler_last_event_wins (oid : Z) (es : list Event)
    (s : Td.XtpTdApi) (order : OrderData) :
  Forall (fun e => event_order_id e = oid) es ->
  Td.orders s !! pretty oid = Some order ->
  (exists o', Td.orders (run es s) !! pretty oid = Some o'
              /\ o_volume o' = o_volume order /\ same_order order o')
  /\ (forall data error side st,
        oe_order_xtp_id data = oid ->
        Td.decode_side (oe_ticker data) (oe_side data)
          (oe_position_effect data) = Some side ->
        STATUS_XTP2VT (oe_order_status data) = Some st ->
        exists o',
          Td.orders (run [OrderUpdate data error] s) !! pretty oid = Some o'
          /\ o_traded o' = oe_qty_traded data /\ o_status o' = st)
  /\ (forall data side dt exchange,
        te_order_xtp_id data = oid ->
        Td.decode_side (te_ticker data) (te_side data)
          (te_position_effect data) = Some side ->
        strptime (te_trade_time data) = Some dt ->
        MARKET_XTP2VT (te_market data) = Some exchange ->
        Td.orders (run [TradeFill data] s) !! pretty oid
        = Some (filled (te_quantity data) order)).
Proof.
  intros _ Horder. split; [|split].
  - destruct (run_keeps_order es s _ order Horder) as (o' & Ho' & Hsame).
    exists o'. split; [done|]. split; [|done]. apply Hsame.
  - intros data error side st <- Hside Hst.
    destruct (onOrderEvent_match data error s side st order Hside Hst Horder)
      as (o' & Ho' & Htraded & Hstatus & _).
    exists o'. done.
  - intros data side dt exchange <- Hside Hdt Hex.
    apply (onTradeEvent_stores_filled data s side dt exchange order
             Hside Hdt Hex Horder).
Qed.

Lemma reconciler_last_event_wins_witness :
  exists o',
    Td.orders (run [TradeFill sample_fill; OrderUpdate sample_update no_error]
                 sample_td_order) !! "7" = Some o'
    /\ o_volume o' = 100.
Proof.
  destruct (reconciler_last_event_wins 7
              [TradeFill sample_fill; OrderUpdate sample_update no_error]
              sample_td_order
              (mk_OrderData "600000" SSE "7" LIMIT LONG NONE 105000 100 0
                 CANCELLED (Some sample_time) "XTP"))
    as [(o' & Ho' & Hvolume & _) _].
  - repeat constructor.
  - vm_compute. reflexivity.
  - exists o'. split; [exact Ho' | exact Hvolume].
Defined.

(** The scenario of the spec for fills: order of volume 1000, an update
    reporting 300 traded, then the fill of 300.  The update sets 300 and
    the fill adds 300. *)
Example update_then_fill_adds_up :
  let update :=
    mk_OrderEventData "600000" 1 0 1 7 2 105000 1000 300 2
      20231204093000123 in
  let fill :=
    mk_TradeEventData "600000" 1 0 20231204093001000 2 7 "E1" 105000 300 in
  o_traded <$> Td.orders (run [OrderUpdate update no_error; TradeFill fill]
                            sample_td) !! "7" = Some 600.
Proof. vm_compute. reflexivity. Qed.

(** ** The credit-debt query *)

Lemma positions_get_None (k : string) (acc : list (string * PositionData)) :
  Td.positions_get k acc = None <-> k ∉ acc.*1.
Proof.
  induction acc as [|[k' p] acc IH]; simpl.
  - split; [intros _; apply not_elem_of_nil|done].
  - destruct (String.eqb_spec k' k) as [->|Hne].
    + split; [done|]. intros Hn. exfalso. apply Hn. by left.
    + rewrite IH, not_elem_of_cons. simpl.
      split; [by intros ?; split; [congruence|]|by intros [_ ?]].
Qed.

Lemma positions_alter_keys (f : PositionData -> PositionData) (k : string)
    (acc : list (string * PositionData)) :
  (Td.positions_alter f k acc).*1 = acc.*1.
Proof.
  induction acc as [|[k' p] acc IH]; simpl; [done|].
  destruct (String.eqb k' k); simpl; [done|]. f_equal. apply IH.
Qed.

Lemma positions_alter_elem (f : PositionData -> PositionData) (k : string)
    (acc : list (string * PositionData)) (k' : string) (p' : PositionData) :
  NoDup acc.*1 ->
  (k', p') ∈ Td.positions_alter f k acc ->
  (k' = k /\ exists p, (k, p) ∈ acc /\ p' = f p)
  \/ (k' ≠ k /\ (k', p') ∈ acc).
Proof.
  induction acc as [|[k0 p0] acc IH]; simpl; intros Hnd Hin.
  - by apply elem_of_nil in Hin.
  - apply NoDup_cons in Hnd as [Hk0 Hnd].
    destruct (String.eqb_spec k0 k) as [->|Hne].
    + apply elem_of_cons in Hin as [Heq|Hin].
      * injection Heq as -> ->. left. split; [done|].
        exists p0. split; [by left|done].
      * right. split.
        -- intros ->. apply Hk0.
           by apply (list_elem_of_fmap_2 fst) in Hin.
        -- by right.
    + apply elem_of_cons in Hin as [Heq|Hin].
      * injection Heq as -> ->. right. split; [done|by left].
      * destruct (IH Hnd Hin) as [(-> & p & Hp & ->)|[Hk' Hin']].
        -- left. split; [done|]. exists p. split; [by right|done].
        -- right. split; [done|by right].
Qed.

Lemma debt_total_snoc (k : string) (rows : list DebtData) (row : DebtData) :
  debt_total k (rows ++ [row])
  = debt_total k rows
    + (if (dd_debt_type row =? 1) && String.eqb (dd_ticker row) k
       then dd_remain_qty row else 0).
Proof. induction rows as [|r rows IH]; simpl; [lia|]. rewrite IH. lia. Qed.

Lemma accumulated_nil : accumulated [] [].
Proof.
  split; [constructor|]. split.
  - intros k p Hin. by apply elem_of_nil in Hin.
  - intros row Hin. by apply elem_of_nil in Hin.
Qed.

(** A row of another debt type leaves the accumulator as it is. *)
Lemma accumulated_skip (rows : list DebtData) (row : DebtData)
    (acc : list (string * PositionData)) :
  dd_debt_type row ≠ 1 ->
  accumulated rows acc -> accumulated (rows ++ [row]) acc.
Proof.
  intros Hty (Hnd & Hvol & Hall).
  apply Z.eqb_neq in Hty.
  split; [done|]. split.
  - intros k p Hin. destruct (Hvol k p Hin) as (? & ? & ?).
    rewrite debt_total_snoc, Hty. simpl. repeat split; [done..|lia].
  - intros r [Hr|Hr]%elem_of_app Hr1; [by apply Hall|].
    apply list_elem_of_singleton in Hr. subst r.
    apply Z.eqb_neq in Hty. done.
Qed.

(** A row of securities debt adds its quantity to the entry of its
    symbol, which is created at 0 when missing. *)
Lemma accumulated_add (gateway_name : string) (rows : list DebtData)
    (row : DebtData) (exchange : Exchange)
    (acc : list (string * PositionData)) :
  dd_debt_type row = 1 ->
  accumulated rows acc ->
  accumulated (rows ++ [row]) (accumulate gateway_name row exchange acc).
Proof.
  intros Hty (Hnd & Hvol & Hall).
  set (k0 := dd_ticker row).
  set (acc1 :=
    match Td.positions_get k0 acc with
    | None => acc ++ [(k0, mk_PositionData k0 exchange SHORT 0 gateway_name)]
    | Some _ => acc
    end).
  assert (Hnd1 : NoDup acc1.*1).
  { unfold acc1. destruct (Td.positions_get k0 acc) eqn:Hget; [done|].
    apply positions_get_None in Hget.
    rewrite fmap_app. simpl. apply NoDup_app. split; [done|].
    split; [|apply NoDup_singleton].
    intros x Hx Hx'. apply list_elem_of_singleton in Hx'. by subst x. }
  assert (Hk0 : k0 ∈ acc1.*1).
  { unfold acc1. destruct (Td.positions_get k0 acc) eqn:Hget.
    - destruct (decide (k0 ∈ acc.*1)) as [|Hn]; [done|].
      apply positions_get_None in Hn. congruence.
    - rewrite fmap_app. apply elem_of_app. right. simpl. by left. }
  assert (Hvol1 : forall k p, (k, p) ∈ acc1 ->
            p_symbol p = k /\ p_direction p = SHORT
            /\ p_volume p = debt_total k rows).
  { intros k p. unfold acc1.
    destruct (Td.positions_get k0 acc) eqn:Hget; [by apply Hvol|].
    intros [Hin|Hin]%elem_of_app; [by apply Hvol|].
    apply list_elem_of_singleton in Hin. injection Hin as -> ->. simpl.
    repeat split.
    apply positions_get_None in Hget.
    assert (Hzero : forall rs,
      (forall r, r ∈ rs -> dd_debt_type r = 1 -> dd_ticker r ≠ k0) ->
      debt_total k0 rs = 0).
    { induction rs as [|r rs IH]; simpl; intros Hrs; [done|].
      rewrite IH by (intros r' Hr'; apply Hrs; by right).
      destruct (dd_debt_type r =? 1) eqn:Hr1; simpl; [|done].
      apply Z.eqb_eq in Hr1.
      destruct (String.eqb_spec (dd_ticker r) k0) as [Heq|]; [|done].
      exfalso. by apply (Hrs r); [left|..]. }
    symmetry. apply Hzero. intros r Hr Hr1 Heq.
    apply Hget. rewrite <- Heq. by apply Hall. }
  unfold accumulate. fold k0. fold acc1.
  split; [by rewrite positions_alter_keys|]. split.
  - intros k p Hin.
    apply positions_alter_elem in Hin; [|done].
    rewrite debt_total_snoc. apply Z.eqb_eq in Hty. rewrite Hty. simpl.
    fold k0.
    destruct Hin as [(-> & p1 & Hp1 & ->)|[Hne Hin]].
    + destruct (Hvol1 _ _ Hp1) as (Hs & Hd & Hv).
      rewrite String.eqb_refl. simpl. rewrite Hv. done.
    + destruct (Hvol1 _ _ Hin) as (Hs & Hd & Hv).
      destruct (String.eqb_spec k0 k) as [Heq|_]; [by subst k|].
      repeat split; [done..|lia].
  - intros r [Hr|Hr]%elem_of_app Hr1; rewrite positions_alter_keys.
    + unfold acc1. destruct (Td.positions_get k0 acc); [by apply Hall|].
      rewrite fmap_app. apply elem_of_app. left. by apply Hall.
    + apply list_elem_of_singleton in Hr. by subst r.
Qed.

Lemma set_short_positions_same (s : Td.XtpTdApi) :
  Td.set_short_positions (Td.short_positions s) s = s.
Proof. by destruct s. Qed.

Lemma for_each_publish (acc : list (string * PositionData))
    (s : Td.XtpTdApi) :
  for_each acc (fun kp => emit (OnPosition kp.2)) s
  = (Ok tt, s, map (fun kp => OnPosition kp.2) acc).
Proof.
  rewrite (for_each_emit acc (fun kp => [OnPosition kp.2])); [|done].
  f_equal. induction acc as [|kp acc IH]; simpl; [done|]. by rewrite IH.
Qed.

Lemma published_positions_publish (acc : list (string * PositionData)) :
  published_positions (map (fun kp => OnPosition kp.2) acc) = acc.*2.
Proof. induction acc as [|kp acc IH]; simpl; [done|]. by rewrite IH. Qed.

(** One page: a row of securities debt whose market decodes goes through
    [accumulate], a row of another type changes nothing; the last page
    then publishes the values of the accumulator and empties it. *)
Lemma onQueryCreditDebtInfo_run (data : DebtData) (last : bool)
    (s : Td.XtpTdApi) (acc' : list (string * PositionData)) :
  (dd_debt_type data = 1
   /\ exists exchange,
        MARKET_XTP2VT (dd_market data) = Some exchange
        /\ acc' = accumulate (Td.gateway_name s) data exchange
                    (Td.short_positions s))
  \/ (dd_debt_type data ≠ 1 /\ acc' = Td.short_positions s) ->
  Td.onQueryCreditDebtInfo data last s
  = (Ok tt,
     Td.set_short_positions (if last then [] else acc') s,
     if last then map (fun kp => OnPosition kp.2) acc' else []).
Proof.
  intros [(Hty & exchange & Hex & ->)|(Hty & ->)].
  - unfold Td.onQueryCreditDebtInfo.
    apply Z.eqb_eq in Hty. rewrite Hty.
    unfold bind at 1. unfold bind at 1. unfold lift. rewrite Hex.
    unfold ret at 1. unfold bind at 1. unfold get at 1.
    unfold bind at 1. unfold accumulate.
    destruct (Td.positions_get (dd_ticker data) (Td.short_positions s));
      unfold ret, modify; simpl.
    + destruct last; [|done].
      unfold bind, get. simpl. rewrite for_each_publish. simpl.
      by rewrite app_nil_r.
    + destruct last; [|done].
      unfold bind, get. simpl. rewrite for_each_publish. simpl.
      by rewrite app_nil_r.
  - unfold Td.onQueryCreditDebtInfo.
    apply Z.eqb_neq in Hty. rewrite Hty.
    unfold bind at 1. unfold ret at 1.
    destruct last.
    + unfold bind, get, modify. rewrite for_each_publish. simpl.
      by rewrite app_nil_r.
    + unfold ret. by rewrite set_short_positions_same.
Qed.

Lemma run_pages_app (l1 l2 : list (DebtData * bool)) (s : Td.XtpTdApi) :
  run_pages (l1 ++ l2) s
  = ((run_pages l2 (run_pages l1 s).1).1,
     (run_pages l1 s).2 ++ (run_pages l2 (run_pages l1 s).1).2).
Proof.
  revert s. induction l1 as [|[data last] l1 IH]; intros s; simpl.
  - by destruct (run_pages l2 s).
  - rewrite IH. simpl. by rewrite app_assoc.
Qed.

(** The row [data] read against the accumulator [acc]. *)
Lemma row_accumulated (gateway_name : string) (rows : list DebtData)
    (data : DebtData) (acc : list (string * PositionData)) :
  (dd_debt_type data = 1 -> is_Some (MARKET_XTP2VT (dd_market data))) ->
  accumulated rows acc ->
  exists acc',
    accumulated (rows ++ [data]) acc'
    /\ ((dd_debt_type data = 1
         /\ exists exchange,
              MARKET_XTP2VT (dd_market data) = Some exchange
              /\ acc' = accumulate gateway_name data exchange acc)
        \/ (dd_debt_type data ≠ 1 /\ acc' = acc)).
Proof.
  intros Hdec Hacc.
  destruct (decide (dd_debt_type data = 1)) as [Hty|Hty].
  - destruct (Hdec Hty) as [exchange Hex].
    exists (accumulate gateway_name data exchange acc).
    split; [by apply accumulated_add|]. left. eauto.
  - exists acc. split; [by apply accumulated_skip|]. by right.
Qed.

(** The pages before the last publish nothing and leave the totals of
    their rows in the accumulator. *)
Lemma run_pages_accumulates (rows0 rows : list DebtData)
    (s : Td.XtpTdApi) :
  (forall row, row ∈ rows -> dd_debt_type row = 1 ->
     is_Some (MARKET_XTP2VT (dd_market row))) ->
  accumulated rows0 (Td.short_positions s) ->
  exists acc,
    run_pages (map (fun row => (row, false)) rows) s
    = (Td.set_short_positions acc s, [])
    /\ accumulated (rows0 ++ rows) acc.
Proof.
  revert rows0 s. induction rows as [|row rows IH]; intros rows0 s Hdec Hacc.
  - exists (Td.short_positions s). simpl.
    rewrite set_short_positions_same, app_nil_r. done.
  - destruct (row_accumulated (Td.gateway_name s) rows0 row
                (Td.short_positions s)) as (acc1 & Hacc1 & Hcase);
      [intros Hty; apply Hdec; [by left|done] | done |].
    simpl. rewrite (onQueryCreditDebtInfo_run row false s acc1 Hcase).
    unfold state_of, trace_of. simpl.
    destruct (IH (rows0 ++ [row]) (Td.set_short_positions acc1 s))
      as (acc & Hrun & Hacc2).
    + intros r Hr. apply Hdec. by right.
    + done.
    + exists acc. rewrite Hrun. simpl.
      split; [by destruct s|]. by rewrite <- app_assoc in Hacc2.
Qed.

(** C9, as stated, fails: the remaining quantities of a symbol are not
    summed over all pages.  A page of another debt type (here financing,
    type 0) is not accumulated: with 200 on such a page and 50 on the final
    page of securities debt, the published volume is 50, while the
    remainders of the symbol over the pages sum to 250. *)
Lemma financing_row_not_accumulated :
  let rows := [mk_DebtData 0 "000001" 1 200] in
  let final := mk_DebtData 1 "000001" 1 50 in
  Td.short_positions sample_td = []
  /\ published_positions (run_pages (paginate rows final) sample_td).2
     = [mk_PositionData "000001" SZSE SHORT 50 "XTP"]
  /\ remain_total "000001" (rows ++ [final]) = 250.
Proof. repeat split; vm_compute; reflexivity. Qed.

(** C9, amended. Over the pages of a credit-debt query that starts on an
    empty accumulator, the rows of securities debt (debt type 1) are summed
    per symbol and rows of another debt type are ignored; nothing is
    published from a page before the last; the last page publishes one
    short position per accumulated symbol, whose volume is the sum of the
    remaining quantities of that symbol's rows of securities debt, and
    leaves the accumulator empty. *)
Theorem debt_pages_totals (rows : list DebtData) (final : DebtData)
    (s : Td.XtpTdApi) :
  Td.short_positions s = [] ->
  (forall row, row ∈ rows ++ [final] -> dd_debt_type row = 1 ->
     is_Some (MARKET_XTP2VT (dd_market row))) ->
  let before := run_pages (map (fun row => (row, false)) rows) s in
  let after := run_pages (paginate rows final) s in
  let published := published_positions after.2 in
  published_positions before.2 = []
  /\ Td.short_positions after.1 = []
  /\ NoDup (p_symbol <$> published)
  /\ (forall p, p ∈ published ->
        p_direction p = SHORT
        /\ p_volume p = debt_total (p_symbol p) (rows ++ [final]))
  /\ (forall row, row ∈ rows ++ [final] -> dd_debt_type row = 1 ->
        exists p, p ∈ published /\ p_symbol p = dd_ticker row).
Proof.
  intros Hempty Hdec before after published.
  destruct (run_pages_accumulates [] rows s) as (acc & Hrun & Hacc).
  { intros row Hrow. apply Hdec. apply elem_of_app. by left. }
  { rewrite Hempty. apply accumulated_nil. }
  simpl in Hacc.
  set (s1 := Td.set_short_positions acc s) in *.
  destruct (row_accumulated (Td.gateway_name s1) rows final acc)
    as (acc' & Hacc' & Hcase).
  { apply Hdec. apply elem_of_app. right. by left. }
  { done. }
  assert (Hafter : after = (Td.set_short_positions [] s1,
                            map (fun kp => OnPosition kp.2) acc')).
  { unfold after, paginate. rewrite run_pages_app, Hrun. simpl.
    rewrite (onQueryCreditDebtInfo_run final true s1 acc' Hcase).
    unfold state_of, trace_of. simpl. by rewrite app_nil_r. }
  assert (Hpub : published = acc'.*2).
  { unfold published. rewrite Hafter. simpl.
    apply published_positions_publish. }
  destruct Hacc' as (Hnd & Hvol & Hall).
  assert (Hsym : p_symbol <$> acc'.*2 = acc'.*1).
  { clear -Hvol. induction acc' as [|[k p] acc' IH]; simpl; [done|].
    destruct (Hvol k p) as (-> & _ & _); [by left|].
    f_equal. apply IH. intros k' p' Hin. apply Hvol. by right. }
  split; [by unfold before; rewrite Hrun|].
  split; [by rewrite Hafter|].
  rewrite Hpub. split; [by rewrite Hsym|]. split.
  - intros p Hp. apply list_elem_of_fmap in Hp as ([k p'] & -> & Hin).
    simpl. destruct (Hvol k p' Hin) as (-> & Hd & Hv). done.
  - intros row Hrow Hty.
    pose proof (Hall row Hrow Hty) as Hk.
    apply list_elem_of_fmap in Hk as ([k p] & Hkeq & Hin). simpl in Hkeq.
    exists p. split.
    + by apply (list_elem_of_fmap_2 snd) in Hin.
    + destruct (Hvol k p Hin) as (-> & _ & _). done.
Qed.

Lemma debt_pages_totals_witness :
  published_positions
    (run_pages (map (fun row => (row, false)) [mk_DebtData 1 "000001" 1 200])
       sample_td).2 = []
  /\ Td.short_positions
       (run_pages (paginate [mk_DebtData 1 "000001" 1 200]
                     (mk_DebtData 1 "000001" 1 50)) sample_td).1 = [].
Proof.
  destruct (debt_pages_totals [mk_DebtData 1 "000001" 1 200]
              (mk_DebtData 1 "000001" 1 50) sample_td)
    as (Hbefore & Hafter & _).
  - reflexivity.
  - intros row Hrow _. simpl in Hrow.
    apply elem_of_cons in Hrow as [->|Hrow]; [by eexists|].
    apply list_elem_of_singleton in Hrow. subst row. by eexists.
  - split; [exact Hbefore | exact Hafter].
Defined.

(** The scenario of the spec: 200 on the first page and 50 on the final
    page, both of securities debt, publish one short position of 250. *)
Example debt_pages_scenario :
  published_positions
    (run_pages (paginate [mk_DebtData 1 "000001" 1 200]
                  (mk_DebtData 1 "000001" 1 50)) sample_td).2
  = [mk_PositionData "000001" SZSE SHORT 250 "XTP"].
Proof. vm_compute. reflexivity. Qed.

(** * Further properties of the market-data session *)

Lemma re_subscribe_keeps (s : Md.XtpMdApi) :
  state_of (Md.re_subscribe s) = s.
Proof.
  destruct (Md.login_status s) eqn:Hlogin.
  - by rewrite re_subscribe_run.
  - unfold Md.re_subscribe, try_except, bind, get.
    destruct (size (Md.subscribe_request_list s) =? 0)%nat; [done|].
    by rewrite Hlogin.
Qed.

Lemma login_server_state (env : Md.Env) (s : Md.XtpMdApi) :
  state_of (Md.login_server env s)
  = if Md.login_ret env =? 0
    then Md.set_login_status true (Md.set_connect_status true s)
    else s.
Proof.
  destruct (Md.login_ret env =? 0) eqn:Hn.
  - apply Z.eqb_eq in Hn.
    destruct (login_server_success env s Hn) as [Hrun _].
    rewrite Hrun. unfold state_of at 1. cbn [fst snd].
    apply re_subscribe_keeps.
  - apply Z.eqb_neq in Hn. by rewrite login_server_failure.
Qed.

(** The session after [onDisconnected]: marked disconnected when the
    switch stops the reconnection, and otherwise what [login_server] makes
    of the disconnected session with one more reconnection counted. *)
Lemma onDisconnected_state (env : Md.Env) (reason : Z) (s : Md.XtpMdApi) :
  state_of (Md.onDisconnected env reason s) = disconnected s
  \/ state_of (Md.onDisconnected env reason s)
     = state_of (Md.login_server env
                   (Md.set_re_connect_times (Md.re_connect_times s + 1)
                      (disconnected s))).
Proof.
  unfold Md.onDisconnected, bind, modify, get, emit, ret;
    cbn -[String.eqb lower Md.login_server size Nat.ltb].
  fold (disconnected s).
  destruct (0 <? size (Md.subscribe_request_list s))%nat.
  - destruct (Md.sys_config env) as [v|].
    + destruct (negb (String.eqb (lower "Y") (lower v))); simpl.
      * by left.
      * right. by destruct (Md.login_server env _) as [[r s2] t2].
    + right. simpl. by destruct (Md.login_server env _) as [[r s2] t2].
  - right. simpl. by destruct (Md.login_server env _) as [[r s2] t2].
Qed.

(** The session after [connect]. *)
Lemma connect_state (env : Md.Env) (userid password : string)
    (client_id : Z) (server_ip : string) (server_port : Z)
    (quote_protocol : string) (log_level : Z) (local_ip : string)
    (s : Md.XtpMdApi) :
  let r := Md.connect env userid password client_id server_ip server_port
             quote_protocol log_level local_ip s in
  match PROTOCOL_VT2XTP quote_protocol with
  | None =>
      r = (Raise KeyError,
           Md.set_server_port server_port
             (Md.set_server_ip server_ip
                (Md.set_client_id client_id
                   (Md.set_password password (Md.set_userid userid s)))),
           [])
  | Some p =>
      let s1 := md_with_parameters userid password client_id server_ip
                  server_port p local_ip s in
      state_of r
      = if Md.connect_status s then s1 else state_of (Md.login_server env s1)
  end.
Proof.
  intros r. subst r.
  unfold Md.connect, bind, modify, get, emit, ret, lift.
  destruct (PROTOCOL_VT2XTP quote_protocol) as [p|]; [|done].
  cbn -[Md.login_server String.eqb].
  destruct (Md.connect_status s); simpl; [done|].
  match goal with
  | |- context [Md.login_server env ?x] =>
      change x with (md_with_parameters userid password client_id server_ip
                       server_port p local_ip s)
  end.
  destruct (String.eqb quote_protocol "UDP"); simpl;
    by destruct (Md.login_server env _) as [[r s2] t2].
Qed.

(** What a tick does to the session: nothing, or one new last-seen time. *)
Lemma onDepthMarketData_state (data : DepthData) (s : Md.XtpMdApi) :
  state_of (Md.onDepthMarketData data s) = s
  \/ exists dt exchange,
       strptime (md_data_time data) = Some dt
       /\ EXCHANGE_XTP2VT (md_exchange_id data) = Some exchange
       /\ Md.is_early_tick
            (Md.last_tick_time s !! vt_symbol_of data exchange) dt = false
       /\ state_of (Md.onDepthMarketData data s)
          = Md.set_last_tick_time
              (<[vt_symbol_of data exchange := dt]> (Md.last_tick_time s)) s.
Proof.
  unfold Md.onDepthMarketData, bind, lift, get.
  destruct (strptime (md_data_time data)) as [dt|]; [|by left].
  destruct (EXCHANGE_XTP2VT (md_exchange_id data)) as [exchange|];
    [|by left].
  cbn -[Md.is_early_tick Md.is_sub_symbol String.append].
  fold (vt_symbol_of data exchange).
  destruct (Md.is_early_tick _ dt) eqn:Hearly; [by left|].
  destruct (negb (Md.subscribe_all s) && _); [by left|].
  right. exists dt, exchange. done.
Qed.

(** What each call leaves of the registry and of the all-market switch. *)
Lemma md_call_registry (c : MdCall) (s : Md.XtpMdApi) :
  Md.subscribe_request_list (state_of (md_call c s))
  = match c with
    | CallSubscribe req =>
        if Md.login_status s
        then {[(Md.req_symbol req, Md.req_exchange req)]}
             ∪ Md.subscribe_request_list s
        else Md.subscribe_request_list s
    | _ => Md.subscribe_request_list s
    end.
Proof.
  destruct c as [env u pw cid ip port proto lvl lip|env reason|req| |data];
    unfold md_call.
  - pose proof (connect_state env u pw cid ip port proto lvl lip s) as H.
    cbv zeta in H. destruct (PROTOCOL_VT2XTP proto) as [p|].
    + rewrite H. destruct (Md.connect_status s); [done|].
      rewrite login_server_state. by destruct (_ =? 0).
    + by rewrite H.
  - destruct (onDisconnected_state env reason s) as [-> | ->]; [done|].
    rewrite login_server_state. by destruct (_ =? 0).
  - unfold Md.subscribe, bind, get. by destruct (Md.login_status s).
  - unfold Md.subscribe_all_tickets, bind, get.
    by destruct (Md.login_status s).
  - destruct (onDepthMarketData_state data s)
      as [-> | (dt & ex & _ & _ & _ & ->)]; done.
Qed.

Lemma md_call_subscribe_all (c : MdCall) (s : Md.XtpMdApi) :
  Md.subscribe_all (state_of (md_call c s))
  = match c with
    | CallSubscribeAll => Md.login_status s || Md.subscribe_all s
    | _ => Md.subscribe_all s
    end.
Proof.
  destruct c as [env u pw cid ip port proto lvl lip|env reason|req| |data];
    unfold md_call.
  - pose proof (connect_state env u pw cid ip port proto lvl lip s) as H.
    cbv zeta in H. destruct (PROTOCOL_VT2XTP proto) as [p|].
    + rewrite H. destruct (Md.connect_status s); [done|].
      rewrite login_server_state. by destruct (_ =? 0).
    + by rewrite H.
  - destruct (onDisconnected_state env reason s) as [-> | ->]; [done|].
    rewrite login_server_state. by destruct (_ =? 0).
  - unfold Md.subscribe, bind, get. by destruct (Md.login_status s).
  - unfold Md.subscribe_all_tickets, bind, get.
    by destruct (Md.login_status s).
  - destruct (onDepthMarketData_state data s)
      as [-> | (dt & ex & _ & _ & _ & ->)]; done.
Qed.

Lemma md_call_statuses (c : MdCall) (s : Md.XtpMdApi) :
  Md.connect_status s = Md.login_status s ->
  Md.connect_status (state_of (md_call c s))
  = Md.login_status (state_of (md_call c s)).
Proof.
  intros Heq.
  destruct c as [env u pw cid ip port proto lvl lip|env reason|req| |data];
    unfold md_call.
  - pose proof (connect_state env u pw cid ip port proto lvl lip s) as H.
    cbv zeta in H. destruct (PROTOCOL_VT2XTP proto) as [p|].
    + rewrite H. destruct (Md.connect_status s) eqn:Hc;
        [simpl; congruence|].
      rewrite login_server_state. destruct (_ =? 0); [done|].
      simpl. congruence.
    + by rewrite H.
  - destruct (onDisconnected_state env reason s) as [-> | ->];
      [reflexivity|].
    rewrite login_server_state. destruct (_ =? 0); reflexivity.
  - unfold Md.subscribe, bind, get.
    destruct (Md.login_status s) eqn:Hl; unfold state_of; simpl;
      congruence.
  - unfold Md.subscribe_all_tickets, bind, get.
    destruct (Md.login_status s) eqn:Hl; unfold state_of; simpl;
      congruence.
  - destruct (onDepthMarketData_state data s)
      as [-> | (dt & ex & _ & _ & _ & ->)]; done.
Qed.

(** No call takes an entry out of the registry. *)
Lemma registry_keeps (cs : list MdCall) (s : Md.XtpMdApi) :
  Md.subscribe_request_list s ⊆ Md.subscribe_request_list (md_run cs s).
Proof.
  revert s. induction cs as [|c cs IH]; intros s; simpl; [done|].
  etrans; [|apply IH]. rewrite md_call_registry.
  destruct c; try done.
  destruct (Md.login_status s); [apply union_subseteq_r|done].
Qed.

(** X1. Over any sequence of calls on the market-data session the
    registry never loses an entry, and over a sequence without [subscribe]
    (connects, disconnects with their reconnection, subscribe-all, ticks)
    it is exactly what it was. *)
Theorem registry_survives_calls (cs : list MdCall) (s : Md.XtpMdApi) :
  Md.subscribe_request_list s ⊆ Md.subscribe_request_list (md_run cs s)
  /\ (forallb (fun c => negb (is_subscribe_call c)) cs = true ->
      Md.subscribe_request_list (md_run cs s)
      = Md.subscribe_request_list s).
Proof.
  split; [apply registry_keeps|].
  revert s. induction cs as [|c cs IH]; intros s; simpl; [done|].
  intros [Hhead Htail]%andb_prop.
  rewrite (IH _ Htail), md_call_registry. by destruct c.
Qed.

Lemma registry_survives_calls_witness :
  Md.subscribe_request_list
    (md_run [CallDisconnected sample_env 0;
             CallDepthMarketData sample_tick_szse;
             CallDisconnected sample_env_off 1] sample_md)
  = Md.subscribe_request_list sample_md.
Proof.
  destruct (registry_survives_calls
              [CallDisconnected sample_env 0;
               CallDepthMarketData sample_tick_szse;
               CallDisconnected sample_env_off 1] sample_md) as [_ H].
  apply H. reflexivity.
Defined.

(** X2. The connection flag and the login flag of the market-data
    session agree after every call once they agree, as they do on a new
    session: they are set together by a successful login and cleared
    together by a disconnect. *)
Theorem md_status_flags_agree (cs : list MdCall) (s : Md.XtpMdApi) :
  Md.connect_status s = Md.login_status s ->
  Md.connect_status (md_run cs s) = Md.login_status (md_run cs s).
Proof.
  revert s. induction cs as [|c cs IH]; intros s Heq; simpl; [done|].
  apply IH. by apply md_call_statuses.
Qed.

Lemma md_status_flags_agree_witness :
  Md.connect_status
    (md_run [CallDisconnected sample_env 0; CallSubscribeAll] (Md.new "XTP"))
  = Md.login_status
      (md_run [CallDisconnected sample_env 0; CallSubscribeAll]
         (Md.new "XTP")).
Proof.
  apply (md_status_flags_agree
           [CallDisconnected sample_env 0; CallSubscribeAll] (Md.new "XTP")).
  reflexivity.
Defined.

(** X3. All-market mode is a one-way switch: once set, no call clears
    it; [subscribe_all_tickets] sets it only on a logged-in session. *)
Theorem all_market_mode_is_one_way (cs : list MdCall) (s : Md.XtpMdApi) :
  (Md.subscribe_all s = true -> Md.subscribe_all (md_run cs s) = true)
  /\ (Md.login_status s = false ->
      Md.subscribe_all_tickets s = (Ok tt, s, []))
  /\ (Md.login_status s = true ->
      Md.subscribe_all (state_of (Md.subscribe_all_tickets s)) = true
      /\ vendor_calls (trace_of (Md.subscribe_all_tickets s))
         = [subscribeAllMarketData XTP_EXCHANGE_UNKNOWN]).
Proof.
  split; [|split].
  - revert s. induction cs as [|c cs IH]; intros s Hall; simpl; [done|].
    apply IH. rewrite md_call_subscribe_all, Hall.
    destruct c; try done. apply orb_true_r.
  - intros Hout. unfold Md.subscribe_all_tickets, bind, get.
    by rewrite Hout.
  - intros Hin. unfold Md.subscribe_all_tickets, bind, get.
    by rewrite Hin.
Qed.

Lemma all_market_mode_is_one_way_witness :
  Md.subscribe_all
    (md_run [CallDisconnected sample_env_off 0; CallSubscribeAll]
       (Md.set_subscribe_all true sample_md)) = true.
Proof.
  destruct (all_market_mode_is_one_way
              [CallDisconnected sample_env_off 0; CallSubscribeAll]
              (Md.set_subscribe_all true sample_md)) as [H _].
  apply H. reflexivity.
Defined.

Lemma md_call_last_tick_time (c : MdCall) (s : Md.XtpMdApi) :
  Md.last_tick_time (state_of (md_call c s)) = Md.last_tick_time s
  \/ exists data dt exchange,
       c = CallDepthMarketData data
       /\ Md.is_early_tick
            (Md.last_tick_time s !! vt_symbol_of data exchange) dt = false
       /\ Md.last_tick_time (state_of (md_call c s))
          = <[vt_symbol_of data exchange := dt]> (Md.last_tick_time s).
Proof.
  destruct c as [env u pw cid ip port proto lvl lip|env reason|req| |data];
    unfold md_call.
  - left.
    pose proof (connect_state env u pw cid ip port proto lvl lip s) as H.
    cbv zeta in H. destruct (PROTOCOL_VT2XTP proto) as [p|].
    + rewrite H. destruct (Md.connect_status s); [done|].
      rewrite login_server_state. by destruct (_ =? 0).
    + by rewrite H.
  - left. destruct (onDisconnected_state env reason s) as [-> | ->]; [done|].
    rewrite login_server_state. by destruct (_ =? 0).
  - left. unfold Md.subscribe, bind, get. by destruct (Md.login_status s).
  - left. unfold Md.subscribe_all_tickets, bind, get.
    by destruct (Md.login_status s).
  - destruct (onDepthMarketData_state data s)
      as [-> | (dt & ex & _ & _ & Hearly & ->)]; [by left|].
    right. exists data, dt, ex. done.
Qed.

(** X4. The last-seen time of a contract key never goes back: whatever
    calls follow, a key that has a recorded time keeps one, and a time not
    earlier than the one it had. *)
Theorem last_seen_time_never_regresses (cs : list MdCall)
    (s : Md.XtpMdApi) (vt_symbol : string) (t : datetime) :
  Md.query_local_latest_tick_time vt_symbol s = Some t ->
  exists t',
    Md.query_local_latest_tick_time vt_symbol (md_run cs s) = Some t'
    /\ instant t <= instant t'.
Proof.
  unfold Md.query_local_latest_tick_time.
  revert s t. induction cs as [|c cs IH]; intros s t Ht; simpl.
  - exists t. split; [done|lia].
  - destruct (md_call_last_tick_time c s)
      as [Hsame | (data & dt & ex & _ & Hearly & Hnew)].
    + apply IH. by rewrite Hsame.
    + destruct (decide (vt_symbol_of data ex = vt_symbol)) as [Hkey|Hkey].
      * destruct (IH (state_of (md_call c s)) dt) as (t' & Ht' & Hle).
        { rewrite Hnew, Hkey. apply lookup_insert_eq. }
        exists t'. split; [done|].
        rewrite Hkey, Ht in Hearly. simpl in Hearly.
        unfold datetime_a_le_b in Hearly. apply Z.ltb_ge in Hearly. lia.
      * apply IH. rewrite Hnew. by rewrite lookup_insert_ne.
Qed.

Lemma last_seen_time_never_regresses_witness :
  exists t',
    Md.query_local_latest_tick_time "000001.SZSE"
      (md_run [CallDepthMarketData
                 (mk_DepthData 20231204093003000 "000001" 2);
               CallDepthMarketData sample_tick_szse] sample_md_seen)
    = Some t'
    /\ instant sample_time <= instant t'.
Proof.
  apply (last_seen_time_never_regresses
           [CallDepthMarketData (mk_DepthData 20231204093003000 "000001" 2);
            CallDepthMarketData sample_tick_szse]
           sample_md_seen "000001.SZSE" sample_time).
  vm_compute. reflexivity.
Defined.

Lemma is_sub_symbol_true (symbol : string) (s : Md.XtpMdApi) :
  Md.is_sub_symbol symbol s = true
  <-> exists req, req ∈ Md.subscribe_request_list s /\ req.1 = symbol.
Proof.
  unfold Md.is_sub_symbol. rewrite existsb_exists. split.
  - intros (req & Hin & Heq). exists req. split.
    + by apply elem_of_elements, list_elem_of_In.
    + by apply String.eqb_eq.
  - intros (req & Hin & Heq). exists req. split.
    + by apply list_elem_of_In, elem_of_elements.
    + by apply String.eqb_eq.
Qed.

(** X5. A tick whose time and exchange decode is handed to the host
    exactly when the comparison [DateUtil.datetime_a_le_b] of its time with
    the last-seen time of its key does not hold (or the key has none) and
    all-market mode is on or its symbol is the symbol of a registry entry.
    It is then handed over once, the last-seen time of its key becomes its
    time, and nothing else of the session changes; a tick that is not
    handed over leaves the session as it was. *)
Theorem tick_published_iff_fresh_and_wanted (data : DepthData)
    (s : Md.XtpMdApi) (dt : datetime) (exchange : Exchange) :
  strptime (md_data_time data) = Some dt ->
  EXCHANGE_XTP2VT (md_exchange_id data) = Some exchange ->
  let vt_symbol := vt_symbol_of data exchange in
  let fresh :=
    forall last, Md.last_tick_time s !! vt_symbol = Some last ->
                 datetime_a_le_b dt last = false in
  let wanted :=
    Md.subscribe_all s = true
    \/ exists req, req ∈ Md.subscribe_request_list s
                   /\ req.1 = md_ticker data in
  let r := Md.onDepthMarketData data s in
  (fresh /\ wanted ->
   published_ticks (trace_of r)
   = [mk_TickData (md_ticker data) exchange dt (Md.gateway_name s)]
   /\ state_of r
      = Md.set_last_tick_time (<[vt_symbol := dt]> (Md.last_tick_time s)) s
   /\ Md.query_local_latest_tick_time vt_symbol (state_of r) = Some dt)
  /\ (~ (fresh /\ wanted) ->
      published_ticks (trace_of r) = [] /\ state_of r = s).
Proof.
  intros Hdt Hex vt_symbol fresh wanted r.
  assert (Hfresh : Md.is_early_tick (Md.last_tick_time s !! vt_symbol) dt
                   = false <-> fresh).
  { unfold fresh, Md.is_early_tick.
    destruct (Md.last_tick_time s !! vt_symbol) as [last|].
    - split.
      + by intros Hlt last' [= <-].
      + intros H. by apply H.
    - split; [by intros _ last' ?|done]. }
  assert (Hwanted :
    negb (Md.subscribe_all s) && negb (Md.is_sub_symbol (md_ticker data) s)
    = false <-> wanted).
  { unfold wanted. rewrite <- is_sub_symbol_true.
    destruct (Md.subscribe_all s), (Md.is_sub_symbol (md_ticker data) s);
      simpl; intuition congruence. }
  subst r. unfold Md.onDepthMarketData, bind, lift, get.
  rewrite Hdt, Hex.
  cbn -[Md.is_early_tick Md.is_sub_symbol String.append datetime_a_le_b].
  fold (vt_symbol_of data exchange). fold vt_symbol.
  destruct (Md.is_early_tick _ dt) eqn:Hearly.
  - split; [|done]. intros [Hf _]. apply Hfresh in Hf. congruence.
  - destruct (negb (Md.subscribe_all s) && _) eqn:Hdrop.
    + split; [|done]. intros [_ Hw]. apply Hwanted in Hw. congruence.
    + split.
      * intros _. unfold Md.query_local_latest_tick_time. simpl.
        by rewrite lookup_insert_eq.
      * intros Hnot. exfalso. apply Hnot. split.
        -- by apply Hfresh.
        -- by apply Hwanted.
Qed.

Lemma tick_published_iff_fresh_and_wanted_witness :
  published_ticks (trace_of (Md.onDepthMarketData sample_tick_szse sample_md))
  = [mk_TickData "000001" SZSE sample_time "XTP"].
Proof.
  destruct (tick_published_iff_fresh_and_wanted sample_tick_szse sample_md
              sample_time SZSE) as [Hyes _].
  - vm_compute. reflexivity.
  - reflexivity.
  - apply Hyes. split.
    + intros last Hlast. vm_compute in Hlast. discriminate Hlast.
    + right. exists ("000001", SZSE). split; [|reflexivity].
      unfold sample_md. simpl. by apply elem_of_singleton.
Defined.

(** X6. [connect] on a session that is not connected, with a protocol
    name of the table: the vendor calls are the creation of the quote API,
    the heartbeat interval of 30, the UDP buffer size of 1024 for the
    protocol "UDP" and for no other, and then those of [login_server] on
    the new parameters, the first being the vendor login with them.  The
    session ends connected and logged in exactly when the login returns 0.
    With a protocol name that is not in the table the call raises
    [KeyError] before any vendor call, the user, password, client id and
    server having been overwritten already. *)
Theorem connect_on_disconnected_session (env : Md.Env)
    (userid password : string) (client_id : Z) (server_ip : string)
    (server_port : Z) (quote_protocol : string) (log_level : Z)
    (local_ip : string) (s : Md.XtpMdApi) :
  Md.connect_status s = false ->
  let r := Md.connect env userid password client_id server_ip server_port
             quote_protocol log_level local_ip s in
  (forall p, PROTOCOL_VT2XTP quote_protocol = Some p ->
     let s1 := md_with_parameters userid password client_id server_ip
                 server_port p local_ip s in
     vendor_calls (trace_of r)
     = [createQuoteApi client_id log_level; setHeartBeatInterval 30]
       ++ (if String.eqb quote_protocol "UDP"
           then [setUDPBufferSize 1024] else [])
       ++ vendor_calls (trace_of (Md.login_server env s1))
     /\ head (vendor_calls (trace_of (Md.login_server env s1)))
        = Some (md_login server_ip server_port userid password p local_ip)
     /\ result_of r = Ok tt
     /\ Md.connect_status (state_of r) = (Md.login_ret env =? 0)
     /\ Md.login_status (state_of r)
        = (Md.login_ret env =? 0) || Md.login_status s)
  /\ (PROTOCOL_VT2XTP quote_protocol = None ->
      result_of r = Raise KeyError
      /\ trace_of r = []
      /\ Md.userid (state_of r) = userid
      /\ Md.server_port (state_of r) = server_port
      /\ Md.protocol (state_of r) = Md.protocol s
      /\ Md.local_ip (state_of r) = Md.local_ip s).
Proof.
  intros Hc r. split.
  - intros p Hp s1.
    pose proof (connect_state env userid password client_id server_ip
                  server_port quote_protocol log_level local_ip s) as Hst.
    cbv zeta in Hst. rewrite Hp, Hc in Hst. fold r s1 in Hst.
    destruct (login_server_first_call env s1) as (Hhead & _ & Hres).
    assert (Hrun :
      r = (result_of (Md.login_server env s1),
           state_of (Md.login_server env s1),
           [Vendor (createQuoteApi client_id log_level);
            Vendor (setHeartBeatInterval 30)]
           ++ (if String.eqb quote_protocol "UDP"
               then [Vendor (setUDPBufferSize 1024)] else [])
           ++ trace_of (Md.login_server env s1))).
    { subst r.
      unfold Md.connect, bind, modify, get, emit, ret, lift.
      rewrite Hp. cbn -[Md.login_server String.eqb]. rewrite Hc.
      cbn -[Md.login_server String.eqb].
      set (s1' := Md.set_local_ip local_ip _). change s1' with s1.
      destruct (String.eqb quote_protocol "UDP");
        cbn -[Md.login_server];
        by destruct (Md.login_server env s1) as [[r0 s2] t2]. }
    split; [|split; [|split; [|split]]].
    + rewrite Hrun. unfold trace_of at 1. cbn [snd].
      rewrite !vendor_calls_app. by destruct (String.eqb _ _).
    + destruct (trace_of (Md.login_server env s1)) as [|e t]; [done|].
      simpl in Hhead. injection Hhead as ->. done.
    + rewrite Hrun. unfold result_of at 1. cbn [fst]. exact Hres.
    + rewrite Hst, login_server_state.
      destruct (Md.login_ret env =? 0); simpl; [done|exact Hc].
    + rewrite Hst, login_server_state.
      by destruct (Md.login_ret env =? 0).
  - intros Hp.
    pose proof (connect_state env userid password client_id server_ip
                  server_port quote_protocol log_level local_ip s) as Hst.
    cbv zeta in Hst. rewrite Hp in Hst. fold r in Hst. by rewrite Hst.
Qed.

Lemma connect_on_disconnected_session_witness :
  vendor_calls
    (trace_of (Md.connect sample_env "u" "p" 9 "10.0.0.1" 6001 "UDP" 3
                 "10.0.0.2" (Md.new "XTP")))
  = [createQuoteApi 9 3; setHeartBeatInterval 30; setUDPBufferSize 1024;
     md_login "10.0.0.1" 6001 "u" "p" 2 "10.0.0.2"; queryAllTickers 1;
     queryAllTickers 2; init].
Proof.
  destruct (connect_on_disconnected_session sample_env "u" "p" 9 "10.0.0.1"
              6001 "UDP" 3 "10.0.0.2" (Md.new "XTP")) as [Hok _].
  - reflexivity.
  - destruct (Hok 2) as [Hcalls _]; [reflexivity|].
    rewrite Hcalls. vm_compute. reflexivity.
Defined.

(** X7. [subscribe] on a logged-in session makes one vendor subscription
    and puts the pair in the registry, which is a set: a pair that is
    already there leaves the registry as it is.  Every later successful
    login then unsubscribes and subscribes the pair again. *)
Theorem subscribe_registers_for_replay (req : Md.SubscribeRequest)
    (s : Md.XtpMdApi) :
  Md.login_status s = true ->
  let pair := (Md.req_symbol req, Md.req_exchange req) in
  let s' := state_of (Md.subscribe req s) in
  vendor_calls (trace_of (Md.subscribe req s)) = [subscribe_call pair]
  /\ Md.subscribe_request_list s' = {[pair]} ∪ Md.subscribe_request_list s
  /\ (pair ∈ Md.subscribe_request_list s ->
      Md.subscribe_request_list s' = Md.subscribe_request_list s)
  /\ state_of (Md.subscribe req s') = s'
  /\ forall cs env,
       Md.login_ret env = 0 ->
       let calls :=
         vendor_calls (trace_of (Md.login_server env (md_run cs s'))) in
       unsubscribe_call pair ∈ calls /\ subscribe_call pair ∈ calls.
Proof.
  intros Hlogin pair s'.
  assert (Hrun : Md.subscribe req s
    = (Ok tt,
       Md.set_subscribe_request_list
         ({[pair]} ∪ Md.subscribe_request_list s) s,
       [Vendor (subscribe_call pair);
        LogInfo (MsgFirstSubscribe (Md.req_symbol req)
                   (EXCHANGE_VT2XTP (Md.req_exchange req))
                   (Md.client_id s))])).
  { unfold Md.subscribe, bind, get. by rewrite Hlogin. }
  assert (Hreg : Md.subscribe_request_list s'
                 = {[pair]} ∪ Md.subscribe_request_list s).
  { unfold s'. by rewrite Hrun. }
  split; [by rewrite Hrun|]. split; [done|]. split; [|split].
  - intros Hin. rewrite Hreg. apply subseteq_union_1_L.
    by apply singleton_subseteq_l.
  - unfold Md.subscribe, bind, get, modify, emit, state_of.
    assert (Hl' : Md.login_status s' = true).
    { unfold s'. by rewrite Hrun. }
    rewrite Hl'. simpl. rewrite Hreg.
    replace ({[pair]} ∪ ({[pair]} ∪ Md.subscribe_request_list s))
      with ({[pair]} ∪ Md.subscribe_request_list s)
      by (by rewrite (assoc_L (∪)), (idemp_L (∪))).
    rewrite <- Hreg. by destruct s'.
  - intros cs env Hn calls.
    assert (Hin : pair ∈ Md.subscribe_request_list (md_run cs s')).
    { apply (registry_keeps cs s'). rewrite Hreg.
      apply elem_of_union. left. by apply elem_of_singleton. }
    subst calls. rewrite (login_server_calls env _ Hn).
    apply elem_of_elements in Hin. split.
    + apply elem_of_app. left. apply elem_of_app. right.
      by apply (list_elem_of_fmap_2 unsubscribe_call).
    + apply elem_of_app. right.
      by apply (list_elem_of_fmap_2 subscribe_call).
Qed.

Lemma subscribe_registers_for_replay_witness :
  vendor_calls
    (trace_of (Md.subscribe (Md.mk_SubscribeRequest "600000" SSE) sample_md))
  = [subscribeMarketData "600000" 1 (Some 1)].
Proof.
  apply (subscribe_registers_for_replay
           (Md.mk_SubscribeRequest "600000" SSE) sample_md).
  reflexivity.
Defined.

(** * Further properties of the order and trade reconciler *)

Lemma onOrderEvent_state (data : OrderEventData) (error : ErrorInfo)
    (s : Td.XtpTdApi) :
  state_of (Td.onOrderEvent data error s)
  = match order_after data (Td.gateway_name s)
            (Td.orders s !! pretty (oe_order_xtp_id data)) with
    | Some order =>
        Td.set_orders
          (<[pretty (oe_order_xtp_id data) := order]> (Td.orders s)) s
    | None => s
    end.
Proof.
  unfold order_after, stamp.
  unfold Td.onOrderEvent, Td.store_order, write_error, bind, lift, ret,
    get, emit, modify, raise, state_of.
  destruct (negb (error_id error =? 0)); simpl;
    (destruct (Td.decode_side _ _ _) as [side|]; simpl; [|done]);
    (destruct (Td.orders s !! pretty (oe_order_xtp_id data)) as [o0|];
       simpl;
     [ destruct (STATUS_XTP2VT _) as [st|]; simpl; [|done];
       destruct (o_datetime o0); simpl;
       [|destruct (strptime _); simpl];
       by rewrite ?insert_insert_eq
     | destruct (MARKET_XTP2VT _) as [ex|]; simpl; [|done];
       destruct (STATUS_XTP2VT _) as [st|]; simpl; [|done];
       destruct (strptime _); simpl;
       by rewrite ?insert_insert_eq ]).
Qed.

Lemma bind_emits {S B : Type} (m : M S unit) (k : unit -> M S B) (s : S)
    (t : list Effect) :
  m s = (Ok tt, s, t) ->
  bind m k s = (result_of (k tt s), state_of (k tt s), t ++ trace_of (k tt s)).
Proof.
  intros Hm. unfold bind. rewrite Hm.
  by destruct (k tt s) as [[r s2] t2].
Qed.

(** The error carried by an order update only adds its report in front
    of what the handler does without it. *)
Lemma onOrderEvent_error (data : OrderEventData) (error : ErrorInfo)
    (s : Td.XtpTdApi) :
  Td.onOrderEvent data error s
  = (result_of (Td.onOrderEvent data no_error s),
     state_of (Td.onOrderEvent data no_error s),
     error_report data error ++ trace_of (Td.onOrderEvent data no_error s)).
Proof.
  unfold Td.onOrderEvent.
  match goal with
  | |- bind ?m ?k s = _ =>
      rewrite (bind_emits m k s (error_report data error))
  end.
  - match goal with
    | |- context [bind ?m ?k s] =>
        rewrite (bind_emits m k s [])
    end; [|done].
    unfold result_of, state_of, trace_of. by simpl.
  - unfold error_report, write_error, bind, emit, ret.
    by destruct (negb (error_id error =? 0)).
Qed.

(** The handler on an update without error whose side decodes, by the
    order it leaves: published when the insertion time is known. *)
Lemma onOrderEvent_no_error (data : OrderEventData) (s : Td.XtpTdApi)
    (order : OrderData) :
  order_after data (Td.gateway_name s)
    (Td.orders s !! pretty (oe_order_xtp_id data)) = Some order ->
  (Td.orders s !! pretty (oe_order_xtp_id data) = None
   \/ is_Some (STATUS_XTP2VT (oe_order_status data))) ->
  (is_Some (o_datetime order) ->
   result_of (Td.onOrderEvent data no_error s) = Ok tt
   /\ trace_of (Td.onOrderEvent data no_error s) = [OnOrder order])
  /\ (o_datetime order = None ->
      result_of (Td.onOrderEvent data no_error s) = Raise ValueError
      /\ trace_of (Td.onOrderEvent data no_error s) = []).
Proof.
  unfold order_after, stamp.
  unfold Td.onOrderEvent, Td.store_order, write_error, bind, lift, ret,
    get, emit, modify, raise, result_of, trace_of, no_error.
  simpl.
  destruct (Td.decode_side _ _ _) as [side|]; simpl; [|done].
  destruct (Td.orders s !! pretty (oe_order_xtp_id data)) as [o0|]; simpl.
  - destruct (STATUS_XTP2VT _) as [st|]; simpl.
    + destruct (o_datetime o0) eqn:Ht; simpl.
      * intros [= <-] _. simpl. rewrite Ht. split; [done|].
        intros [=].
      * destruct (strptime _); simpl; intros [= <-] _; simpl.
        -- split; [done|]. intros [=].
        -- rewrite Ht. split; [|done]. by intros [? [=]].
    + intros _ [[=]|[? [=]]].
  - destruct (MARKET_XTP2VT _) as [ex|]; simpl; [|done].
    destruct (STATUS_XTP2VT _) as [st|]; simpl; [|done].
    destruct (strptime _); simpl; intros [= <-] _; simpl.
    + split; [done|]. intros [=].
    + split; [|done]. by intros [? [=]].
Qed.

(** X8. The first order update for an id that is not in the cache
    creates the order from the event: symbol, exchange of the market code,
    side and type as decoded, price, requested and traded volume, status of
    the status code.  With an insertion time that [strptime] reads the
    order carries it and is handed to the host; with one that [strptime]
    refuses the order is stored without time, nothing is handed over and
    the handler raises [ValueError]. *)
Theorem first_update_creates_order (data : OrderEventData)
    (error : ErrorInfo) (s : Td.XtpTdApi) (side : Direction * Offset)
    (exchange : Exchange) (status : Status) :
  Td.decode_side (oe_ticker data) (oe_side data) (oe_position_effect data)
  = Some side ->
  MARKET_XTP2VT (oe_market data) = Some exchange ->
  STATUS_XTP2VT (oe_order_status data) = Some status ->
  Td.orders s !! pretty (oe_order_xtp_id data) = None ->
  let order :=
    mk_OrderData (oe_ticker data) exchange (pretty (oe_order_xtp_id data))
      (Td.decode_order_type (oe_ticker data) (oe_price_type data))
      side.1 side.2 (oe_price data) (oe_quantity data) (oe_qty_traded data)
      status None (Td.gateway_name s) in
  let r := Td.onOrderEvent data error s in
  (forall dt, strptime (oe_insert_time data) = Some dt ->
     r = (Ok tt,
          Td.set_orders
            (<[pretty (oe_order_xtp_id data) := set_datetime dt order]>
               (Td.orders s)) s,
          error_report data error ++ [OnOrder (set_datetime dt order)]))
  /\ (strptime (oe_insert_time data) = None ->
      r = (Raise ValueError,
           Td.set_orders
             (<[pretty (oe_order_xtp_id data) := order]> (Td.orders s)) s,
           error_report data error)).
Proof.
  intros Hside Hex Hst Hnew order r.
  assert (Hafter : order_after data (Td.gateway_name s)
                     (Td.orders s !! pretty (oe_order_xtp_id data))
                   = Some (stamp data order)).
  { unfold order_after. by rewrite Hside, Hnew, Hex, Hst. }
  pose proof (onOrderEvent_state data no_error s) as Hstate.
  rewrite Hafter in Hstate.
  destruct (onOrderEvent_no_error data s _ Hafter (or_introl Hnew))
    as [Hsome Hnone].
  subst r. rewrite onOrderEvent_error, Hstate.
  split.
  - intros dt Hdt.
    assert (Hstamp : stamp data order = set_datetime dt order).
    { unfold stamp. simpl. by rewrite Hdt. }
    rewrite Hstamp in *.
    destruct Hsome as [-> ->]; [by eexists|]. done.
  - intros Hdt.
    assert (Hstamp : stamp data order = order).
    { unfold stamp. simpl. by rewrite Hdt. }
    rewrite Hstamp in *.
    destruct Hnone as [-> ->]; [done|]. by rewrite app_nil_r.
Qed.

Lemma first_update_creates_order_witness :
  Td.orders (state_of (Td.onOrderEvent sample_update no_error sample_td))
    !! "7"
  = Some (mk_OrderData "600000" SSE "7" LIMIT LONG NONE 105000 100 0
            CANCELLED (Some sample_time) "XTP")
  /\ result_of
       (Td.onOrderEvent
          (mk_OrderEventData "600000" 1 0 1 7 2 105000 100 0 3 0)
          no_error sample_td)
     = Raise ValueError.
Proof.
  split.
  - destruct (first_update_creates_order sample_update no_error sample_td
                (LONG, NONE) SSE CANCELLED) as [Hok _].
    + vm_compute. reflexivity.
    + reflexivity.
    + reflexivity.
    + vm_compute. reflexivity.
    + rewrite (Hok sample_time); [|vm_compute; reflexivity].
      vm_compute. reflexivity.
  - destruct (first_update_creates_order
                (mk_OrderEventData "600000" 1 0 1 7 2 105000 100 0 3 0)
                no_error sample_td (LONG, NONE) SSE CANCELLED) as [_ Hbad].
    + vm_compute. reflexivity.
    + reflexivity.
    + reflexivity.
    + vm_compute. reflexivity.
    + rewrite Hbad; [reflexivity|vm_compute; reflexivity].
Defined.

Lemma refresh_state (s : Td.XtpTdApi) :
  Td.orders (state_of (refresh s)) = Td.orders s.
Proof.
  destruct (Td.connect_status s) eqn:Hc.
  - by rewrite refresh_connected.
  - by rewrite refresh_disconnected.
Qed.

(** A fill that does not decode raises before it reads the cache. *)
Lemma onTradeEvent_undecodable (data : TradeEventData) (s : Td.XtpTdApi) :
  fill_decodes data = false ->
  state_of (Td.onTradeEvent data s) = s
  /\ trace_of (Td.onTradeEvent data s) = []
  /\ (result_of (Td.onTradeEvent data s) = Raise KeyError
      \/ result_of (Td.onTradeEvent data s) = Raise ValueError).
Proof.
  unfold fill_decodes, Td.onTradeEvent, bind, lift, ret, raise.
  destruct (Td.decode_side _ _ _) as [side|]; [|by auto].
  destruct (strptime _) as [dt|]; [|by auto].
  destruct (MARKET_XTP2VT _) as [ex|]; [done|by auto].
Qed.

(** The cache after a fill. *)
Lemma onTradeEvent_orders (data : TradeEventData) (s : Td.XtpTdApi) :
  Td.orders (state_of (Td.onTradeEvent data s))
  = match Td.orders s !! pretty (te_order_xtp_id data) with
    | Some order =>
        if fill_decodes data
        then <[pretty (te_order_xtp_id data) := filled (te_quantity data) order]>
               (Td.orders s)
        else Td.orders s
    | None => Td.orders s
    end.
Proof.
  destruct (fill_decodes data) eqn:Hdec.
  - unfold fill_decodes in Hdec.
    destruct (Td.decode_side _ _ _) as [side|] eqn:Hside; [|done].
    destruct (strptime _) as [dt|] eqn:Hdt; [|done].
    destruct (MARKET_XTP2VT _) as [ex|] eqn:Hex; [|done].
    destruct (Td.orders s !! pretty (te_order_xtp_id data)) as [o|] eqn:Ho.
    + rewrite (onTradeEvent_match data s side dt ex o Hside Hdt Hex Ho).
      unfold state_of at 1. cbn [fst snd]. by rewrite refresh_state.
    + unfold Td.onTradeEvent, bind, lift, ret, get, emit, raise, state_of.
      rewrite Hside, Hdt, Hex. simpl. by rewrite Ho.
  - destruct (onTradeEvent_undecodable data s Hdec) as [-> _].
    by destruct (Td.orders s !! _).
Qed.

Lemma order_after_keeps (data : OrderEventData) (gateway_name : string)
    (o0 o' : OrderData) :
  order_after data gateway_name (Some o0) = Some o' ->
  same_order o0 o'
  /\ (forall t, o_datetime o0 = Some t -> o_datetime o' = Some t).
Proof.
  unfold order_after, stamp.
  destruct (Td.decode_side _ _ _); [|done].
  destruct (STATUS_XTP2VT _); simpl.
  - destruct (o_datetime o0) eqn:Ht.
    + intros [= <-]. split; [by repeat split|]. simpl. congruence.
    + destruct (strptime _); intros [= <-];
        (split; [by repeat split|]); intros t' [=].
  - intros [= <-]. split; [by repeat split|]. done.
Qed.

(** What an event does to the cache: nothing, or one entry under the id
    of the event, which keeps what it had of the order before. *)
Lemma handle_orders (e : Event) (s : Td.XtpTdApi) :
  Td.orders (state_of (handle e s)) = Td.orders s
  \/ exists o',
       Td.orders (state_of (handle e s))
       = <[pretty (event_order_id e) := o']> (Td.orders s)
       /\ forall o0, Td.orders s !! pretty (event_order_id e) = Some o0 ->
            same_order o0 o'
            /\ (forall t, o_datetime o0 = Some t -> o_datetime o' = Some t).
Proof.
  destruct e as [data error|data]; simpl.
  - rewrite onOrderEvent_state.
    destruct (order_after _ _ _) as [o'|] eqn:Hafter; [|by left].
    right. exists o'. split; [done|].
    intros o0 Ho0. rewrite Ho0 in Hafter.
    by apply (order_after_keeps data (Td.gateway_name s)).
  - rewrite onTradeEvent_orders.
    destruct (Td.orders s !! _) as [o|]; [|by left].
    destruct (fill_decodes data); [|by left].
    right. eexists. split; [done|].
    intros o0 [= <-]. split; [by repeat split|]. done.
Qed.

(** X9. The insertion time of an order is captured once: an order of the
    cache that has a time keeps that time over any sequence of order
    updates and fills. *)
Theorem insertion_time_captured_once (es : list Event) (s : Td.XtpTdApi)
    (orderid : string) (order : OrderData) (t : datetime) :
  Td.orders s !! orderid = Some order ->
  o_datetime order = Some t ->
  exists order',
    Td.orders (run es s) !! orderid = Some order'
    /\ o_datetime order' = Some t.
Proof.
  revert s order. induction es as [|e es IH]; intros s order Ho Ht; simpl.
  - by exists order.
  - destruct (handle_orders e s) as [Hsame | (o' & Hnew & Hkeep)].
    + apply (IH _ order); [by rewrite Hsame|done].
    + destruct (decide (pretty (event_order_id e) = orderid)) as [<-|Hne].
      * destruct (Hkeep order Ho) as [_ Htime].
        apply (IH _ o'); [|by apply Htime].
        rewrite Hnew. apply lookup_insert_eq.
      * apply (IH _ order); [|done].
        rewrite Hnew. by rewrite lookup_insert_ne.
Qed.

Lemma insertion_time_captured_once_witness :
  exists order',
    Td.orders
      (run [OrderUpdate
              (mk_OrderEventData "600000" 1 0 1 7 2 105000 100 40 2
                 20231204101500000) no_error;
            TradeFill sample_fill] sample_td_order) !! "7" = Some order'
    /\ o_datetime order' = Some sample_time.
Proof.
  apply (insertion_time_captured_once
           [OrderUpdate
              (mk_OrderEventData "600000" 1 0 1 7 2 105000 100 40 2
                 20231204101500000) no_error;
            TradeFill sample_fill] sample_td_order "7"
           (mk_OrderData "600000" SSE "7" LIMIT LONG NONE 105000 100 0
              CANCELLED (Some sample_time) "XTP")).
  - vm_compute. reflexivity.
  - reflexivity.
Defined.

(** X10. Events touch the order of their own id only: over a sequence of
    events for other ids, what the cache holds under an id, an order or
    none, is what it held before. *)
Theorem other_orders_untouched (es : list Event) (s : Td.XtpTdApi)
    (oid : Z) :
  Forall (fun e => event_order_id e ≠ oid) es ->
  Td.orders (run es s) !! pretty oid = Td.orders s !! pretty oid.
Proof.
  revert s. induction es as [|e es IH]; intros s Hes; simpl; [done|].
  apply Forall_cons in Hes as [He Hes].
  rewrite (IH _ Hes).
  destruct (handle_orders e s) as [-> | (o' & -> & _)]; [done|].
  apply lookup_insert_ne. intros Heq. by apply (inj pretty) in Heq.
Qed.

Lemma other_orders_untouched_witness :
  Td.orders
    (run [TradeFill sample_fill; OrderUpdate sample_update no_error]
       sample_td_order) !! pretty 8
  = Td.orders sample_td_order !! pretty 8.
Proof.
  apply (other_orders_untouched
           [TradeFill sample_fill; OrderUpdate sample_update no_error]
           sample_td_order 8).
  repeat constructor; vm_compute; discriminate.
Defined.

Lemma stamp_settled (data : OrderEventData) (o : OrderData) :
  stamp data (stamp data o) = stamp data o
  /\ set_traded (o_traded (stamp data o)) (stamp data o) = stamp data o
  /\ set_status (o_status (stamp data o)) (stamp data o) = stamp data o
  /\ o_traded (stamp data o) = o_traded o
  /\ o_status (stamp data o) = o_status o.
Proof.
  unfold stamp. destruct o as [sy ex id ty di off pr vo tr st [t|] gw]; simpl.
  - done.
  - by destruct (strptime _) eqn:Hdt; simpl; rewrite ?Hdt.
Qed.

Lemma order_after_again (data : OrderEventData) (gateway_name : string)
    (old : option OrderData) (o : OrderData) :
  order_after data gateway_name old = Some o ->
  order_after data gateway_name (Some o) = Some o.
Proof.
  unfold order_after.
  destruct (Td.decode_side _ _ _) as [side|]; [|done].
  destruct old as [o0|].
  - destruct (STATUS_XTP2VT _) as [st|]; intros [= <-].
    + f_equal.
      set (x := set_status st (set_traded (oe_qty_traded data) o0)).
      destruct (stamp_settled data x) as (H1 & H2 & H3 & H4 & H5).
      replace (oe_qty_traded data) with (o_traded (stamp data x)) at 1
        by (by rewrite H4).
      rewrite H2.
      replace st with (o_status (stamp data x)) at 1 by (by rewrite H5).
      by rewrite H3, H1.
    + by destruct o0.
  - destruct (MARKET_XTP2VT _) as [ex|]; [|done].
    destruct (STATUS_XTP2VT _) as [st|]; intros [= <-].
    f_equal.
    match goal with
    | |- context [stamp data (stamp data ?y)] => set (x := y)
    | |- context [set_traded _ (stamp data ?y)] => set (x := y)
    end.
    destruct (stamp_settled data x) as (H1 & H2 & H3 & H4 & H5).
    replace (oe_qty_traded data) with (o_traded (stamp data x)) at 1
      by (by rewrite H4).
    rewrite H2.
    replace st with (o_status (stamp data x)) at 1 by (by rewrite H5).
    by rewrite H3, H1.
Qed.

(** X11. Order updates set, they do not add: replaying the same order
    update leaves the session exactly as its first application left it,
    whether the handler returned or raised. *)
Theorem order_update_replay_is_idempotent (data : OrderEventData)
    (error : ErrorInfo) (s : Td.XtpTdApi) :
  state_of (Td.onOrderEvent data error
              (state_of (Td.onOrderEvent data error s)))
  = state_of (Td.onOrderEvent data error s).
Proof.
  rewrite (onOrderEvent_state data error s).
  destruct (order_after _ _ _) as [o|] eqn:Hafter.
  - rewrite onOrderEvent_state. simpl.
    rewrite lookup_insert_eq.
    rewrite (order_after_again _ _ _ _ Hafter).
    by rewrite insert_insert_eq.
  - rewrite onOrderEvent_state. by rewrite Hafter.
Qed.

(** X12. The error that comes with an order update is reported and does
    not block the update: the session and the outcome are those of the
    same event without error, and the trace is the same with, for a
    non-zero error id, the two lines of the report in front. *)
Theorem order_error_is_reported_not_blocking (data : OrderEventData)
    (error : ErrorInfo) (s : Td.XtpTdApi) :
  state_of (Td.onOrderEvent data error s)
  = state_of (Td.onOrderEvent data no_error s)
  /\ result_of (Td.onOrderEvent data error s)
     = result_of (Td.onOrderEvent data no_error s)
  /\ (error_id error ≠ 0 ->
      trace_of (Td.onOrderEvent data error s)
      = [WriteLog (MsgError "order failed" (error_id error)
                     (error_msg error));
         WriteLog (MsgOrderFailed2 data)]
        ++ trace_of (Td.onOrderEvent data no_error s))
  /\ (error_id error = 0 ->
      trace_of (Td.onOrderEvent data error s)
      = trace_of (Td.onOrderEvent data no_error s)).
Proof.
  rewrite (onOrderEvent_error data error s).
  unfold state_of at 1, result_of at 1, trace_of at 1, trace_of at 2.
  cbn [fst snd]. unfold error_report.
  split; [done|]. split; [done|]. split.
  - intros Hid. apply Z.eqb_neq in Hid. by rewrite Hid.
  - intros Hid. apply Z.eqb_eq in Hid. by rewrite Hid.
Qed.

Lemma order_error_is_reported_not_blocking_witness :
  trace_of (Td.onOrderEvent sample_update (mk_ErrorInfo 11 "rejected")
              sample_td)
  = [WriteLog (MsgError "order failed" 11 "rejected");
     WriteLog (MsgOrderFailed2 sample_update)]
    ++ trace_of (Td.onOrderEvent sample_update no_error sample_td).
Proof.
  apply (order_error_is_reported_not_blocking sample_update
           (mk_ErrorInfo 11 "rejected") sample_td).
  discriminate.
Defined.

(** X13. An order update with a status code that is not in the status
    table, for an order of the cache: the handler raises [KeyError] after
    it has overwritten the traded volume; the status stays what it was and
    nothing is handed to the host. *)
Theorem unknown_status_code_updates_traded_only (data : OrderEventData)
    (error : ErrorInfo) (s : Td.XtpTdApi) (side : Direction * Offset)
    (order : OrderData) :
  Td.decode_side (oe_ticker data) (oe_side data) (oe_position_effect data)
  = Some side ->
  STATUS_XTP2VT (oe_order_status data) = None ->
  Td.orders s !! pretty (oe_order_xtp_id data) = Some order ->
  result_of (Td.onOrderEvent data error s) = Raise KeyError
  /\ Td.orders (state_of (Td.onOrderEvent data error s))
       !! pretty (oe_order_xtp_id data)
     = Some (set_traded (oe_qty_traded data) order)
  /\ o_status (set_traded (oe_qty_traded data) order) = o_status order
  /\ published_orders (trace_of (Td.onOrderEvent data error s)) = [].
Proof.
  intros Hside Hst Horder.
  split; [|split; [|split]].
  - rewrite onOrderEvent_error. unfold result_of at 1. cbn [fst].
    unfold Td.onOrderEvent, Td.store_order, bind, lift, ret, get, emit,
      modify, raise, result_of, no_error. simpl.
    rewrite Hside. simpl. rewrite Horder. simpl. by rewrite Hst.
  - rewrite onOrderEvent_state. unfold order_after.
    rewrite Hside, Horder, Hst. simpl. apply lookup_insert_eq.
  - done.
  - rewrite onOrderEvent_error. unfold trace_of at 1. cbn [snd].
    unfold Td.onOrderEvent, Td.store_order, bind, lift, ret, get, emit,
      modify, raise, trace_of, no_error. simpl.
    rewrite Hside. simpl. rewrite Horder. simpl. rewrite Hst. simpl.
    unfold error_report. by destruct (negb _).
Qed.

Lemma unknown_status_code_updates_traded_only_witness :
  result_of
    (Td.onOrderEvent
       (mk_OrderEventData "600000" 1 0 1 7 2 105000 100 60 9
          20231204101500000) no_error sample_td_order)
  = Raise KeyError.
Proof.
  apply (unknown_status_code_updates_traded_only
           (mk_OrderEventData "600000" 1 0 1 7 2 105000 100 60 9
              20231204101500000) no_error sample_td_order (LONG, NONE)
           (mk_OrderData "600000" SSE "7" LIMIT LONG NONE 105000 100 0
              CANCELLED (Some sample_time) "XTP")).
  - vm_compute. reflexivity.
  - reflexivity.
  - vm_compute. reflexivity.
Defined.

(** X14. A fill whose side or market is not in its table, or whose time
    [strptime] refuses, is dropped whole: the handler raises [KeyError] or
    [ValueError] before it reads the cache, the session is unchanged, and
    nothing is logged, handed to the host or queried. *)
Theorem undecodable_fill_is_dropped (data : TradeEventData)
    (s : Td.XtpTdApi) :
  Td.decode_side (te_ticker data) (te_side data) (te_position_effect data)
  = None
  \/ strptime (te_trade_time data) = None
  \/ MARKET_XTP2VT (te_market data) = None ->
  exists e,
    Td.onTradeEvent data s = (Raise e, s, [])
    /\ (e = KeyError \/ e = ValueError).
Proof.
  intros Hbad.
  assert (Hdec : fill_decodes data = false).
  { unfold fill_decodes.
    destruct Hbad as [-> | [Hbad | Hbad]]; [done| |].
    - rewrite Hbad. by destruct (Td.decode_side (te_ticker data) _ _).
    - rewrite Hbad.
      destruct (Td.decode_side (te_ticker data) _ _); [|done].
      by destruct (strptime (te_trade_time data)). }
  destruct (onTradeEvent_undecodable data s Hdec) as (Hs & Ht & Hr).
  destruct (Td.onTradeEvent data s) as [[r s'] t].
  unfold state_of, trace_of, result_of in *. simpl in *. subst s' t.
  destruct Hr as [-> | ->]; eauto.
Qed.

Lemma undecodable_fill_is_dropped_witness :
  (exists e,
     Td.onTradeEvent
       (mk_TradeEventData "600000" 7 0 20231204093001000 2 7 "E1" 105000 150)
       sample_td_order
     = (Raise e, sample_td_order, [])
     /\ (e = KeyError \/ e = ValueError))
  /\ (exists e,
        Td.onTradeEvent
          (mk_TradeEventData "600000" 1 0 20230229093001000 2 7 "E1" 105000
             150)
          sample_td_order
        = (Raise e, sample_td_order, [])
        /\ (e = KeyError \/ e = ValueError)).
Proof.
  split.
  - apply (undecodable_fill_is_dropped
             (mk_TradeEventData "600000" 7 0 20231204093001000 2 7 "E1"
                105000 150) sample_td_order).
    left. vm_compute. reflexivity.
  - apply (undecodable_fill_is_dropped
             (mk_TradeEventData "600000" 1 0 20230229093001000 2 7 "E1"
                105000 150) sample_td_order).
    right. left. vm_compute. reflexivity.
Defined.

(** X15. Fills add up: over a sequence of fills that decode, all for one
    order of the cache, the traded volume ends as what it was plus the sum
    of the fill volumes, so a fill delivered twice counts twice; after at
    least one fill the status is [PARTTRADED] when that total is below the
    requested volume and [ALLTRADED] otherwise. *)
Theorem fills_add_up (fills : list TradeEventData) (s : Td.XtpTdApi)
    (oid : Z) (order : OrderData) :
  Forall (fun data => fill_decodes data = true
                      /\ te_order_xtp_id data = oid) fills ->
  Td.orders s !! pretty oid = Some order ->
  exists order',
    Td.orders (run_fills fills s) !! pretty oid = Some order'
    /\ o_traded order' = o_traded order + total_quantity fills
    /\ o_volume order' = o_volume order
    /\ (fills ≠ [] ->
        o_status order'
        = if o_traded order' <? o_volume order
          then PARTTRADED else ALLTRADED).
Proof.
  revert s order. induction fills as [|data fills IH];
    intros s order Hall Ho; simpl.
  - exists order. split; [done|]. split; [lia|]. done.
  - apply Forall_cons in Hall as [[Hdec <-] Hall].
    assert (Ho1 : Td.orders (state_of (Td.onTradeEvent data s))
                    !! pretty (te_order_xtp_id data)
                  = Some (filled (te_quantity data) order)).
    { rewrite onTradeEvent_orders, Ho, Hdec. apply lookup_insert_eq. }
    destruct (IH _ _ Hall Ho1) as (o' & Ho' & Htraded & Hvolume & Hstatus).
    exists o'. split; [done|]. simpl in Htraded, Hvolume.
    split; [lia|]. split; [done|]. intros _.
    destruct fills as [|data' fills'].
    + simpl in Ho'. rewrite Ho1 in Ho'. injection Ho' as <-. simpl.
      done.
    + rewrite Hstatus by done. done.
Qed.

Lemma fills_add_up_witness :
  exists order',
    Td.orders (run_fills [sample_fill; sample_fill] sample_td_order)
      !! pretty 7 = Some order'
    /\ o_traded order' = 300.
Proof.
  destruct (fills_add_up [sample_fill; sample_fill] sample_td_order 7
              (mk_OrderData "600000" SSE "7" LIMIT LONG NONE 105000 100 0
                 CANCELLED (Some sample_time) "XTP"))
    as (order' & Ho & Ht & _).
  - repeat constructor.
  - vm_compute. reflexivity.
  - exists order'. split; [exact Ho | exact Ht].
Defined.

(** * Further properties of the trading session *)

Lemma td_login_server_run (env : Td.Env) (s : Td.XtpTdApi) :
  Td.login_server env s
  = if Td.login_ret env =? 0
    then (Ok tt, Td.set_reqid (Td.reqid s + 1) s,
          [Vendor (td_login (Td.server_ip s) (Td.server_port s)
                     (Td.userid s) (Td.password s) (Td.protocol s));
           Vendor getApiLastError;
           WriteLog (MsgTdLoginFailed (error_msg (Td.api_last_error env)));
           Vendor (queryOptionAuctionInfo (Td.session_id s)
                     (Td.reqid s + 1))])
    else (Ok tt,
          Td.set_reqid (Td.reqid s + 1)
            (Td.set_login_status true
               (Td.set_connect_status true
                  (Td.set_session_id (Td.login_ret env) s))),
          [Vendor (td_login (Td.server_ip s) (Td.server_port s)
                     (Td.userid s) (Td.password s) (Td.protocol s));
           Vendor init; GetAllContracts;
           WriteLog (MsgTdLoginOk (Td.login_ret env));
           Vendor (queryOptionAuctionInfo (Td.login_ret env)
                     (Td.reqid s + 1))]).
Proof.
  unfold Td.login_server, Td.query_option_info, Td.init_contract_data,
    bind, get, modify, emit, ret.
  by destruct (Td.login_ret env =? 0).
Qed.

(** X16. The login of the trading session: a session number other than
    0 is stored and marks the session connected and logged in; on 0 the
    flags and the session number stay as they were and no second attempt
    is made.  In both cases the request counter grows by one and the
    option query is sent last, with the new counter: after a failed login
    it still goes out, on the session number the object had. *)
Theorem td_login_outcomes (env : Td.Env) (s : Td.XtpTdApi) :
  let r := Td.login_server env s in
  result_of r = Ok tt
  /\ Td.reqid (state_of r) = Td.reqid s + 1
  /\ last (vendor_calls (trace_of r))
     = Some (queryOptionAuctionInfo (Td.session_id (state_of r))
               (Td.reqid s + 1))
  /\ Td.orders (state_of r) = Td.orders s
  /\ (Td.login_ret env ≠ 0 ->
      Td.session_id (state_of r) = Td.login_ret env
      /\ Td.connect_status (state_of r) = true
      /\ Td.login_status (state_of r) = true)
  /\ (Td.login_ret env = 0 ->
      state_of r = Td.set_reqid (Td.reqid s + 1) s
      /\ vendor_calls (trace_of r)
         = [td_login (Td.server_ip s) (Td.server_port s) (Td.userid s)
              (Td.password s) (Td.protocol s);
            getApiLastError;
            queryOptionAuctionInfo (Td.session_id s) (Td.reqid s + 1)]).
Proof.
  intros r. subst r. rewrite td_login_server_run.
  destruct (Td.login_ret env =? 0) eqn:Hn.
  - apply Z.eqb_eq in Hn.
    split; [done|]. split; [done|]. split; [done|]. split; [done|].
    split; [done|]. intros _. done.
  - apply Z.eqb_neq in Hn.
    split; [done|]. split; [done|]. split; [done|]. split; [done|].
    split; [|done]. intros _. done.
Qed.

Lemma td_login_outcomes_witness :
  Td.session_id (state_of (Td.login_server sample_td_env sample_td_off)) = 1
  /\ state_of (Td.login_server (Td.mk_Env 0 (mk_ErrorInfo 5 "bad"))
                 sample_td_off)
     = Td.set_reqid 1 sample_td_off.
Proof.
  destruct (td_login_outcomes sample_td_env sample_td_off)
    as (_ & _ & _ & _ & Hok & _).
  destruct (td_login_outcomes (Td.mk_Env 0 (mk_ErrorInfo 5 "bad"))
              sample_td_off) as (_ & _ & _ & _ & _ & Hbad).
  split.
  - apply Hok. discriminate.
  - apply Hbad. reflexivity.
Defined.

(** X17. [connect] on a trading session that is not connected stores the
    parameters, the protocol being TCP, and calls in this order: creation
    of the trader API with the new client id, the software key, the public
    topic from 0, and what [login_server] calls on the new parameters. *)
Theorem td_connect_on_disconnected_session (env : Td.Env)
    (userid password : string) (client_id : Z) (server_ip : string)
    (server_port : Z) (software_key : string) (log_level : Z)
    (local_ip : string) (s : Td.XtpTdApi) :
  Td.connect_status s = false ->
  let s1 := td_with_parameters userid password client_id server_ip
              server_port software_key 1 local_ip s in
  let r := Td.connect env userid password client_id server_ip server_port
             software_key log_level local_ip s in
  r = (Ok tt, state_of (Td.login_server env s1),
       [Vendor (createTraderApi client_id log_level);
        Vendor (setSoftwareKey software_key);
        Vendor (subscribePublicTopic 0)]
       ++ trace_of (Td.login_server env s1))
  /\ head (trace_of (Td.login_server env s1))
     = Some (Vendor (td_login server_ip server_port userid password 1))
  /\ Td.connect_status (state_of r) = negb (Td.login_ret env =? 0).
Proof.
  intros Hc s1 r.
  assert (Hrun : r = (Ok tt, state_of (Td.login_server env s1),
       [Vendor (createTraderApi client_id log_level);
        Vendor (setSoftwareKey software_key);
        Vendor (subscribePublicTopic 0)]
       ++ trace_of (Td.login_server env s1))).
  { subst r. unfold Td.connect, bind, modify, get, emit, ret, lift.
    rewrite PROTOCOL_TCP. cbn -[Td.login_server]. rewrite Hc.
    cbn -[Td.login_server].
    set (s1' := Td.set_local_ip local_ip _). change s1' with s1.
    rewrite (td_login_server_run env s1).
    by destruct (Td.login_ret env =? 0). }
  split; [done|]. split.
  - rewrite (td_login_server_run env s1).
    by destruct (Td.login_ret env =? 0).
  - rewrite Hrun. unfold state_of at 1. cbn [fst snd].
    rewrite (td_login_server_run env s1).
    destruct (Td.login_ret env =? 0); [exact Hc|done].
Qed.

Lemma td_connect_on_disconnected_session_witness :
  vendor_calls
    (trace_of (Td.connect sample_td_env "u" "p" 9 "10.0.0.1" 6001 "key" 3
                 "10.0.0.2" sample_td_off))
  = [createTraderApi 9 3; setSoftwareKey "key"; subscribePublicTopic 0;
     td_login "10.0.0.1" 6001 "u" "p" 1; init;
     queryOptionAuctionInfo 1 1].
Proof.
  destruct (td_connect_on_disconnected_session sample_td_env "u" "p" 9
              "10.0.0.1" 6001 "key" 3 "10.0.0.2" sample_td_off)
    as [Hrun _].
  - reflexivity.
  - rewrite Hrun. vm_compute. reflexivity.
Defined.

(** X18. A page of securities debt whose market code is not in the
    market table raises [KeyError] before it touches the accumulator and
    before the test of the last-page flag.  When the last page of a query
    is such a page, nothing is published and the accumulator is not
    emptied: it still holds the totals of the pages before, which the next
    query will add to. *)
Theorem failed_last_page_keeps_accumulator (rows : list DebtData)
    (final : DebtData) (s : Td.XtpTdApi) :
  Td.short_positions s = [] ->
  (forall row, row ∈ rows -> dd_debt_type row = 1 ->
     is_Some (MARKET_XTP2VT (dd_market row))) ->
  dd_debt_type final = 1 ->
  MARKET_XTP2VT (dd_market final) = None ->
  let after := run_pages (paginate rows final) s in
  (forall last s', Td.onQueryCreditDebtInfo final last s'
                   = (Raise KeyError, s', []))
  /\ published_positions after.2 = []
  /\ accumulated rows (Td.short_positions after.1)
  /\ (forall row, row ∈ rows -> dd_debt_type row = 1 ->
        Td.short_positions after.1 ≠ []).
Proof.
  intros Hempty Hdec Hty Hmarket after.
  assert (Hpage : forall last s', Td.onQueryCreditDebtInfo final last s'
                                  = (Raise KeyError, s', [])).
  { intros last s'. unfold Td.onQueryCreditDebtInfo, bind, lift, raise.
    apply Z.eqb_eq in Hty. by rewrite Hty, Hmarket. }
  destruct (run_pages_accumulates [] rows s Hdec) as (acc & Hrun & Hacc).
  { rewrite Hempty. apply accumulated_nil. }
  simpl in Hacc.
  assert (Hafter : after = (Td.set_short_positions acc s, [])).
  { unfold after, paginate. rewrite run_pages_app, Hrun. simpl.
    by rewrite Hpage. }
  rewrite Hafter. simpl.
  split; [done|]. split; [done|]. split; [done|].
  intros row Hrow Hrow1 Hnil.
  destruct Hacc as (_ & _ & Hall).
  specialize (Hall row Hrow Hrow1). rewrite Hnil in Hall.
  by apply elem_of_nil in Hall.
Qed.

Lemma failed_last_page_keeps_accumulator_witness :
  published_positions
    (run_pages (paginate [mk_DebtData 1 "000001" 1 200]
                  (mk_DebtData 1 "000002" 3 50)) sample_td).2 = [].
Proof.
  apply (failed_last_page_keeps_accumulator [mk_DebtData 1 "000001" 1 200]
           (mk_DebtData 1 "000002" 3 50) sample_td).
  - reflexivity.
  - intros row Hrow _. apply list_elem_of_singleton in Hrow. subst row.
    by eexists.
  - reflexivity.
  - reflexivity.
Defined.

(** * The tables of the two directions *)

(** The inverse tables, as used below. *)
Lemma code_tables :
  (forall e k, EXCHANGE_VT2XTP e = Some k <-> EXCHANGE_XTP2VT k = Some e)
  /\ (forall e k, MARKET_VT2XTP e = Some k <-> MARKET_XTP2VT k = Some e)
  /\ (forall d k, DIRECTION_STOCK_VT2XTP d = Some k
                  <-> DIRECTION_STOCK_XTP2VT k = Some d)
  /\ (forall d k, DIRECTION_OPTION_VT2XTP d = Some k
                  <-> DIRECTION_OPTION_XTP2VT k = Some d)
  /\ (forall t k, OPTION_ORDERTYPE_VT2XTP t = Some k
                  <-> OPTION_ORDERTYPE_XTP2VT k = Some t)
  /\ (forall t k, EQUITY_ORDERTYPE_VT2XTP t = Some k
                  <-> EQUITY_ORDERTYPE_XTP2VT k = Some t)
  /\ (forall t k, STAR_ORDERTYPE_VT2XTP t = Some k
                  <-> STAR_ORDERTYPE_XTP2VT k = Some t)
  /\ (forall o k, OFFSET_VT2XTP o = k <-> OFFSET_XTP2VT k = Some o).
Proof.
  repeat split.
  all: try (intros H;
            match goal with
            | x : Exchange |- _ => destruct x
            | x : Direction * Offset |- _ => destruct x as [[] []]
            | x : Direction |- _ => destruct x
            | x : OrderType |- _ => destruct x
            | x : Offset |- _ => destruct x
            end; simpl in H; simplify_eq; reflexivity).
  all: intros H.
  all: unfold EXCHANGE_XTP2VT, MARKET_XTP2VT, DIRECTION_STOCK_XTP2VT,
         DIRECTION_OPTION_XTP2VT, OPTION_ORDERTYPE_XTP2VT,
         EQUITY_ORDERTYPE_XTP2VT, STAR_ORDERTYPE_XTP2VT,
         OFFSET_XTP2VT in H;
       repeat case_match; simplify_eq; reflexivity.
Qed.

(** X19. The tables of the sending direction are the inverses of the
    tables of the receiving direction, code for code: exchange, market,
    stock side, option side, the three order-type tables and the offset.
    The market table and the exchange table number the two exchanges the
    opposite way round. *)
Theorem code_tables_are_inverse :
  (forall e k, EXCHANGE_VT2XTP e = Some k <-> EXCHANGE_XTP2VT k = Some e)
  /\ (forall e k, MARKET_VT2XTP e = Some k <-> MARKET_XTP2VT k = Some e)
  /\ (forall d k, DIRECTION_STOCK_VT2XTP d = Some k
                  <-> DIRECTION_STOCK_XTP2VT k = Some d)
  /\ (forall d k, DIRECTION_OPTION_VT2XTP d = Some k
                  <-> DIRECTION_OPTION_XTP2VT k = Some d)
  /\ (forall t k, OPTION_ORDERTYPE_VT2XTP t = Some k
                  <-> OPTION_ORDERTYPE_XTP2VT k = Some t)
  /\ (forall t k, EQUITY_ORDERTYPE_VT2XTP t = Some k
                  <-> EQUITY_ORDERTYPE_XTP2VT k = Some t)
  /\ (forall t k, STAR_ORDERTYPE_VT2XTP t = Some k
                  <-> STAR_ORDERTYPE_XTP2VT k = Some t)
  /\ (forall o k, OFFSET_VT2XTP o = k <-> OFFSET_XTP2VT k = Some o)
  /\ (forall e k, MARKET_VT2XTP e = Some k
                  <-> EXCHANGE_VT2XTP e = Some (3 - k)).
Proof.
  destruct code_tables as (H1 & H2 & H3 & H4 & H5 & H6 & H7 & H8).
  repeat (split; [assumption|]).
  intros e k. destruct e; simpl; split; intros H; simplify_eq;
    f_equal; lia.
Qed.

(** * Sending orders *)

(** What the dictionary of an accepted request carries. *)
Lemma xtp_request_accepts (margin_trading : bool) (req : OrderRequest)
    (xtp_req : XtpOrderRequest) :
  Ext.xtp_request margin_trading req = inr xtp_req ->
  xr_ticker xtp_req = or_symbol req
  /\ MARKET_VT2XTP (or_exchange req) = Some (xr_market xtp_req)
  /\ xr_price xtp_req = or_price req
  /\ xr_quantity xtp_req = or_volume req
  /\ (margin_trading = true -> or_offset req ≠ NONE)
  /\ (if (String.length (or_symbol req) =? 8)%nat
      then OPTION_ORDERTYPE_VT2XTP (or_type req)
      else if String.prefix "688" (or_symbol req)
           then STAR_ORDERTYPE_VT2XTP (or_type req)
           else EQUITY_ORDERTYPE_VT2XTP (or_type req))
     = Some (xr_price_type xtp_req).
Proof.
  unfold Ext.xtp_request.
  destruct (MARKET_VT2XTP (or_exchange req)) as [market|]; [|done].
  destruct (margin_trading && _) eqn:Hm; [done|].
  assert (Hoff : margin_trading = true -> or_offset req ≠ NONE).
  { intros ->. simpl in Hm. by apply bool_decide_eq_false in Hm. }
  destruct (String.length (or_symbol req) =? 8)%nat.
  - destruct (OPTION_ORDERTYPE_VT2XTP _) as [pt|]; [|done].
    by intros [= <-].
  - destruct (String.prefix "688" (or_symbol req)).
    + destruct (STAR_ORDERTYPE_VT2XTP _) as [pt|]; [|done].
      by intros [= <-].
    + destruct (EQUITY_ORDERTYPE_VT2XTP _) as [pt|]; [|done].
      by intros [= <-].
Qed.

(** X20. What the gateway sends for an order decodes back to the order:
    for every request [send_order] accepts, the price type sent decodes,
    with the table of the same instrument class, to the order type of the
    request, the market code to its exchange, and the side, when its table
    has one, to the direction of the request.  The offset that comes back
    is that of the request for an option contract and for a margin account
    buying on margin, and [NONE] otherwise. *)
Theorem sent_order_decodes_back (margin_trading : bool)
    (req : OrderRequest) (xtp_req : XtpOrderRequest) :
  Ext.xtp_request margin_trading req = inr xtp_req ->
  Td.decode_order_type (xr_ticker xtp_req) (xr_price_type xtp_req)
  = or_type req
  /\ MARKET_XTP2VT (xr_market xtp_req) = Some (or_exchange req)
  /\ forall side,
       xr_side xtp_req = Some side ->
       Td.decode_side (xr_ticker xtp_req) side
         (default 0 (xr_position_effect xtp_req))
       = Some (or_direction req,
               if (String.length (or_symbol req) =? 8)%nat
               then or_offset req
               else if margin_trading
                    then match or_buy_with_rongzi req with
                         | Some true => or_offset req
                         | _ => NONE
                         end
                    else NONE).
Proof.
  intros Hreq.
  destruct (xtp_request_accepts _ _ _ Hreq)
    as (Hticker & Hmarket & _ & _ & _ & Htype).
  destruct code_tables as (_ & Hmk & Hds & Hdo & Hto & Hte & Hts & Hoff).
  split; [|split].
  - unfold Td.decode_order_type. rewrite Hticker.
    destruct (String.length (or_symbol req) =? 8)%nat.
    + apply Hto in Htype. by rewrite Htype.
    + destruct (String.prefix "688" (or_symbol req)).
      * apply Hts in Htype. by rewrite Htype.
      * apply Hte in Htype. by rewrite Htype.
  - by apply Hmk.
  - intros side Hside. unfold Td.decode_side. rewrite Hticker.
    revert Hreq. unfold Ext.xtp_request.
    destruct (MARKET_VT2XTP (or_exchange req)) as [market|]; [|done].
    destruct (margin_trading && _); [done|].
    destruct (String.length (or_symbol req) =? 8)%nat.
    + destruct (OPTION_ORDERTYPE_VT2XTP _) as [pt|]; [|done].
      intros [= <-]. simpl in *.
      apply Hdo in Hside. rewrite Hside.
      assert (Ho : OFFSET_XTP2VT (OFFSET_VT2XTP (or_offset req))
                   = Some (or_offset req)) by (by apply Hoff).
      by rewrite Ho.
    + destruct (if String.prefix "688" (or_symbol req)
                then STAR_ORDERTYPE_VT2XTP else EQUITY_ORDERTYPE_VT2XTP)
        as [pt|]; [|done].
      intros [= <-]. simpl in *.
      apply Hds in Hside. rewrite Hside.
      destruct margin_trading; [|done].
      by destruct (or_buy_with_rongzi req) as [[]|].
Qed.

Lemma sent_order_decodes_back_witness :
  Td.decode_order_type "688001" 7 = MARKET
  /\ MARKET_XTP2VT 2 = Some SSE.
Proof.
  destruct (sent_order_decodes_back false
              (mk_OrderRequest "688001" SSE LONG MARKET 200 0 NONE None)
              (mk_XtpOrderRequest "688001" 2 0 200 (Some 1) None 7 0))
    as (Htype & Hmarket & _).
  - vm_compute. reflexivity.
  - split; [exact Htype | exact Hmarket].
Defined.

(** X21. [send_order] turns a request down before any vendor call: for
    an exchange that is not in the market table, for a margin account
    without offset, and for an order type that the table of the
    instrument class (option contract, STAR board, other stock) does not
    have, it writes one log line and returns the empty string; no order is
    stored or handed to the host and the session is unchanged. *)
Theorem send_order_rejections (insert_ret : Z) (req : OrderRequest)
    (s : Td.XtpTdApi) :
  MARKET_VT2XTP (or_exchange req) = None
  \/ (Td.margin_trading s = true /\ or_offset req = NONE)
  \/ (if (String.length (or_symbol req) =? 8)%nat
      then OPTION_ORDERTYPE_VT2XTP (or_type req)
      else if String.prefix "688" (or_symbol req)
           then STAR_ORDERTYPE_VT2XTP (or_type req)
           else EQUITY_ORDERTYPE_VT2XTP (or_type req)) = None ->
  exists msg,
    Ext.send_order insert_ret req s = (XOk "", s, [XWriteLog msg]).
Proof.
  intros Hbad.
  assert (Hmsg : exists msg,
            Ext.xtp_request (Td.margin_trading s) req = inl msg).
  { destruct (Ext.xtp_request (Td.margin_trading s) req) as [msg|x] eqn:Hx;
      [by eexists|].
    destruct (xtp_request_accepts _ _ _ Hx)
      as (_ & Hmarket & _ & _ & Hoff & Htype).
    destruct Hbad as [Hbad | [[Hm Ho] | Hbad]]; [congruence| |congruence].
    by destruct (Hoff Hm). }
  destruct Hmsg as [msg Hmsg]. exists msg.
  unfold Ext.send_order, xbind, xget. by rewrite Hmsg.
Qed.

Lemma send_order_rejections_witness :
  exists msg,
    Ext.send_order 7
      (mk_OrderRequest "600000" SSE LONG FOK 100 105000 NONE None) sample_td
    = (XOk "", sample_td, [XWriteLog msg]).
Proof.
  apply (send_order_rejections 7
           (mk_OrderRequest "600000" SSE LONG FOK 100 105000 NONE None)
           sample_td).
  right. right. reflexivity.
Defined.

(** X22. [send_order] on a request it accepts calls the vendor's
    [insertOrder] once, with the session number of the object, and then
    stores and hands to the host an order under the id the vendor
    returned: the fields of the request, nothing traded, status
    [SUBMITTING], no time.  It returns the gateway name, a dot and that
    id.  A cash account sends business type 0 and a margin account 4; an
    option contract sends 10. *)
Theorem send_order_accepted (insert_ret : Z) (req : OrderRequest)
    (s : Td.XtpTdApi) (xtp_req : XtpOrderRequest) :
  Ext.xtp_request (Td.margin_trading s) req = inr xtp_req ->
  let order :=
    create_order_data req (pretty insert_ret) (Td.gateway_name s) in
  Ext.send_order insert_ret req s
  = (XOk (Td.gateway_name s +:+ "." +:+ pretty insert_ret),
     Td.set_orders (<[pretty insert_ret := order]> (Td.orders s)) s,
     [XVendor (insertOrder xtp_req (Td.session_id s));
      Core (OnOrder order)])
  /\ o_status order = SUBMITTING
  /\ o_traded order = 0
  /\ o_volume order = or_volume req
  /\ xr_quantity xtp_req = or_volume req
  /\ xr_business_type xtp_req
     = (if (String.length (or_symbol req) =? 8)%nat then 10
        else if Td.margin_trading s then 4 else 0).
Proof.
  intros Hreq order.
  split.
  - unfold Ext.send_order, xbind, xget, xemit, xmodify, xret.
    by rewrite Hreq.
  - split; [done|]. split; [done|]. split; [done|].
    revert Hreq. unfold Ext.xtp_request.
    destruct (MARKET_VT2XTP (or_exchange req)) as [market|]; [|done].
    destruct (Td.margin_trading s && _); [done|].
    destruct (String.length (or_symbol req) =? 8)%nat.
    + destruct (OPTION_ORDERTYPE_VT2XTP _); [|done]. by intros [= <-].
    + destruct (if String.prefix "688" (or_symbol req)
                then STAR_ORDERTYPE_VT2XTP else EQUITY_ORDERTYPE_VT2XTP);
        [|done].
      by intros [= <-].
Qed.

Lemma send_order_accepted_witness :
  Ext.send_order 7
    (mk_OrderRequest "600000" SSE LONG LIMIT 100 105000 NONE None) sample_td
  = (XOk "XTP.7",
     Td.set_orders
       (<["7" := mk_OrderData "600000" SSE "7" LIMIT LONG NONE 105000 100 0
                   SUBMITTING None "XTP"]> (Td.orders sample_td)) sample_td,
     [XVendor (insertOrder
                 (mk_XtpOrderRequest "600000" 2 105000 100 (Some 1) None 1 0)
                 0);
      Core (OnOrder (mk_OrderData "600000" SSE "7" LIMIT LONG NONE 105000
                       100 0 SUBMITTING None "XTP"))]).
Proof.
  apply (send_order_accepted 7
           (mk_OrderRequest "600000" SSE LONG LIMIT 100 105000 NONE None)
           sample_td
           (mk_XtpOrderRequest "600000" 2 105000 100 (Some 1) None 1 0)).
  vm_compute. reflexivity.
Defined.

(** X23. An order sent through the gateway is then reconciled under the
    id the vendor returned: the first fill for that id adds its volume to a
    traded volume of 0, and an order update for that id overwrites traded
    volume and status and keeps the symbol, exchange, type, side, offset,
    price and volume of the request, whatever the event says of them. *)
Theorem sent_order_is_reconciled (insert_ret : Z) (req : OrderRequest)
    (s : Td.XtpTdApi) (xtp_req : XtpOrderRequest) :
  Ext.xtp_request (Td.margin_trading s) req = inr xtp_req ->
  let s1 := (Ext.send_order insert_ret req s).1.2 in
  let order :=
    create_order_data req (pretty insert_ret) (Td.gateway_name s) in
  Td.orders s1 !! pretty insert_ret = Some order
  /\ (forall fill,
        te_order_xtp_id fill = insert_ret ->
        fill_decodes fill = true ->
        exists order',
          Td.orders (state_of (Td.onTradeEvent fill s1))
            !! pretty insert_ret = Some order'
          /\ o_traded order' = te_quantity fill
          /\ o_status order'
             = (if te_quantity fill <? or_volume req
                then PARTTRADED else ALLTRADED))
  /\ (forall update error side status,
        oe_order_xtp_id update = insert_ret ->
        Td.decode_side (oe_ticker update) (oe_side update)
          (oe_position_effect update) = Some side ->
        STATUS_XTP2VT (oe_order_status update) = Some status ->
        exists order',
          Td.orders (state_of (Td.onOrderEvent update error s1))
            !! pretty insert_ret = Some order'
          /\ o_traded order' = oe_qty_traded update
          /\ o_status order' = status
          /\ same_order order order').
Proof.
  intros Hreq s1 order.
  assert (Hs1 : s1 = Td.set_orders
                       (<[pretty insert_ret := order]> (Td.orders s)) s).
  { unfold s1, Ext.send_order, xbind, xget, xemit, xmodify, xret.
    by rewrite Hreq. }
  assert (Hlook : Td.orders s1 !! pretty insert_ret = Some order).
  { rewrite Hs1. apply lookup_insert_eq. }
  split; [done|]. split.
  - intros fill <- Hdec.
    exists (filled (te_quantity fill) order). split.
    + rewrite onTradeEvent_orders, Hlook, Hdec. apply lookup_insert_eq.
    + done.
  - intros update error side status <- Hside Hstatus.
    apply (onOrderEvent_match update error s1 side status order);
      done.
Qed.

Lemma sent_order_is_reconciled_witness :
  Td.orders
    (Ext.send_order 7
       (mk_OrderRequest "600000" SSE LONG LIMIT 100 105000 NONE None)
       sample_td).1.2 !! pretty 7
  = Some (create_order_data
            (mk_OrderRequest "600000" SSE LONG LIMIT 100 105000 NONE None)
            (pretty 7) "XTP").
Proof.
  apply (sent_order_is_reconciled 7
           (mk_OrderRequest "600000" SSE LONG LIMIT 100 105000 NONE None)
           sample_td
           (mk_XtpOrderRequest "600000" 2 105000 100 (Some 1) None 1 0)).
  vm_compute. reflexivity.
Defined.

(** * Disconnection and queries of the trading session *)

Lemma embed_run {S A : Type} (m : M S A) (s s1 : S) (a : A)
    (t : list Effect) :
  m s = (Ok a, s1, t) -> embed m s = (XOk a, s1, map Core t).
Proof. intros Hm. unfold embed. by rewrite Hm. Qed.

(** X24. A disconnect of the trading session always logs in again, at
    once: the handler clears both flags, writes one log line and runs
    [login_server] on the stored parameters, with no switch consulted and
    no wait.  The session is connected again exactly when that one login
    returns a session number other than 0. *)
Theorem td_disconnect_always_relogs (env : Td.Env) (session reason : Z)
    (s : Td.XtpTdApi) :
  let s0 := Td.set_login_status false (Td.set_connect_status false s) in
  let r := Ext.onDisconnected env session reason s in
  r = (XOk tt, state_of (Td.login_server env s0),
       XWriteLog (MsgTdDisconnected reason)
       :: map Core (trace_of (Td.login_server env s0)))
  /\ head (trace_of (Td.login_server env s0))
     = Some (Vendor (td_login (Td.server_ip s) (Td.server_port s)
                       (Td.userid s) (Td.password s) (Td.protocol s)))
  /\ (forall seconds, Core (Sleep seconds) ∉ r.2)
  /\ (forall key, Core (GetConfigValue key) ∉ r.2)
  /\ Td.connect_status r.1.2 = negb (Td.login_ret env =? 0)
  /\ Td.login_status r.1.2 = negb (Td.login_ret env =? 0).
Proof.
  intros s0 r.
  assert (Hrun : r = (XOk tt, state_of (Td.login_server env s0),
       XWriteLog (MsgTdDisconnected reason)
       :: map Core (trace_of (Td.login_server env s0)))).
  { subst r. unfold Ext.onDisconnected, xbind, xmodify, xemit, embed.
    cbn -[Td.login_server]. fold s0.
    rewrite (td_login_server_run env s0).
    by destruct (Td.login_ret env =? 0). }
  split; [done|]. rewrite Hrun. simpl.
  rewrite (td_login_server_run env s0).
  destruct (Td.login_ret env =? 0); simpl.
  - split; [done|]. split; [|split; [|done]].
    + intros seconds Hin.
      repeat (apply elem_of_cons in Hin as [Hin|Hin]; [discriminate|]).
      by apply elem_of_nil in Hin.
    + intros key Hin.
      repeat (apply elem_of_cons in Hin as [Hin|Hin]; [discriminate|]).
      by apply elem_of_nil in Hin.
  - split; [done|]. split; [|split; [|done]].
    + intros seconds Hin.
      repeat (apply elem_of_cons in Hin as [Hin|Hin]; [discriminate|]).
      by apply elem_of_nil in Hin.
    + intros key Hin.
      repeat (apply elem_of_cons in Hin as [Hin|Hin]; [discriminate|]).
      by apply elem_of_nil in Hin.
Qed.

(** X25. The position query of the trading session is sent only on a
    connected session: disconnected, [query_position] does nothing.
    Connected, it sends the position query under the next request number,
    and on a margin account the credit-debt query under the one after;
    the request counter ends on the last number used. *)
Theorem query_position_requests (s : Td.XtpTdApi) :
  (Td.connect_status s = false ->
   Ext.query_position s = (XOk tt, s, []))
  /\ (Td.connect_status s = true ->
      Ext.query_position s
      = (XOk tt,
         Td.set_reqid
           (Td.reqid s + (if Td.margin_trading s then 2 else 1)) s,
         XVendor (queryPosition "" (Td.session_id s) (Td.reqid s + 1))
         :: (if Td.margin_trading s
             then [XVendor (queryCreditDebtInfo (Td.session_id s)
                              (Td.reqid s + 2))]
             else []))).
Proof.
  split; intros Hc.
  - unfold Ext.query_position, xbind, xget. by rewrite Hc.
  - unfold Ext.query_position, xbind, xget, xmodify, xemit, xret.
    rewrite Hc. simpl.
    destruct (Td.margin_trading s); simpl; [|done].
    by replace (Td.reqid s + 1 + 1) with (Td.reqid s + 2) by lia.
Qed.

Lemma query_position_requests_witness :
  Ext.query_position sample_td_off = (XOk tt, sample_td_off, [])
  /\ Ext.query_position sample_td
     = (XOk tt, Td.set_reqid 1 sample_td, [XVendor (queryPosition "" 0 1)]).
Proof.
  destruct (query_position_requests sample_td_off) as [Hoff _].
  destruct (query_position_requests sample_td) as [_ Hon].
  split; [apply Hoff; reflexivity | apply Hon; reflexivity].
Defined.

(** * The timer of the gateway *)

Lemma set_reqid_same (td : Td.XtpTdApi) :
  Td.set_reqid (Td.reqid td + 0) td = td.
Proof. destruct td. unfold Td.set_reqid. simpl. by rewrite Z.add_0_r. Qed.

Lemma numbered_app (session_id reqid : Z) (rs1 rs2 : list Gw.Request) :
  Gw.numbered session_id reqid (rs1 ++ rs2)
  = Gw.numbered session_id reqid rs1
    ++ Gw.numbered session_id (reqid + Z.of_nat (length rs1)) rs2.
Proof.
  revert reqid. induction rs1 as [|r rs1 IH]; intros reqid; simpl.
  - by rewrite Z.add_0_r.
  - rewrite IH. do 3 f_equal. lia.
Qed.

Lemma requests_app (t1 t2 : list XEffect) :
  Gw.requests (t1 ++ t2) = Gw.requests t1 ++ Gw.requests t2.
Proof. apply omap_app. Qed.

(** A query of the queue, run through the gateway: on a connected session
    the requests of [asks] under the next request numbers and nothing else,
    the request counter ending on the last number used; nothing on a
    session that is not connected. *)
Lemma call_requests (func : Gw.QueryFn) (g : Gw.XtpGateway) :
  let td := Gw.td_api g in
  let asked :=
    if Td.connect_status td then Gw.asks (Td.margin_trading td) func
    else [] in
  exists t,
    Gw.call func g
    = (XOk tt,
       Gw.set_td_api
         (Td.set_reqid (Td.reqid td + Z.of_nat (length asked)) td) g,
       t)
    /\ Gw.requests t = Gw.numbered (Td.session_id td) (Td.reqid td) asked
    /\ length t = length asked.
Proof.
  destruct g as [md td c queue]. destruct td as [].
  destruct func, connect_status, margin_trading; cbn;
    change (Z.of_nat 2) with 2; change (Z.of_nat 1) with 1;
    change (Z.of_nat 0) with 0;
    rewrite ?Z.add_0_r;
    try replace (reqid + 2) with (reqid + 1 + 1) by lia;
    eexists; (split; [reflexivity|]); by split.
Qed.

Lemma timer_step_trading (now : Gw.daytime) (g : Gw.XtpGateway) :
  Gw.is_curr_trade_time now = true ->
  Gw.process_timer_event now g = (XOk tt, g, []).
Proof. intros Hnow. unfold Gw.process_timer_event. by rewrite Hnow. Qed.

Lemma timer_step_wait (now : Gw.daytime) (g : Gw.XtpGateway) :
  Gw.is_curr_trade_time now = false ->
  Gw.count g = 0 ->
  Gw.process_timer_event now g = (XOk tt, Gw.set_count 1 g, []).
Proof.
  intros Hnow Hcount. unfold Gw.process_timer_event. rewrite Hnow.
  destruct g as [md td c queue]. simpl in Hcount. subst c.
  reflexivity.
Qed.

Lemma timer_step_run (now : Gw.daytime) (g : Gw.XtpGateway)
    (func : Gw.QueryFn) (rest : list Gw.QueryFn) :
  Gw.is_curr_trade_time now = false ->
  Gw.count g = 1 ->
  Gw.query_functions g = func :: rest ->
  let td := Gw.td_api g in
  let asked :=
    if Td.connect_status td then Gw.asks (Td.margin_trading td) func
    else [] in
  exists t,
    Gw.process_timer_event now g
    = (XOk tt,
       Gw.mk_XtpGateway (Gw.md_api g)
         (Td.set_reqid (Td.reqid td + Z.of_nat (length asked)) td) 0
         (rest ++ [func]),
       t)
    /\ Gw.requests t = Gw.numbered (Td.session_id td) (Td.reqid td) asked
    /\ length t = length asked.
Proof.
  intros Hnow Hcount Hqueue. cbv zeta.
  unfold Gw.process_timer_event. rewrite Hnow.
  destruct g as [md td c queue]. simpl in Hcount, Hqueue. subst c queue.
  destruct (call_requests func (Gw.mk_XtpGateway md td 0 rest))
    as (t & Hcall & Hreq & Hlen).
  cbn [Gw.td_api Gw.md_api] in *.
  unfold xbind, xmodify, xget, xret. cbn -[Gw.call Z.ltb Z.add].
  change (1 + 1 <? 2) with false. cbn -[Gw.call Z.add].
  change (Gw.set_query_functions rest _)
    with (Gw.mk_XtpGateway md td 0 rest).
  rewrite Hcall. cbn -[Z.add].
  exists (t ++ []). rewrite app_nil_r. done.
Qed.

Lemma turn_iter_shift (n : nat) (queue : list Gw.QueryFn) :
  Nat.iter n Gw.turn (Gw.turn queue) = Nat.iter (S n) Gw.turn queue.
Proof. induction n as [|n IH]; simpl; [done|]. by rewrite IH. Qed.

Lemma turn_not_nil (queue : list Gw.QueryFn) :
  queue ≠ [] -> Gw.turn queue ≠ [].
Proof.
  destruct queue as [|func rest]; [done|]. intros _. simpl.
  by destruct rest.
Qed.

Lemma idle_events_cons (now : Gw.daytime) (nows : list Gw.daytime) :
  Gw.idle_events (now :: nows)
  = if Gw.is_curr_trade_time now then Gw.idle_events nows
    else S (Gw.idle_events nows).
Proof.
  unfold Gw.idle_events. rewrite filter_cons.
  destruct (Gw.is_curr_trade_time now); by case_decide.
Qed.

(** The gateway after a sequence of timer events and what the vendor was
    asked: [k] is the counter plus the number of events outside the
    trading windows. *)
Lemma run_timer_spec (nows : list Gw.daytime) (g : Gw.XtpGateway) :
  Gw.count g = 0 \/ Gw.count g = 1 ->
  Gw.query_functions g ≠ [] ->
  let k := (Z.to_nat (Gw.count g) + Gw.idle_events nows)%nat in
  let td := Gw.td_api g in
  let asked :=
    if Td.connect_status td
    then flat_map (Gw.asks (Td.margin_trading td))
           (Gw.served (k / 2) (Gw.query_functions g))
    else [] in
  exists t,
    Gw.run_timer nows g
    = (Gw.mk_XtpGateway (Gw.md_api g)
         (Td.set_reqid (Td.reqid td + Z.of_nat (length asked)) td)
         (Z.of_nat (k mod 2))
         (Nat.iter (k / 2) Gw.turn (Gw.query_functions g)),
       t, true)
    /\ Gw.requests t = Gw.numbered (Td.session_id td) (Td.reqid td) asked
    /\ length t = length asked.
Proof.
  revert g. induction nows as [|now nows IH]; intros g Hc Hq; cbv zeta.
  - exists []. unfold Gw.idle_events. cbn [filter list_filter length].
    rewrite Nat.add_0_r.
    assert (Hk : (Z.to_nat (Gw.count g) / 2 = 0
                  /\ Z.of_nat (Z.to_nat (Gw.count g) mod 2) = Gw.count g)%nat).
    { destruct Hc as [-> | ->]; done. }
    destruct Hk as [-> ->]. cbn [Gw.served Nat.iter nat_rect flat_map].
    replace (length (if Td.connect_status (Gw.td_api g)
                     then [] else [] : list Gw.Request)) with 0%nat
      by (by destruct (Td.connect_status _)).
    replace (if Td.connect_status (Gw.td_api g) then [] else []
             : list Gw.Request) with ([] : list Gw.Request)
      by (by destruct (Td.connect_status _)).
    cbn [Z.of_nat]. rewrite set_reqid_same. by destruct g.
  - rewrite idle_events_cons. cbn [Gw.run_timer].
    destruct (Gw.is_curr_trade_time now) eqn:Hnow.
    + rewrite (timer_step_trading now g Hnow).
      destruct (IH g Hc Hq) as (t & -> & Hreq & Hlen).
      exists t. done.
    + destruct Hc as [Hc0 | Hc1].
      * rewrite (timer_step_wait now g Hnow Hc0).
        destruct (IH (Gw.set_count 1 g)) as (t & Hrun & Hreq & Hlen);
          [by right|done|].
        rewrite Hrun. cbn [Gw.set_count Gw.count Gw.td_api Gw.md_api
                            Gw.query_functions] in *.
        rewrite Hc0.
        change (Z.to_nat 0 + S (Gw.idle_events nows))%nat
          with (Z.to_nat 1 + Gw.idle_events nows)%nat.
        exists t. done.
      * destruct (Gw.query_functions g) as [|func rest] eqn:Hqueue; [done|].
        destruct (timer_step_run now g func rest Hnow Hc1 Hqueue)
          as (t1 & Hstep & Hreq1 & Hlen1).
        rewrite Hstep. clear Hstep.
        set (td := Gw.td_api g) in *.
        set (asked1 := if Td.connect_status td
                       then Gw.asks (Td.margin_trading td) func else [])
          in *.
        set (g1 := Gw.mk_XtpGateway (Gw.md_api g)
                     (Td.set_reqid (Td.reqid td + Z.of_nat (length asked1))
                        td) 0 (rest ++ [func])).
        destruct (IH g1) as (t2 & Hrun & Hreq2 & Hlen2);
          [by left|by destruct rest|].
        rewrite Hrun. clear Hrun. subst g1.
        cbn [Gw.count Gw.td_api Gw.md_api Gw.query_functions] in *.
        rewrite Hc1.
        set (n := Gw.idle_events nows) in *.
        change (Z.to_nat 0 + n)%nat with n in *.
        replace (Z.to_nat 1 + S n)%nat with (n + 1 * 2)%nat by lia.
        rewrite Nat.Div0.mod_add, Nat.div_add by done.
        replace (n / 2 + 1)%nat with (S (n / 2)) by lia.
        change (Gw.served (S (n / 2)) (func :: rest))
          with (func :: Gw.served (n / 2) (rest ++ [func])).
        rewrite <- turn_iter_shift. change (Gw.turn (func :: rest))
          with (rest ++ [func]).
        change (Td.connect_status (Td.set_reqid _ td))
          with (Td.connect_status td) in *.
        change (Td.margin_trading (Td.set_reqid _ td))
          with (Td.margin_trading td) in *.
        change (Td.session_id (Td.set_reqid _ td))
          with (Td.session_id td) in *.
        change (Td.reqid (Td.set_reqid ?r td)) with r in *.
        set (asked2 := if Td.connect_status td
                       then flat_map (Gw.asks (Td.margin_trading td))
                              (Gw.served (n / 2) (rest ++ [func]))
                       else []) in *.
        assert (Hasked :
          (if Td.connect_status td
           then flat_map (Gw.asks (Td.margin_trading td))
                  (func :: Gw.served (n / 2) (rest ++ [func]))
           else []) = asked1 ++ asked2).
        { subst asked1 asked2. by destruct (Td.connect_status td). }
        rewrite Hasked. exists (t1 ++ t2).
        rewrite requests_app, Hreq1, Hreq2, numbered_app, !length_app,
          Hlen1, Hlen2.
        split; [|done]. do 3 f_equal.
        unfold Td.set_reqid. simpl. f_equal. lia.
Qed.

(** X26. The timer runs the head of the query queue on every second event
    outside the trading windows and moves it to the tail; events inside
    the windows change nothing and are not counted.  Over any sequence of
    timer events, from a counter of 0 or 1 and a queue that is not empty:
    no event raises, the counter ends as the parity of the events counted,
    the queue as the initial one turned once for every two of them, and
    the market-data session is not touched.  On a connected trading
    session the vendor is asked exactly what the functions run ask, in the
    order of the queue and under consecutive request numbers, and the
    request counter of the session ends on the last number used; on a
    session that is not connected the vendor is asked nothing and the
    session is unchanged. *)
Theorem timer_round_robin (nows : list Gw.daytime) (g : Gw.XtpGateway) :
  Gw.count g = 0 \/ Gw.count g = 1 ->
  Gw.query_functions g ≠ [] ->
  let k := (Z.to_nat (Gw.count g) + Gw.idle_events nows)%nat in
  let td := Gw.td_api g in
  let asked :=
    if Td.connect_status td
    then flat_map (Gw.asks (Td.margin_trading td))
           (Gw.served (k / 2) (Gw.query_functions g))
    else [] in
  let r := Gw.run_timer nows g in
  r.2 = true
  /\ Gw.count r.1.1 = Z.of_nat (k mod 2)
  /\ Gw.query_functions r.1.1
     = Nat.iter (k / 2) Gw.turn (Gw.query_functions g)
  /\ Gw.md_api r.1.1 = Gw.md_api g
  /\ Gw.requests r.1.2 = Gw.numbered (Td.session_id td) (Td.reqid td) asked
  /\ length r.1.2 = length asked
  /\ Gw.td_api r.1.1
     = Td.set_reqid (Td.reqid td + Z.of_nat (length asked)) td
  /\ (Td.connect_status td = false -> r.1.2 = [] /\ Gw.td_api r.1.1 = td)
  /\ (forall now, Gw.is_curr_trade_time now = true ->
        Gw.process_timer_event now g = (XOk tt, g, [])).
Proof.
  intros Hc Hq k td asked r.
  destruct (run_timer_spec nows g Hc Hq) as (t & Hrun & Hreq & Hlen).
  fold k td asked in Hrun, Hreq, Hlen. subst r. rewrite Hrun.
  cbn [fst snd Gw.count Gw.query_functions Gw.md_api Gw.td_api].
  repeat (split; [done|]). split.
  - intros Hoff. subst asked. rewrite Hoff in *. simpl in Hlen.
    apply nil_length_inv in Hlen. split; [done|].
    simpl. apply set_reqid_same.
  - intros now Hnow. by apply timer_step_trading.
Qed.

Lemma timer_round_robin_witness :
  Gw.count (Gw.run_timer sample_nows sample_gateway).1.1 = 0
  /\ Gw.query_functions (Gw.run_timer sample_nows sample_gateway).1.1
     = [Gw.fn_query_account; Gw.fn_query_position]
  /\ Gw.requests (Gw.run_timer sample_nows sample_gateway).1.2
     = [(Gw.ReqAsset, 0, 1); (Gw.ReqPosition, 0, 2)]
  /\ Td.reqid (Gw.td_api (Gw.run_timer sample_nows sample_gateway).1.1) = 2.
Proof.
  destruct (timer_round_robin sample_nows sample_gateway)
    as (_ & Hcount & Hqueue & _ & Hreq & _ & Htd & _); [by left|done|].
  split; [exact Hcount|]. split; [exact Hqueue|]. split; [exact Hreq|].
  rewrite Htd. reflexivity.
Defined.

Lemma served_alone (n : nat) (func : Gw.QueryFn) :
  Gw.served n [func] = replicate n func
  /\ Nat.iter n Gw.turn [func] = [func].
Proof.
  induction n as [|n [IH1 IH2]]; [done|]. simpl. by rewrite IH1, IH2.
Qed.

(** [init_query]: the two queries on the trading session, then the queue
    of the timer, then the registration of the handler. *)
Lemma init_query_run (g : Gw.XtpGateway) :
  let td := Gw.td_api g in
  let asked :=
    if Td.connect_status td then [Gw.ReqAsset; Gw.ReqCreditFund] else [] in
  exists t,
    Gw.init_query g
    = (XOk tt,
       Gw.mk_XtpGateway (Gw.md_api g)
         (Td.set_reqid (Td.reqid td + Z.of_nat (length asked)) td) 0
         [Gw.fn_query_position],
       t ++ [RegisterTimer])
    /\ Gw.requests t = Gw.numbered (Td.session_id td) (Td.reqid td) asked
    /\ length t = length asked.
Proof.
  destruct g as [md td c queue]. destruct td as [].
  destruct connect_status; cbn;
    change (Z.of_nat 2) with 2; change (Z.of_nat 0) with 0;
    rewrite ?Z.add_0_r;
    try replace (reqid + 2) with (reqid + 1 + 1) by lia.
  - eexists [_; _]. (split; [reflexivity|]); by split.
  - exists []. (split; [reflexivity|]); by split.
Qed.

(** X27. [init_query] asks the vendor, on a connected trading session, for
    the assets and then the credit funds, under the next two request
    numbers, and nothing on a session that is not connected; it leaves the
    counter at 0 and the position query alone in the queue, and registers
    the timer handler last, without touching the market-data session.  From
    then on, over any sequence of timer events, no event raises, the queue
    stays the position query alone, and on a connected session the vendor
    is asked for the positions (and, on a margin account, the credit debt
    after them) once for every two events outside the trading windows,
    under the request numbers that follow; on a session that is not
    connected it is asked nothing. *)
Theorem position_refresh_schedule (g : Gw.XtpGateway)
    (nows : list Gw.daytime) :
  let td := Gw.td_api g in
  let asked0 :=
    if Td.connect_status td then [Gw.ReqAsset; Gw.ReqCreditFund] else [] in
  let asked :=
    if Td.connect_status td
    then flat_map (Gw.asks (Td.margin_trading td))
           (replicate (Gw.idle_events nows / 2) Gw.fn_query_position)
    else [] in
  exists g0 t0,
    Gw.init_query g = (XOk tt, g0, t0 ++ [RegisterTimer])
    /\ Gw.requests t0 = Gw.numbered (Td.session_id td) (Td.reqid td) asked0
    /\ length t0 = length asked0
    /\ g0 = Gw.mk_XtpGateway (Gw.md_api g)
              (Td.set_reqid (Td.reqid td + Z.of_nat (length asked0)) td) 0
              [Gw.fn_query_position]
    /\ (Gw.run_timer nows g0).2 = true
    /\ Gw.query_functions (Gw.run_timer nows g0).1.1
       = [Gw.fn_query_position]
    /\ Gw.requests (Gw.run_timer nows g0).1.2
       = Gw.numbered (Td.session_id td)
           (Td.reqid td + Z.of_nat (length asked0)) asked
    /\ length (Gw.run_timer nows g0).1.2 = length asked.
Proof.
  intros td asked0 asked.
  destruct (init_query_run g) as (t0 & Hinit & Hreq0 & Hlen0).
  fold td asked0 in Hinit, Hreq0, Hlen0.
  set (g0 := Gw.mk_XtpGateway (Gw.md_api g)
               (Td.set_reqid (Td.reqid td + Z.of_nat (length asked0)) td) 0
               [Gw.fn_query_position]) in *.
  exists g0, t0.
  split; [exact Hinit|]. split; [exact Hreq0|]. split; [exact Hlen0|].
  split; [reflexivity|].
  destruct (run_timer_spec nows g0) as (t & Hrun & Hreq & Hlen);
    [by left|done|].
  rewrite Hrun. clear Hrun. subst g0.
  cbn [fst snd Gw.count Gw.query_functions Gw.md_api Gw.td_api] in *.
  change (Z.to_nat 0 + Gw.idle_events nows)%nat
    with (Gw.idle_events nows) in *.
  destruct (served_alone (Gw.idle_events nows / 2) Gw.fn_query_position)
    as [Hserved Hturn].
  rewrite Hserved in Hreq, Hlen. rewrite Hturn.
  split; [done|]. split; [done|]. split; [exact Hreq|exact Hlen].
Qed.
